(** * renterd [stores]: host database, consensus subscriber and autopilot store

    A shallow embedding of the SQL-backed store of renterd, package
    [stores]: the host database (the file of [dbHost], [Hosts],
    [RecordHostInteractions] and [ProcessConsensusChange]; line numbers are
    those of that file), the store itself ([SQLStore], [NewSQLStore]) and
    the autopilot store ([stores/autopilot.go]), with the properties of its
    announcement batching, scan bookkeeping, host listing and autopilot
    upsert.

    The relational store is a record of tables.  A gorm statement is a
    function on that record which may fail; [Transaction] commits the effect
    of its body or none of it. *)

From Stdlib Require Import ZArith Floats.
From stdpp Require Import base list strings gmap pretty.

Open Scope Z_scope.

(** ** Go scalars and the pieces of the Go standard library in use *)

(** [uint64] arithmetic: [height--] and [height++] wrap around. *)
Definition wrap64 (z : Z) : Z := z mod 2 ^ 64.

(** Go's [error]; [option error] is a possibly-nil error value. *)
Definition error := string.

Inductive result (A : Type) : Type :=
| Ok (a : A)
| Err (e : error).
Arguments Ok {A} a.
Arguments Err {A} e.

(** [time.Time] as an instant in Unix nanoseconds, [time.Duration] as its
    [int64] count of nanoseconds.  [Time.Sub] saturates. *)
Definition time_Time := Z.
Definition time_Duration := Z.
Definition maxDuration : time_Duration := 2 ^ 63 - 1.
Definition minDuration : time_Duration := - 2 ^ 63.

Definition time_Sub (t u : time_Time) : time_Duration :=
  Z.max minDuration (Z.min maxDuration (t - u)).

(** [time.Since(t)] is [time.Now().Sub(t)]; the clock reading is explicit. *)
Definition time_Since (now t : time_Time) : time_Duration := time_Sub now t.

(** The zero [time.Time] (January 1, year 1, 00:00 UTC). *)
Definition time_zero : time_Time := -62135596800 * 10 ^ 9.

(** [Time.UnixNano] and [time.Unix(0, ns)], inverse to each other. *)
Definition UnixNano (t : time_Time) : Z := t.
Definition time_Unix (ns : Z) : time_Time := ns.

(** [Time.UTC] changes the location, not the instant. *)
Definition UTC (t : time_Time) : time_Time := t.

(** [json.RawMessage]: the bytes of a JSON text. *)
Definition RawMessage := string.

(** [consensus.PublicKey], [modules.ConsensusChangeID], [types.UnlockHash]
    and block identifiers are 32-byte arrays, read as 256-bit numbers. *)
Definition PublicKey := N.
Definition ConsensusChangeID := N.
Definition UnlockHash := N.
Definition BlockID := N.

(** ** Constants of the host database *)

Definition announcementBatchSoftLimit : nat := 1000.
Definition consensusInfoID : Z := 1.

(** Modelled from the spec: the constant [hostdb.InteractionTypeScan], whose
    declaration is not part of the sources at hand; section 4.3 names the
    type tag of a scan interaction "scan". *)
Definition InteractionTypeScan : string := "scan".

(** ** Rows *)

Module Model.
Record t := mk {
  ID : Z;
  CreatedAt : time_Time;
  UpdatedAt : time_Time
}.
End Model.

(** [*big.Int] is [option Z] ([None] for a nil pointer). *)
Module hostSettings.
Record t := mk {
  AcceptingContracts : bool;
  MaxDownloadBatchSize : Z;
  MaxDuration : Z;
  MaxReviseBatchSize : Z;
  NetAddress : string;
  RemainingStorage : Z;
  SectorSize : Z;
  TotalStorage : Z;
  UnlockHash : UnlockHash;
  WindowSize : Z;
  Collateral : option Z;
  MaxCollateral : option Z;
  BaseRPCPrice : option Z;
  ContractPrice : option Z;
  DownloadBandwidthPrice : option Z;
  SectorAccessPrice : option Z;
  StoragePrice : option Z;
  UploadBandwidthPrice : option Z;
  EphemeralAccountExpiry : time_Duration;
  MaxEphemeralAccountBalance : option Z;
  RevisionNumber : Z;
  Version : string;
  SiaMuxPort : string
}.

(** The zero value [hostSettings{}]. *)
Definition zero : t :=
  mk false 0 0 0 "" 0 0 0 0%N 0 None None None None None None None None 0 None 0 "" "".

#[global] Instance eq_dec : EqDecision t.
Proof. solve_decision. Defined.
End hostSettings.

(** [rhp.HostSettings], from the fields [convert] and [convertHostSettings]
    copy; a [types.Currency] is a non-negative integer. *)
Module rhpHostSettings.
Record t := mk {
  AcceptingContracts : bool;
  MaxDownloadBatchSize : Z;
  MaxDuration : Z;
  MaxReviseBatchSize : Z;
  NetAddress : string;
  RemainingStorage : Z;
  SectorSize : Z;
  TotalStorage : Z;
  UnlockHash : UnlockHash;
  WindowSize : Z;
  Collateral : Z;
  MaxCollateral : Z;
  BaseRPCPrice : Z;
  ContractPrice : Z;
  DownloadBandwidthPrice : Z;
  SectorAccessPrice : Z;
  StoragePrice : Z;
  UploadBandwidthPrice : Z;
  EphemeralAccountExpiry : time_Duration;
  MaxEphemeralAccountBalance : Z;
  RevisionNumber : Z;
  Version : string;
  SiaMuxPort : string
}.

Definition zero : t :=
  mk false 0 0 0 "" 0 0 0 0%N 0 0 0 0 0 0 0 0 0 0 0 0 "" "".
End rhpHostSettings.

Module dbHost.
Record t := mk {
  Model : Model.t;
  PublicKey : PublicKey;
  Settings : hostSettings.t;
  TotalScans : Z;
  LastScan : Z;
  LastScanSuccess : bool;
  SecondToLastScanSuccess : bool;
  Uptime : time_Duration;
  Downtime : time_Duration;
  SuccessfulInteractions : float;
  FailedInteractions : float;
  LastAnnouncement : time_Time;
  NetAddress : string
}.
End dbHost.

Module dbInteraction.
Record t := mk {
  Model : Model.t;
  Result : RawMessage;
  Success : bool;
  Timestamp : time_Time;
  Type_ : string
}.
End dbInteraction.

Module dbConsensusInfo.
Record t := mk {
  Model : Model.t;
  CCID : ConsensusChangeID
}.
End dbConsensusInfo.

Module dbAnnouncement.
Record t := mk {
  Model : Model.t;
  HostKey : PublicKey;
  BlockHeight : Z;
  BlockID : string;
  NetAddress : string
}.
End dbAnnouncement.

Module dbAutopilot.
Record t := mk {
  Model : Model.t;
  Identifier : string;
  Config : RawMessage;
  CurrentPeriod : Z
}.
End dbAutopilot.

(** ** Values of the [hostdb], [rhp], [api] and [modules] packages

    Their declarations are outside the files at hand; each record has the
    fields the store reads or writes, under their names. *)

Module ChainIndex.
Record t := mk {
  Height : Z;
  ID : BlockID
}.
End ChainIndex.

Module Announcement.
Record t := mk {
  Index : ChainIndex.t;
  Timestamp : time_Time;
  NetAddress : string
}.
End Announcement.

(** The [announcement] struct of the host database. *)
Module announcement.
Record t := mk {
  hostKey : PublicKey;
  announcement : Announcement.t
}.
End announcement.

Module Interaction.
Record t := mk {
  Timestamp : time_Time;
  Type_ : string;
  Success : bool;
  Result : RawMessage
}.
End Interaction.

(** [hostdb.ScanResult]; only [Settings] is read. *)
Module ScanResult.
Record t := mk {
  Settings : rhpHostSettings.t
}.

Definition zero : t := mk rhpHostSettings.zero.
End ScanResult.

Module Interactions.
Record t := mk {
  TotalScans : Z;
  LastScan : time_Time;
  LastScanSuccess : bool;
  SecondToLastScanSuccess : bool;
  Uptime : time_Duration;
  Downtime : time_Duration;
  SuccessfulInteractions : float;
  FailedInteractions : float
}.
End Interactions.

Module Host.
Record t := mk {
  KnownSince : time_Time;
  NetAddress : string;
  Interactions : Interactions.t;
  PublicKey : PublicKey;
  Settings : option rhpHostSettings.t
}.
End Host.

(** [modules.ConsensusChange] over the block type of the chain;
    [InitialHeight] holds the value of the method of that name, a
    [types.BlockHeight] ([uint64]). *)
Module ConsensusChange.
Record t (Block : Type) := mk {
  ID : ConsensusChangeID;
  RevertedBlocks : list Block;
  AppliedBlocks : list Block;
  InitialHeight : Z
}.
Arguments mk {Block}.
Arguments ID {Block}.
Arguments RevertedBlocks {Block}.
Arguments AppliedBlocks {Block}.
Arguments InitialHeight {Block}.
End ConsensusChange.

(** ** The database and gorm *)

Record DB := mkDB {
  hosts : list dbHost.t;
  host_announcements : list dbAnnouncement.t;
  consensus_infos : list dbConsensusInfo.t;
  host_interactions : list dbInteraction.t;
  autopilots : gmap string dbAutopilot.t
}.

(** What one statement meets when it runs: the clock gorm stamps
    [created_at] and [updated_at] with, and the failure of the driver, if
    any. *)
Record stmtEnv := mkStmtEnv {
  now : time_Time;
  fault : option error
}.

(** A piece of work on a [*gorm.DB] handle that returns an [error]. *)
Definition dbOp := DB -> result DB.

Definition stmt (env : stmtEnv) (effect : time_Time -> DB -> DB) : dbOp :=
  fun d =>
    match fault env with
    | Some e => Err e
    | None => Ok (effect (now env) d)
    end.

(** [if err := op1; err != nil { return err }; return op2]. *)
Definition and_then (op1 op2 : dbOp) : dbOp :=
  fun d =>
    match op1 d with
    | Ok d' => op2 d'
    | Err e => Err e
    end.

Infix ">>" := and_then (at level 61, left associativity).

Definition skip : dbOp := fun d => Ok d.

(** [db.Transaction(fc)]: runs [fc] on a transaction handle, rolls back when
    [fc] returns an error and commits otherwise; a failed commit persists
    nothing either.  The first component is the database afterwards. *)
Definition Transaction (commit : option error) (fc : dbOp) (d : DB)
  : DB * option error :=
  match fc d with
  | Err e => (d, Some e)
  | Ok d' =>
      match commit with
      | Some e => (d, Some e)
      | None => (d', None)
      end
  end.

(** The identifier the database gives a new row: one more than the largest
    in the table. *)
Definition next_ID {A} (id : A -> Z) (rows : list A) : Z :=
  foldr Z.max 0 (id <$> rows) + 1.

(** ** Host database: conversions *)

Definition convertHostSettings (settings : rhpHostSettings.t) : hostSettings.t :=
  {| hostSettings.AcceptingContracts := rhpHostSettings.AcceptingContracts settings;
     hostSettings.MaxDownloadBatchSize := rhpHostSettings.MaxDownloadBatchSize settings;
     hostSettings.MaxDuration := rhpHostSettings.MaxDuration settings;
     hostSettings.MaxReviseBatchSize := rhpHostSettings.MaxReviseBatchSize settings;
     hostSettings.NetAddress := rhpHostSettings.NetAddress settings;
     hostSettings.RemainingStorage := rhpHostSettings.RemainingStorage settings;
     hostSettings.SectorSize := rhpHostSettings.SectorSize settings;
     hostSettings.TotalStorage := rhpHostSettings.TotalStorage settings;
     hostSettings.UnlockHash := rhpHostSettings.UnlockHash settings;
     hostSettings.WindowSize := rhpHostSettings.WindowSize settings;
     hostSettings.Collateral := Some (rhpHostSettings.Collateral settings);
     hostSettings.MaxCollateral := Some (rhpHostSettings.MaxCollateral settings);
     hostSettings.BaseRPCPrice := Some (rhpHostSettings.BaseRPCPrice settings);
     hostSettings.ContractPrice := Some (rhpHostSettings.ContractPrice settings);
     hostSettings.DownloadBandwidthPrice :=
       Some (rhpHostSettings.DownloadBandwidthPrice settings);
     hostSettings.SectorAccessPrice := Some (rhpHostSettings.SectorAccessPrice settings);
     hostSettings.StoragePrice := Some (rhpHostSettings.StoragePrice settings);
     hostSettings.UploadBandwidthPrice :=
       Some (rhpHostSettings.UploadBandwidthPrice settings);
     hostSettings.EphemeralAccountExpiry :=
       rhpHostSettings.EphemeralAccountExpiry settings;
     hostSettings.MaxEphemeralAccountBalance :=
       Some (rhpHostSettings.MaxEphemeralAccountBalance settings);
     hostSettings.RevisionNumber := rhpHostSettings.RevisionNumber settings;
     hostSettings.Version := rhpHostSettings.Version settings;
     hostSettings.SiaMuxPort := rhpHostSettings.SiaMuxPort settings |}.

Section Convert.

(** [types.NewCurrency] of siad, from a [*big.Int]. *)
Variable types_NewCurrency : option Z -> Z.

Definition hostSettings_convert (s : hostSettings.t) : rhpHostSettings.t :=
  {| rhpHostSettings.AcceptingContracts := hostSettings.AcceptingContracts s;
     rhpHostSettings.MaxDownloadBatchSize := hostSettings.MaxDownloadBatchSize s;
     rhpHostSettings.MaxDuration := hostSettings.MaxDuration s;
     rhpHostSettings.MaxReviseBatchSize := hostSettings.MaxReviseBatchSize s;
     rhpHostSettings.NetAddress := hostSettings.NetAddress s;
     rhpHostSettings.RemainingStorage := hostSettings.RemainingStorage s;
     rhpHostSettings.SectorSize := hostSettings.SectorSize s;
     rhpHostSettings.TotalStorage := hostSettings.TotalStorage s;
     rhpHostSettings.UnlockHash := hostSettings.UnlockHash s;
     rhpHostSettings.WindowSize := hostSettings.WindowSize s;
     rhpHostSettings.Collateral := types_NewCurrency (hostSettings.Collateral s);
     rhpHostSettings.MaxCollateral := types_NewCurrency (hostSettings.MaxCollateral s);
     rhpHostSettings.BaseRPCPrice := types_NewCurrency (hostSettings.BaseRPCPrice s);
     rhpHostSettings.ContractPrice := types_NewCurrency (hostSettings.ContractPrice s);
     rhpHostSettings.DownloadBandwidthPrice :=
       types_NewCurrency (hostSettings.DownloadBandwidthPrice s);
     rhpHostSettings.SectorAccessPrice :=
       types_NewCurrency (hostSettings.SectorAccessPrice s);
     rhpHostSettings.StoragePrice := types_NewCurrency (hostSettings.StoragePrice s);
     rhpHostSettings.UploadBandwidthPrice :=
       types_NewCurrency (hostSettings.UploadBandwidthPrice s);
     rhpHostSettings.EphemeralAccountExpiry := hostSettings.EphemeralAccountExpiry s;
     rhpHostSettings.MaxEphemeralAccountBalance :=
       types_NewCurrency (hostSettings.MaxEphemeralAccountBalance s);
     rhpHostSettings.RevisionNumber := hostSettings.RevisionNumber s;
     rhpHostSettings.Version := hostSettings.Version s;
     rhpHostSettings.SiaMuxPort := hostSettings.SiaMuxPort s |}.

(** [dbHost.convert]. *)
Definition dbHost_convert (h : dbHost.t) : Host.t :=
  let lastScan :=
    if bool_decide (dbHost.LastScan h > 0) then time_Unix (dbHost.LastScan h)
    else time_zero in
  {| Host.KnownSince := Model.CreatedAt (dbHost.Model h);
     Host.NetAddress := dbHost.NetAddress h;
     Host.Interactions :=
       {| Interactions.TotalScans := dbHost.TotalScans h;
          Interactions.LastScan := lastScan;
          Interactions.LastScanSuccess := dbHost.LastScanSuccess h;
          Interactions.SecondToLastScanSuccess := dbHost.SecondToLastScanSuccess h;
          Interactions.Uptime := dbHost.Uptime h;
          Interactions.Downtime := dbHost.Downtime h;
          Interactions.SuccessfulInteractions := dbHost.SuccessfulInteractions h;
          Interactions.FailedInteractions := dbHost.FailedInteractions h |};
     Host.PublicKey := dbHost.PublicKey h;
     Host.Settings :=
       if bool_decide (dbHost.Settings h = hostSettings.zero) then None
       else Some (hostSettings_convert (dbHost.Settings h)) |}.

End Convert.

(** ** Table updates *)

Definition set_hosts (rows : list dbHost.t) (d : DB) : DB :=
  {| hosts := rows;
     host_announcements := host_announcements d;
     consensus_infos := consensus_infos d;
     host_interactions := host_interactions d;
     autopilots := autopilots d |}.

Definition set_host_announcements (rows : list dbAnnouncement.t) (d : DB) : DB :=
  {| hosts := hosts d;
     host_announcements := rows;
     consensus_infos := consensus_infos d;
     host_interactions := host_interactions d;
     autopilots := autopilots d |}.

Definition set_consensus_infos (rows : list dbConsensusInfo.t) (d : DB) : DB :=
  {| hosts := hosts d;
     host_announcements := host_announcements d;
     consensus_infos := rows;
     host_interactions := host_interactions d;
     autopilots := autopilots d |}.

Definition set_host_interactions (rows : list dbInteraction.t) (d : DB) : DB :=
  {| hosts := hosts d;
     host_announcements := host_announcements d;
     consensus_infos := consensus_infos d;
     host_interactions := rows;
     autopilots := autopilots d |}.

Definition set_autopilots (rows : gmap string dbAutopilot.t) (d : DB) : DB :=
  {| hosts := hosts d;
     host_announcements := host_announcements d;
     consensus_infos := consensus_infos d;
     host_interactions := host_interactions d;
     autopilots := rows |}.

(** The [Model] gorm fills in when it inserts a row. *)
Definition created (id : Z) (now : time_Time) : Model.t :=
  {| Model.ID := id; Model.CreatedAt := now; Model.UpdatedAt := now |}.

(** The [Model{}] of a struct literal that does not set it. *)
Definition Model_zero : Model.t :=
  {| Model.ID := 0; Model.CreatedAt := time_zero; Model.UpdatedAt := time_zero |}.

Definition announcement_with_Model (m : Model.t) (r : dbAnnouncement.t)
  : dbAnnouncement.t :=
  {| dbAnnouncement.Model := m;
     dbAnnouncement.HostKey := dbAnnouncement.HostKey r;
     dbAnnouncement.BlockHeight := dbAnnouncement.BlockHeight r;
     dbAnnouncement.BlockID := dbAnnouncement.BlockID r;
     dbAnnouncement.NetAddress := dbAnnouncement.NetAddress r |}.

Definition host_with_Model (m : Model.t) (h : dbHost.t) : dbHost.t :=
  {| dbHost.Model := m;
     dbHost.PublicKey := dbHost.PublicKey h;
     dbHost.Settings := dbHost.Settings h;
     dbHost.TotalScans := dbHost.TotalScans h;
     dbHost.LastScan := dbHost.LastScan h;
     dbHost.LastScanSuccess := dbHost.LastScanSuccess h;
     dbHost.SecondToLastScanSuccess := dbHost.SecondToLastScanSuccess h;
     dbHost.Uptime := dbHost.Uptime h;
     dbHost.Downtime := dbHost.Downtime h;
     dbHost.SuccessfulInteractions := dbHost.SuccessfulInteractions h;
     dbHost.FailedInteractions := dbHost.FailedInteractions h;
     dbHost.LastAnnouncement := dbHost.LastAnnouncement h;
     dbHost.NetAddress := dbHost.NetAddress h |}.

(** The assignment of [clause.AssignmentColumns] over [last_announcement]
    and [net_address]: the two columns of the stored row take the values of
    the proposed one, the others stay. *)
Definition assign_announcement (lastAnnouncement : time_Time) (netAddress : string)
  (h : dbHost.t) : dbHost.t :=
  {| dbHost.Model := dbHost.Model h;
     dbHost.PublicKey := dbHost.PublicKey h;
     dbHost.Settings := dbHost.Settings h;
     dbHost.TotalScans := dbHost.TotalScans h;
     dbHost.LastScan := dbHost.LastScan h;
     dbHost.LastScanSuccess := dbHost.LastScanSuccess h;
     dbHost.SecondToLastScanSuccess := dbHost.SecondToLastScanSuccess h;
     dbHost.Uptime := dbHost.Uptime h;
     dbHost.Downtime := dbHost.Downtime h;
     dbHost.SuccessfulInteractions := dbHost.SuccessfulInteractions h;
     dbHost.FailedInteractions := dbHost.FailedInteractions h;
     dbHost.LastAnnouncement := lastAnnouncement;
     dbHost.NetAddress := netAddress |}.

(** [tx.Create(&announcements)]: the rows are appended in order. *)
Definition create_announcement (now : time_Time) (tbl : list dbAnnouncement.t)
  (r : dbAnnouncement.t) : list dbAnnouncement.t :=
  tbl ++ [announcement_with_Model (created (next_ID (Model.ID ∘ dbAnnouncement.Model) tbl) now) r].

Definition create_announcements (rows : list dbAnnouncement.t) (now : time_Time)
  (d : DB) : DB :=
  set_host_announcements (foldl (create_announcement now) (host_announcements d) rows) d.

(** One row of [INSERT INTO hosts ... ON CONFLICT (public_key) DO UPDATE SET
    last_announcement = excluded.last_announcement,
    net_address = excluded.net_address]. *)
Definition upsert_host (now : time_Time) (tbl : list dbHost.t) (r : dbHost.t)
  : list dbHost.t :=
  if bool_decide (dbHost.PublicKey r ∈ dbHost.PublicKey <$> tbl) then
    (fun h =>
       if bool_decide (dbHost.PublicKey h = dbHost.PublicKey r)
       then assign_announcement (dbHost.LastAnnouncement r) (dbHost.NetAddress r) h
       else h) <$> tbl
  else
    tbl ++ [host_with_Model (created (next_ID (Model.ID ∘ dbHost.Model) tbl) now) r].

Definition upsert_hosts (rows : list dbHost.t) (now : time_Time) (d : DB) : DB :=
  set_hosts (foldl (upsert_host now) (hosts d) rows) d.

(** [h'] is [h] in every column but [last_announcement] and
    [net_address]. *)
Definition same_but_announcement (h h' : dbHost.t) : Prop :=
  dbHost.Model h' = dbHost.Model h
  /\ dbHost.PublicKey h' = dbHost.PublicKey h
  /\ dbHost.Settings h' = dbHost.Settings h
  /\ dbHost.TotalScans h' = dbHost.TotalScans h
  /\ dbHost.LastScan h' = dbHost.LastScan h
  /\ dbHost.LastScanSuccess h' = dbHost.LastScanSuccess h
  /\ dbHost.SecondToLastScanSuccess h' = dbHost.SecondToLastScanSuccess h
  /\ dbHost.Uptime h' = dbHost.Uptime h
  /\ dbHost.Downtime h' = dbHost.Downtime h
  /\ dbHost.SuccessfulInteractions h' = dbHost.SuccessfulInteractions h
  /\ dbHost.FailedInteractions h' = dbHost.FailedInteractions h.

(** The rows of [tbl] whose key is [key] all carry the announcement
    [la], [na]. *)
Definition announced (key : PublicKey) (la : time_Time) (na : string)
  (tbl : list dbHost.t) : Prop :=
  forall h, h ∈ tbl -> dbHost.PublicKey h = key ->
    dbHost.LastAnnouncement h = la /\ dbHost.NetAddress h = na.

(** A host row nothing was recorded for: no settings, no scan, no uptime or
    downtime, no interaction. *)
Definition no_history (h : dbHost.t) : Prop :=
  dbHost.Settings h = hostSettings.zero
  /\ dbHost.TotalScans h = 0
  /\ dbHost.LastScan h = 0
  /\ dbHost.LastScanSuccess h = false
  /\ dbHost.SecondToLastScanSuccess h = false
  /\ dbHost.Uptime h = 0
  /\ dbHost.Downtime h = 0
  /\ dbHost.SuccessfulInteractions h = 0%float
  /\ dbHost.FailedInteractions h = 0%float.

(** [UPDATE consensus_infos SET ccid = ?, updated_at = ? WHERE id = ?]. *)
Definition update_ccid (id : Z) (newCCID : ConsensusChangeID) (now : time_Time)
  (d : DB) : DB :=
  set_consensus_infos
    ((fun r =>
        if bool_decide (Model.ID (dbConsensusInfo.Model r) = id) then
          {| dbConsensusInfo.Model :=
               {| Model.ID := Model.ID (dbConsensusInfo.Model r);
                  Model.CreatedAt := Model.CreatedAt (dbConsensusInfo.Model r);
                  Model.UpdatedAt := now |};
             dbConsensusInfo.CCID := newCCID |}
        else r) <$> consensus_infos d) d.

(** ** The store ([SQLStore]) *)

Record SQLStore := mkSQLStore {
  db : DB;
  lastAnnouncementSave : time_Time;
  persistInterval : time_Duration;
  unappliedAnnouncements : list announcement.t;
  unappliedCCID : ConsensusChangeID
}.

(** What a call of [ProcessConsensusChange] meets: the clock at
    [time.Since], the environment of each statement of the flush, the outcome
    of the commit and the clock at the closing [time.Now]. *)
Record flushEnv := mkFlushEnv {
  clock_since : time_Time;
  env_create_announcements : stmtEnv;
  env_create_hosts : stmtEnv;
  env_update_ccid : stmtEnv;
  commit_fault : option error;
  clock_now : time_Time
}.

(** ** Host database: the consensus subscriber *)

Section Subscriber.

Context {Block : Type}.

(** [hostdb.ForEachAnnouncement(b, height, fn)], as the calls of [fn] it
    makes, in order. *)
Variable ForEachAnnouncement : Block -> Z -> list (PublicKey * Announcement.t).

(** [BlockID.String]. *)
Variable BlockID_String : BlockID -> string.

Definition updateCCID (env : stmtEnv) (newCCID : ConsensusChangeID) : dbOp :=
  stmt env (update_ccid consensusInfoID newCCID).

Definition host_of_announcement (a : announcement.t) : dbHost.t :=
  {| dbHost.Model := Model_zero;
     dbHost.PublicKey := announcement.hostKey a;
     dbHost.Settings := hostSettings.zero;
     dbHost.TotalScans := 0;
     dbHost.LastScan := 0;
     dbHost.LastScanSuccess := false;
     dbHost.SecondToLastScanSuccess := false;
     dbHost.Uptime := 0;
     dbHost.Downtime := 0;
     dbHost.SuccessfulInteractions := 0%float;
     dbHost.FailedInteractions := 0%float;
     dbHost.LastAnnouncement := UTC (Announcement.Timestamp (announcement.announcement a));
     dbHost.NetAddress := Announcement.NetAddress (announcement.announcement a) |}.

Definition row_of_announcement (a : announcement.t) : dbAnnouncement.t :=
  {| dbAnnouncement.Model := Model_zero;
     dbAnnouncement.HostKey := announcement.hostKey a;
     dbAnnouncement.BlockHeight :=
       ChainIndex.Height (Announcement.Index (announcement.announcement a));
     dbAnnouncement.BlockID :=
       BlockID_String (ChainIndex.ID (Announcement.Index (announcement.announcement a)));
     dbAnnouncement.NetAddress := Announcement.NetAddress (announcement.announcement a) |}.

Definition insertAnnouncements (env_announcements env_hosts : stmtEnv)
  (as_ : list announcement.t) : dbOp :=
  let hosts := host_of_announcement <$> as_ in
  let announcements := row_of_announcement <$> as_ in
  stmt env_announcements (create_announcements announcements)
  >> stmt env_hosts (upsert_hosts hosts).

(** What the callback handed to [ForEachAnnouncement] appends for block [b]
    scanned at [height]. *)
Definition found (b : Block) (height : Z) : list announcement.t :=
  (fun p => announcement.mk p.1 p.2) <$> ForEachAnnouncement b height.

(** The loop over [cc.RevertedBlocks]. *)
Fixpoint revert_blocks (reverted : list Block) (height : Z) : Z :=
  match reverted with
  | [] => height
  | _ :: rest => revert_blocks rest (wrap64 (height - 1))
  end.

(** The loop over [cc.AppliedBlocks]; the callback appends. *)
Fixpoint apply_blocks (applied : list Block) (height : Z)
  (newAnnouncements : list announcement.t) : list announcement.t :=
  match applied with
  | [] => newAnnouncements
  | b :: rest =>
      apply_blocks rest (wrap64 (height + 1))
        (newAnnouncements ++ found b height)
  end.

(** Lines 325 to 343: the announcements of the change join the queue and
    the change's identifier becomes the unapplied one. *)
Definition enqueue (st : SQLStore) (cc : ConsensusChange.t Block) : SQLStore :=
  let height := revert_blocks (ConsensusChange.RevertedBlocks cc)
                  (ConsensusChange.InitialHeight cc) in
  let newAnnouncements := apply_blocks (ConsensusChange.AppliedBlocks cc) height [] in
  {| db := db st;
     lastAnnouncementSave := lastAnnouncementSave st;
     persistInterval := persistInterval st;
     unappliedAnnouncements := unappliedAnnouncements st ++ newAnnouncements;
     unappliedCCID := ConsensusChange.ID cc |}.

(** The guard of line 346. *)
Definition flush_due (clock : time_Time) (st : SQLStore) : bool :=
  bool_decide (time_Since clock (lastAnnouncementSave st) > persistInterval st)
  || bool_decide (announcementBatchSoftLimit <= length (unappliedAnnouncements st))%nat.

(** The function handed to [db.db.Transaction]. *)
Definition flush_body (env : flushEnv) (st : SQLStore) : dbOp :=
  (if bool_decide (0 < length (unappliedAnnouncements st))%nat
   then insertAnnouncements (env_create_announcements env) (env_create_hosts env)
          (unappliedAnnouncements st)
   else skip)
  >> updateCCID (env_update_ccid env) (unappliedCCID st).

Definition failed_to_apply (n : nat) : string :=
  "failed to apply " +:+ pretty n +:+ " announcements - should never happen".

(** Lines 346 to 362.  The second component is what [println] wrote. *)
Definition apply_announcements (env : flushEnv) (st : SQLStore)
  : SQLStore * list string :=
  if flush_due (clock_since env) st then
    let '(d, err) := Transaction (commit_fault env) (flush_body env st) (db st) in
    let printed :=
      match err with
      | Some _ => [failed_to_apply (length (unappliedAnnouncements st))]
      | None => []
      end in
    ({| db := d;
        lastAnnouncementSave := clock_now env;
        persistInterval := persistInterval st;
        unappliedAnnouncements := [];
        unappliedCCID := unappliedCCID st |}, printed)
  else (st, []).

Definition ProcessConsensusChange (env : flushEnv) (st : SQLStore)
  (cc : ConsensusChange.t Block) : SQLStore * list string :=
  apply_announcements env (enqueue st cc).

(** C2 as the claim has it: the batch a change adds.  For the [i]-th applied
    block, in the order of the blocks, every announcement
    [ForEachAnnouncement] reports for the block at height [height_of i] is
    there once, as the pair of its host key and announcement, in the order
    reported. *)
Definition attributed (height_of : nat -> Z) (applied : list Block)
  : list announcement.t :=
  concat
    (imap
       (fun i b =>
          (fun p => {| announcement.hostKey := p.1; announcement.announcement := p.2 |})
            <$> ForEachAnnouncement b (height_of i))
       applied).

(** A sequence of calls, each in its environment; the store is threaded
    through and the printed lines add up. *)
Fixpoint run (st : SQLStore) (calls : list (flushEnv * ConsensusChange.t Block))
  : SQLStore * list string :=
  match calls with
  | [] => (st, [])
  | (env, cc) :: rest =>
      let '(st1, printed1) := ProcessConsensusChange env st cc in
      let '(st2, printed2) := run st1 rest in
      (st2, printed1 ++ printed2)
  end.

(** During the sequence the queue stays below the soft limit and the time
    since the last save below the persist interval. *)
Fixpoint stays_below (st : SQLStore) (calls : list (flushEnv * ConsensusChange.t Block))
  : Prop :=
  match calls with
  | [] => True
  | (env, cc) :: rest =>
      (length (unappliedAnnouncements (enqueue st cc))
       < announcementBatchSoftLimit)%nat
      /\ time_Since (clock_since env) (lastAnnouncementSave st) < persistInterval st
      /\ stays_below (ProcessConsensusChange env st cc).1 rest
  end.

(** What a committed flush of [batch] leaves in [d'], when [d] is the
    database before it, table by table and column by column.

    [host_announcements]: one row per announcement is appended, in the order
    of the batch, with the key, the height, the block identifier and the
    address of its announcement. *)
Definition announcements_stored (batch : list announcement.t) (d d' : DB) : Prop :=
  exists new,
    host_announcements d' = host_announcements d ++ new
    /\ (fun r => (dbAnnouncement.HostKey r, dbAnnouncement.BlockHeight r,
                  dbAnnouncement.BlockID r, dbAnnouncement.NetAddress r)) <$> new
       = (fun a =>
            (announcement.hostKey a,
             ChainIndex.Height (Announcement.Index (announcement.announcement a)),
             BlockID_String (ChainIndex.ID (Announcement.Index (announcement.announcement a))),
             Announcement.NetAddress (announcement.announcement a))) <$> batch.

(** [hosts]: every announced key has a row; the rows of a key carry the
    timestamp and the address of the key's last announcement in the batch; a
    row that was stored keeps its place and its other columns, and is as it
    was when the batch does not name its key; a row under a key that was not
    stored has nothing recorded. *)
Definition hosts_upserted (batch : list announcement.t) (d d' : DB) : Prop :=
  (forall a, a ∈ batch -> announcement.hostKey a ∈ dbHost.PublicKey <$> hosts d')
  /\ (forall before a after, batch = before ++ a :: after ->
        announcement.hostKey a ∉ announcement.hostKey <$> after ->
        forall h', h' ∈ hosts d' -> dbHost.PublicKey h' = announcement.hostKey a ->
          dbHost.LastAnnouncement h'
          = UTC (Announcement.Timestamp (announcement.announcement a))
          /\ dbHost.NetAddress h'
             = Announcement.NetAddress (announcement.announcement a))
  /\ (forall k h, hosts d !! k = Some h ->
        exists h', hosts d' !! k = Some h'
          /\ same_but_announcement h h'
          /\ (dbHost.PublicKey h ∉ announcement.hostKey <$> batch -> h' = h))
  /\ (forall h', h' ∈ hosts d' ->
        dbHost.PublicKey h' ∉ dbHost.PublicKey <$> hosts d -> no_history h').

(** [consensus_infos]: every row keeps its place and its identifier, the
    row of [consensusInfoID] holds [ccid] and the other rows are as they
    were; so the row of [consensusInfoID], which [NewSQLStore] creates, is
    there with [ccid] when it was there before. *)
Definition checkpoint_stored (ccid : ConsensusChangeID) (d d' : DB) : Prop :=
  length (consensus_infos d') = length (consensus_infos d)
  /\ (forall k r, consensus_infos d !! k = Some r ->
        exists r', consensus_infos d' !! k = Some r'
          /\ Model.ID (dbConsensusInfo.Model r') = Model.ID (dbConsensusInfo.Model r)
          /\ (Model.ID (dbConsensusInfo.Model r) = consensusInfoID ->
              dbConsensusInfo.CCID r' = ccid)
          /\ (Model.ID (dbConsensusInfo.Model r) <> consensusInfoID -> r' = r))
  /\ (consensusInfoID ∈ (Model.ID ∘ dbConsensusInfo.Model) <$> consensus_infos d ->
      exists r', r' ∈ consensus_infos d'
        /\ Model.ID (dbConsensusInfo.Model r') = consensusInfoID
        /\ dbConsensusInfo.CCID r' = ccid).

(** Everything the flush of [batch] under checkpoint [ccid] writes is in
    [d']: the announcement rows, the host rows and the checkpoint; the other
    tables are as in [d]. *)
Definition flushed (batch : list announcement.t) (ccid : ConsensusChangeID)
  (d d' : DB) : Prop :=
  announcements_stored batch d d'
  /\ hosts_upserted batch d d'
  /\ checkpoint_stored ccid d d'
  /\ host_interactions d' = host_interactions d
  /\ autopilots d' = autopilots d.

(** A statement the flush of [batch] runs, or its commit, fails. *)
Definition flush_fails (env : flushEnv) (batch : list announcement.t) : Prop :=
  commit_fault env <> None
  \/ fault (env_update_ccid env) <> None
  \/ (batch <> []
      /\ (fault (env_create_announcements env) <> None
          \/ fault (env_create_hosts env) <> None)).

End Subscriber.

(** ** Host database: host listing *)

(** [Limit(max)] as [FindInBatches] reads it: a limit that is not positive
    is no limit. *)
Definition limit {A} (max : Z) (rows : list A) : list A :=
  if bool_decide (0 < max) then take (Z.to_nat max) rows else rows.

Section Listing.

Variable types_NewCurrency : option Z -> Z.

(** [Hosts]: the chain [Table("hosts").Limit(max).Find(..).FindInBatches(..)]
    visits the rows of [hosts] in the order of their primary key, the
    callback appends the conversion of each; no clause of the chain mentions
    [notSince].  [query_fault] is the error of the chain, if any. *)
Definition Hosts (query_fault : option error) (d : DB) (notSince : time_Time)
  (max : Z) : result (list Host.t) :=
  match query_fault with
  | Some e => Err e
  | None => Ok (dbHost_convert types_NewCurrency <$> limit max (hosts d))
  end.

End Listing.

(** ** Host database: recording interactions *)

(** The column the [%s] of the scan statement names. *)
Inductive timeColumn := uptime | downtime.

(** One scan [UPDATE] of [scanQuery] with the four arguments [scanArgs]
    binds to its placeholders, in their order. *)
Record scanUpdate := mkScanUpdate {
  timeToAddTo : timeColumn;
  arg_last_scan_success : bool;
  arg_time : Z;
  arg_last_scan : Z;
  arg_settings : hostSettings.t
}.

(** The effect of the scan statement on one row; the right-hand sides read
    the row as it was.  The statement has no [WHERE]. *)
Definition exec_scanUpdate (u : scanUpdate) (h : dbHost.t) : dbHost.t :=
  let elapsed :=
    if bool_decide (dbHost.LastScan h = 0) then dbHost.LastScan h
    else arg_time u - dbHost.LastScan h in
  {| dbHost.Model := dbHost.Model h;
     dbHost.PublicKey := dbHost.PublicKey h;
     dbHost.Settings := arg_settings u;
     dbHost.TotalScans := dbHost.TotalScans h + 1;
     dbHost.LastScan := arg_last_scan u;
     dbHost.LastScanSuccess := arg_last_scan_success u;
     dbHost.SecondToLastScanSuccess := dbHost.LastScanSuccess h;
     dbHost.Uptime :=
       match timeToAddTo u with uptime => elapsed | downtime => dbHost.Uptime h end;
     dbHost.Downtime :=
       match timeToAddTo u with uptime => dbHost.Downtime h | downtime => elapsed end;
     dbHost.SuccessfulInteractions := dbHost.SuccessfulInteractions h;
     dbHost.FailedInteractions := dbHost.FailedInteractions h;
     dbHost.LastAnnouncement := dbHost.LastAnnouncement h;
     dbHost.NetAddress := dbHost.NetAddress h |}.

(** [UPDATE hosts SET successful_interactions = successful_interactions + ?,
    failed_interactions = failed_interactions + ? WHERE public_key = ?],
    on one row. *)
Definition exec_counters (successful failed : float) (hostKey : PublicKey)
  (h : dbHost.t) : dbHost.t :=
  if bool_decide (dbHost.PublicKey h = hostKey) then
    {| dbHost.Model := dbHost.Model h;
       dbHost.PublicKey := dbHost.PublicKey h;
       dbHost.Settings := dbHost.Settings h;
       dbHost.TotalScans := dbHost.TotalScans h;
       dbHost.LastScan := dbHost.LastScan h;
       dbHost.LastScanSuccess := dbHost.LastScanSuccess h;
       dbHost.SecondToLastScanSuccess := dbHost.SecondToLastScanSuccess h;
       dbHost.Uptime := dbHost.Uptime h;
       dbHost.Downtime := dbHost.Downtime h;
       dbHost.SuccessfulInteractions :=
         PrimFloat.add (dbHost.SuccessfulInteractions h) successful;
       dbHost.FailedInteractions := PrimFloat.add (dbHost.FailedInteractions h) failed;
       dbHost.LastAnnouncement := dbHost.LastAnnouncement h;
       dbHost.NetAddress := dbHost.NetAddress h |}
  else h.

(** [tx.Exec(query, queryArgs...)]: the counter statement, then the scan
    statements in the order they were attached. *)
Definition exec_query (successful failed : float) (hostKey : PublicKey)
  (scanQuery : list scanUpdate) (now : time_Time) (d : DB) : DB :=
  set_hosts
    (foldl (fun tbl u => exec_scanUpdate u <$> tbl)
       (exec_counters successful failed hostKey <$> hosts d) scanQuery) d.

Definition interaction_with_Model (m : Model.t) (r : dbInteraction.t)
  : dbInteraction.t :=
  {| dbInteraction.Model := m;
     dbInteraction.Result := dbInteraction.Result r;
     dbInteraction.Success := dbInteraction.Success r;
     dbInteraction.Timestamp := dbInteraction.Timestamp r;
     dbInteraction.Type_ := dbInteraction.Type_ r |}.

Definition create_interaction (now : time_Time) (tbl : list dbInteraction.t)
  (r : dbInteraction.t) : list dbInteraction.t :=
  tbl ++ [interaction_with_Model (created (next_ID (Model.ID ∘ dbInteraction.Model) tbl) now) r].

(** [tx.CreateInBatches(&dbInteractions, 100)]. *)
Definition create_interactions (rows : list dbInteraction.t) (now : time_Time)
  (d : DB) : DB :=
  set_host_interactions (foldl (create_interaction now) (host_interactions d) rows) d.

(** What the loop over the interactions has built so far. *)
Record prepared := mkPrepared {
  dbInteractions : list dbInteraction.t;
  successful : float;
  failed : float;
  scanQuery : list scanUpdate
}.

Record recordEnv := mkRecordEnv {
  env_create_interactions : stmtEnv;
  env_exec : stmtEnv;
  record_commit_fault : option error
}.

(** The scan interactions of a batch, in order. *)
Definition scans_of (interactions : list Interaction.t) : list Interaction.t :=
  filter (fun i => Interaction.Type_ i = InteractionTypeScan) interactions.

(** The float counters the loop keeps. *)
Definition count_successful (n : float) (i : Interaction.t) : float :=
  if Interaction.Success i then PrimFloat.add n 1 else n.

Definition count_failed (n : float) (i : Interaction.t) : float :=
  if Interaction.Success i then n else PrimFloat.add n 1.

(** One row under the scan statements of a query, in order. *)
Definition exec_scans (us : list scanUpdate) (h : dbHost.t) : dbHost.t :=
  foldl (fun h u => exec_scanUpdate u h) h us.

(** The elapsed time the scan statement computes for a row whose last scan
    was at [lastScan], for a scan at [t]. *)
Definition elapsed_since (lastScan : Z) (t : time_Time) : Z :=
  if bool_decide (lastScan = 0) then 0 else UnixNano t - lastScan.

Section Recorder.

(** [json.Unmarshal(interaction.Result, &sr)]. *)
Variable json_Unmarshal : RawMessage -> result ScanResult.t.

Definition row_of_interaction (interaction : Interaction.t) : dbInteraction.t :=
  {| dbInteraction.Model := Model_zero;
     dbInteraction.Result := Interaction.Result interaction;
     dbInteraction.Success := Interaction.Success interaction;
     dbInteraction.Timestamp := UTC (Interaction.Timestamp interaction);
     dbInteraction.Type_ := Interaction.Type_ interaction |}.

Definition scan_of_interaction (interaction : Interaction.t) (sr : ScanResult.t)
  : scanUpdate :=
  {| timeToAddTo := if Interaction.Success interaction then uptime else downtime;
     arg_last_scan_success := Interaction.Success interaction;
     arg_time := UnixNano (Interaction.Timestamp interaction);
     arg_last_scan := UnixNano (Interaction.Timestamp interaction);
     arg_settings := convertHostSettings (ScanResult.Settings sr) |}.

(** The statement the loop attaches for the scan interaction [i]. *)
Definition scan_for (i : Interaction.t) (u : scanUpdate) : Prop :=
  exists sr,
    (if Interaction.Success i
     then json_Unmarshal (Interaction.Result i) = Ok sr
     else sr = ScanResult.zero)
    /\ u = scan_of_interaction i sr.

(** The loop of lines 269 to 302; [Err] is its early [return err]. *)
Fixpoint prepare (interactions : list Interaction.t) (acc : prepared)
  : result prepared :=
  match interactions with
  | [] => Ok acc
  | interaction :: rest =>
      let counted :=
        {| dbInteractions := dbInteractions acc ++ [row_of_interaction interaction];
           successful :=
             if Interaction.Success interaction
             then PrimFloat.add (successful acc) 1 else successful acc;
           failed :=
             if Interaction.Success interaction
             then failed acc else PrimFloat.add (failed acc) 1;
           scanQuery := scanQuery acc |} in
      if bool_decide (Interaction.Type_ interaction = InteractionTypeScan) then
        let decoded :=
          if Interaction.Success interaction
          then json_Unmarshal (Interaction.Result interaction)
          else Ok ScanResult.zero in
        match decoded with
        | Err e => Err e
        | Ok sr =>
            prepare rest
              {| dbInteractions := dbInteractions counted;
                 successful := successful counted;
                 failed := failed counted;
                 scanQuery := scanQuery counted ++ [scan_of_interaction interaction sr] |}
        end
      else prepare rest counted
  end.

Definition prepared_zero : prepared :=
  {| dbInteractions := []; successful := 0%float; failed := 0%float; scanQuery := [] |}.

Definition RecordHostInteractions (env : recordEnv) (d : DB) (hostKey : PublicKey)
  (interactions : list Interaction.t) : DB * option error :=
  match prepare interactions prepared_zero with
  | Err e => (d, Some e)
  | Ok p =>
      Transaction (record_commit_fault env)
        (stmt (env_create_interactions env) (create_interactions (dbInteractions p))
         >> stmt (env_exec env)
              (exec_query (successful p) (failed p) hostKey (scanQuery p)))
        d
  end.

End Recorder.



(** ** [stores/autopilot.go] *)

(** [api.Autopilot] over the type of its configuration. *)
Module Autopilot.
Record t (AutopilotConfig : Type) := mk {
  ID : string;
  Config : AutopilotConfig;
  CurrentPeriod : Z
}.
Arguments mk {AutopilotConfig}.
Arguments ID {AutopilotConfig}.
Arguments Config {AutopilotConfig}.
Arguments CurrentPeriod {AutopilotConfig}.
End Autopilot.

(** The identifier of a new row of [autopilots]. *)
Definition next_autopilot_ID (tbl : gmap string dbAutopilot.t) : Z :=
  map_fold (fun _ r acc => Z.max (Model.ID (dbAutopilot.Model r)) acc) 0 tbl + 1.

(** [INSERT INTO autopilots ... ON CONFLICT (identifier) DO UPDATE] with
    [UpdateAll]: a stored row keeps its primary key and [created_at], takes
    the other columns of the proposed row, and [updated_at] is the clock. *)
Definition upsert_autopilot (r : dbAutopilot.t) (now : time_Time) (d : DB) : DB :=
  let tbl := autopilots d in
  let m :=
    match tbl !! dbAutopilot.Identifier r with
    | Some old =>
        {| Model.ID := Model.ID (dbAutopilot.Model old);
           Model.CreatedAt := Model.CreatedAt (dbAutopilot.Model old);
           Model.UpdatedAt := now |}
    | None => created (next_autopilot_ID tbl) now
    end in
  set_autopilots
    (<[dbAutopilot.Identifier r :=
         {| dbAutopilot.Model := m;
            dbAutopilot.Identifier := dbAutopilot.Identifier r;
            dbAutopilot.Config := dbAutopilot.Config r;
            dbAutopilot.CurrentPeriod := dbAutopilot.CurrentPeriod r |}]> tbl) d.

Section AutopilotStore.

Context {AutopilotConfig : Type}.

(** [AutopilotConfig.Validate] of the [api] package. *)
Variable Validate : AutopilotConfig -> option error.

(** [json.Marshal(ap.Config)]. *)
Variable json_Marshal : AutopilotConfig -> result RawMessage.

Definition UpdateAutopilot (env : stmtEnv) (d : DB) (ap : Autopilot.t AutopilotConfig)
  : DB * option error :=
  if bool_decide (Autopilot.ID ap = "") then
    (d, Some "autopilot ID cannot be empty")
  else
    match Validate (Autopilot.Config ap) with
    | Some e => (d, Some e)
    | None =>
        match json_Marshal (Autopilot.Config ap) with
        | Err e => (d, Some e)
        | Ok cfg =>
            match
              stmt env
                (upsert_autopilot
                   {| dbAutopilot.Model := Model_zero;
                      dbAutopilot.Identifier := Autopilot.ID ap;
                      dbAutopilot.Config := cfg;
                      dbAutopilot.CurrentPeriod := Autopilot.CurrentPeriod ap |}) d
            with
            | Err e => (d, Some e)
            | Ok d' => (d', None)
            end
        end
    end.

End AutopilotStore.

(** * Further operations of the store *)

(** The currencies of settings are not negative, as every
    [types.Currency] is. *)
Definition currencies_not_negative (s : rhpHostSettings.t) : Prop :=
  0 <= rhpHostSettings.Collateral s
  /\ 0 <= rhpHostSettings.MaxCollateral s
  /\ 0 <= rhpHostSettings.BaseRPCPrice s
  /\ 0 <= rhpHostSettings.ContractPrice s
  /\ 0 <= rhpHostSettings.DownloadBandwidthPrice s
  /\ 0 <= rhpHostSettings.SectorAccessPrice s
  /\ 0 <= rhpHostSettings.StoragePrice s
  /\ 0 <= rhpHostSettings.UploadBandwidthPrice s
  /\ 0 <= rhpHostSettings.MaxEphemeralAccountBalance s.

(** A host row as an announcement creates it at [now]: no scan, no uptime
    or downtime, no interaction, no settings. *)
Definition fresh_host (now : time_Time) (h : dbHost.t) : Prop :=
  Model.CreatedAt (dbHost.Model h) = now
  /\ dbHost.Settings h = hostSettings.zero
  /\ dbHost.TotalScans h = 0
  /\ dbHost.LastScan h = 0
  /\ dbHost.LastScanSuccess h = false
  /\ dbHost.SecondToLastScanSuccess h = false
  /\ dbHost.Uptime h = 0
  /\ dbHost.Downtime h = 0
  /\ dbHost.SuccessfulInteractions h = 0%float
  /\ dbHost.FailedInteractions h = 0%float.

(** ** Host database: point lookup *)

Definition ErrHostNotFound : error := "host doesn't exist in hostdb".

(** [gorm.ErrRecordNotFound]. *)
Definition ErrRecordNotFound : error := "record not found".

(** The zero [dbHost], a [var h dbHost] before the query fills it. *)
Definition dbHost_zero : dbHost.t :=
  dbHost.mk Model_zero 0%N hostSettings.zero 0 0 false false 0 0 0%float 0%float
    time_zero "".

(** The zero [hostdb.Host{}]. *)
Definition Host_zero : Host.t :=
  Host.mk time_zero ""
    (Interactions.mk 0 time_zero false false 0 0 0%float 0%float) 0%N None.

(** [Take(&h)] over the rows a query selects: the first of them, or
    [ErrRecordNotFound] when there is none; [query_fault] is the failure of
    the driver, if any. *)
Definition Take {A} (query_fault : option error) (rows : list A) : result A :=
  match query_fault with
  | Some e => Err e
  | None =>
      match rows with
      | r :: _ => Ok r
      | [] => Err ErrRecordNotFound
      end
  end.

(** [Where(&dbHost{PublicKey: hostKey})]: a struct condition is built from
    the fields of the struct that are not zero, so the all-zero key selects
    every row. *)
Definition where_dbHost_PublicKey (hostKey : PublicKey) (rows : list dbHost.t)
  : list dbHost.t :=
  filter (fun h => hostKey = 0%N \/ dbHost.PublicKey h = hostKey) rows.

(** [Where("public_key", gobEncode(hostKey))]. *)
Definition where_public_key (hostKey : PublicKey) (rows : list dbHost.t)
  : list dbHost.t :=
  filter (fun h => dbHost.PublicKey h = hostKey) rows.

(** [hostByPubKey]. *)
Definition hostByPubKey (query_fault : option error) (d : DB) (hostKey : PublicKey)
  : dbHost.t * option error :=
  match Take query_fault (where_public_key hostKey (hosts d)) with
  | Ok h => (h, None)
  | Err e => (dbHost_zero, Some e)
  end.

Section Lookup.

Variable types_NewCurrency : option Z -> Z.

(** [SQLStore.Host]. *)
Definition Host (query_fault : option error) (d : DB) (hostKey : PublicKey)
  : Host.t * option error :=
  match Take query_fault (where_dbHost_PublicKey hostKey (hosts d)) with
  | Ok h => (dbHost_convert types_NewCurrency h, None)
  | Err e =>
      if bool_decide (e = ErrRecordNotFound) then (Host_zero, Some ErrHostNotFound)
      else (dbHost_convert types_NewCurrency dbHost_zero, Some e)
  end.

End Lookup.

(** ** The store: [NewSQLStore] *)

(** [modules.ConsensusChangeBeginning] of siad, the zero identifier. *)
Definition ConsensusChangeBeginning : ConsensusChangeID := 0%N.

(** What [NewSQLStore] meets: the outcome of [gorm.Open], of [AutoMigrate]
    and of the index statement (none of the three reads or writes a row),
    the environment of [FirstOrCreate] and the clock at the [time.Now] of
    the store. *)
Record openEnv := mkOpenEnv {
  open_fault : option error;
  migrate_fault : option error;
  index_fault : option error;
  env_first_or_create : stmtEnv;
  clock_open : time_Time
}.

(** [Where(&dbConsensusInfo{Model: Model{ID: consensusInfoID}}).Attrs(..)
    .FirstOrCreate(&ci)]: the first row under the identifier, or a new row
    with the attributes when there is none. *)
Definition first_or_create_consensus_info (env : stmtEnv) (d : DB)
  : result (dbConsensusInfo.t * DB) :=
  match fault env with
  | Some e => Err e
  | None =>
      match
        filter (fun r => Model.ID (dbConsensusInfo.Model r) = consensusInfoID)
          (consensus_infos d)
      with
      | ci :: _ => Ok (ci, d)
      | [] =>
          let ci :=
            {| dbConsensusInfo.Model := created consensusInfoID (now env);
               dbConsensusInfo.CCID := ConsensusChangeBeginning |} in
          Ok (ci, set_consensus_infos (consensus_infos d ++ [ci]) d)
      end
  end.

(** [NewSQLStore].  The first component is the database afterwards; the
    store it returns starts with an empty queue and the zero
    [unappliedCCID]. *)
Definition NewSQLStore (env : openEnv) (d : DB) (migrate : bool)
  (persistInterval : time_Duration)
  : DB * result (SQLStore * ConsensusChangeID) :=
  match open_fault env with
  | Some e => (d, Err e)
  | None =>
      match (if migrate then migrate_fault env else None) with
      | Some e => (d, Err e)
      | None =>
          match index_fault env with
          | Some e => (d, Err e)
          | None =>
              match first_or_create_consensus_info (env_first_or_create env) d with
              | Err e => (d, Err e)
              | Ok (ci, d') =>
                  (d', Ok ({| db := d';
                              lastAnnouncementSave := clock_open env;
                              persistInterval := persistInterval;
                              unappliedAnnouncements := [];
                              unappliedCCID := 0%N |},
                           dbConsensusInfo.CCID ci))
              end
          end
      end
  end.

(** Nothing [NewSQLStore] does fails. *)
Definition opens (env : openEnv) : Prop :=
  open_fault env = None
  /\ migrate_fault env = None
  /\ index_fault env = None
  /\ fault (env_first_or_create env) = None.

(** ** Subscriber: what a change holds and what a call may meet *)

Section SubscriberVocabulary.

Context {Block : Type}.
Variable ForEachAnnouncement : Block -> Z -> list (PublicKey * Announcement.t).

(** The announcements [ProcessConsensusChange] collects from a change. *)
Definition change_announcements (cc : ConsensusChange.t Block) : list announcement.t :=
  apply_blocks ForEachAnnouncement (ConsensusChange.AppliedBlocks cc)
    (revert_blocks (ConsensusChange.RevertedBlocks cc)
       (ConsensusChange.InitialHeight cc)) [].

End SubscriberVocabulary.

(** No statement of the flush fails, nor its commit. *)
Definition no_faults (env : flushEnv) : Prop :=
  fault (env_create_announcements env) = None
  /\ fault (env_create_hosts env) = None
  /\ fault (env_update_ccid env) = None
  /\ commit_fault env = None.

(** The checkpoints a fresh reader finds under [consensusInfoID]. *)
Definition stored_checkpoints (d : DB) : list ConsensusChangeID :=
  dbConsensusInfo.CCID
    <$> filter (fun r => Model.ID (dbConsensusInfo.Model r) = consensusInfoID)
          (consensus_infos d).

(** ** The autopilot store: reading *)

(** A call returns or panics. *)
Inductive outcome (A : Type) : Type :=
| Returns (a : A)
| Panics (msg : string).
Arguments Returns {A} a.
Arguments Panics {A} msg.

Section AutopilotReading.

Context {AutopilotConfig : Type}.

(** [json.Unmarshal(c.Config, &cfg)]. *)
Variable json_Unmarshal_config : RawMessage -> result AutopilotConfig.

(** [api.ErrAutopilotNotFound]. *)
Variable ErrAutopilotNotFound : error.

(** [dbAutopilot.convert]. *)
Definition dbAutopilot_convert (c : dbAutopilot.t)
  : outcome (Autopilot.t AutopilotConfig) :=
  match json_Unmarshal_config (dbAutopilot.Config c) with
  | Err _ => Panics "failed to unmarshal autopilot config"
  | Ok cfg =>
      Returns {| Autopilot.ID := dbAutopilot.Identifier c;
                 Autopilot.Config := cfg;
                 Autopilot.CurrentPeriod := dbAutopilot.CurrentPeriod c |}
  end.

(** The loop [autopilots[i] = ap.convert()]. *)
Fixpoint convert_all (entities : list dbAutopilot.t)
  : outcome (list (Autopilot.t AutopilotConfig)) :=
  match entities with
  | [] => Returns []
  | ap :: rest =>
      match dbAutopilot_convert ap with
      | Panics msg => Panics msg
      | Returns a =>
          match convert_all rest with
          | Panics msg => Panics msg
          | Returns others => Returns (a :: others)
          end
      end
  end.

(** [SQLStore.Autopilots]; the rows come in the order of the table. *)
Definition Autopilots (query_fault : option error) (d : DB)
  : outcome (result (list (Autopilot.t AutopilotConfig))) :=
  match query_fault with
  | Some e => Returns (Err e)
  | None =>
      match convert_all ((map_to_list (autopilots d)).*2) with
      | Panics msg => Panics msg
      | Returns found => Returns (Ok found)
      end
  end.

(** [SQLStore.Autopilot]. *)
Definition Autopilot (query_fault : option error) (d : DB) (id : string)
  : outcome (result (Autopilot.t AutopilotConfig)) :=
  match query_fault with
  | Some e =>
      if bool_decide (e = ErrRecordNotFound) then Returns (Err ErrAutopilotNotFound)
      else Returns (Err e)
  | None =>
      match autopilots d !! id with
      | None => Returns (Err ErrAutopilotNotFound)
      | Some entity =>
          match dbAutopilot_convert entity with
          | Panics msg => Panics msg
          | Returns ap => Returns (Ok ap)
          end
      end
  end.

End AutopilotReading.

(** * Data for evaluation *)

(** A block for evaluation: its identifier, its timestamp and the
    announcements it holds, as host key and address. *)
Record sampleBlock := mkSampleBlock {
  block_id : BlockID;
  block_time : time_Time;
  block_hosts : list (PublicKey * string)
}.

Definition sample_ForEachAnnouncement (b : sampleBlock) (height : Z)
  : list (PublicKey * Announcement.t) :=
  (fun p =>
     (p.1, Announcement.mk (ChainIndex.mk height (block_id b)) (block_time b) p.2))
    <$> block_hosts b.

Definition sample_BlockID_String (id : BlockID) : string := pretty id.

Definition sample_Unmarshal (raw : RawMessage) : result ScanResult.t :=
  if bool_decide (raw = "") then Err "unexpected end of JSON input"
  else Ok (ScanResult.mk
             (rhpHostSettings.mk true 0 0 0 raw 0 0 0 0%N 0 0 0 0 0 0 0 0 0 0 0 0 "1.5.9" "9983")).

Definition sample_NewCurrency (b : option Z) : Z := default 0 b.

Definition ok_at (t : time_Time) : stmtEnv := mkStmtEnv t None.

Definition sample_checkpoint : dbConsensusInfo.t :=
  dbConsensusInfo.mk (created consensusInfoID 0) 0%N.

Definition sample_db : DB := mkDB [] [] [sample_checkpoint] [] ∅.

(** Last save at 1000, persist interval 60. *)
Definition sample_store : SQLStore := mkSQLStore sample_db 1000 60 [] 0%N.

Definition block_a : sampleBlock := mkSampleBlock 10%N 400 [(9%N, "host9:9982")].
Definition block_b : sampleBlock := mkSampleBlock 11%N 500 [(7%N, "host7:9982")].
Definition block_c : sampleBlock :=
  mkSampleBlock 12%N 600 [(8%N, "host8:9982"); (7%N, "host7:9992")].

(** One block reverted, two applied, from height 5. *)
Definition sample_change : ConsensusChange.t sampleBlock :=
  ConsensusChange.mk 42%N [block_a] [block_b; block_c] 5.

Definition empty_change : ConsensusChange.t sampleBlock :=
  ConsensusChange.mk 43%N [] [] 6.

(** The clock 10 after the last save; 1000 after it; and the latter with a
    failing host statement. *)
Definition env_early : flushEnv :=
  mkFlushEnv 1010 (ok_at 1011) (ok_at 1012) (ok_at 1013) None 1014.

Definition env_late : flushEnv :=
  mkFlushEnv 2000 (ok_at 2001) (ok_at 2002) (ok_at 2003) None 2004.

Definition env_late_failing : flushEnv :=
  mkFlushEnv 2000 (ok_at 2001) (mkStmtEnv 2002 (Some "database is locked"))
    (ok_at 2003) None 2004.

Definition env_later : flushEnv :=
  mkFlushEnv 3000 (ok_at 3001) (ok_at 3002) (ok_at 3003) None 3004.

(** Two changes in a row, ten and twenty after the last save. *)
Definition env_early2 : flushEnv :=
  mkFlushEnv 1020 (ok_at 1021) (ok_at 1022) (ok_at 1023) None 1024.

Definition sample_calls : list (flushEnv * ConsensusChange.t sampleBlock) :=
  [(env_early, sample_change); (env_early2, empty_change)].

(** A database with two hosts, both scanned at 100 with success; host 7 has
    uptime 500. *)
Definition host_7 : dbHost.t :=
  dbHost.mk (created 1 50) 7%N hostSettings.zero 3 100 true true 500 0
    2%float 1%float 40 "host7:9982".

Definition host_8 : dbHost.t :=
  dbHost.mk (created 2 60) 8%N hostSettings.zero 1 100 true false 0 0
    0%float 0%float 45 "host8:9982".

(** A host as an announcement creates it. *)
Definition host_9 : dbHost.t :=
  host_with_Model (created 3 70)
    (host_of_announcement
       (announcement.mk 9%N (Announcement.mk (ChainIndex.mk 4 10%N) 400 "host9:9982"))).

Definition hosts_db : DB := mkDB [host_7; host_8; host_9] [] [sample_checkpoint] [] ∅.

(** A store over it: last save at 1000, persist interval 60. *)
Definition hosts_store : SQLStore := mkSQLStore hosts_db 1000 60 [] 0%N.

Definition sample_batch : list announcement.t :=
  [announcement.mk 8%N (Announcement.mk (ChainIndex.mk 6 13%N) 700 "host8:9992");
   announcement.mk 5%N (Announcement.mk (ChainIndex.mk 6 13%N) 700 "host5:9982")].

Definition hosts_db_announced : DB :=
  match insertAnnouncements sample_BlockID_String (ok_at 800) (ok_at 801)
          sample_batch hosts_db with
  | Ok d' => d'
  | Err _ => hosts_db
  end.

Definition record_ok : recordEnv := mkRecordEnv (ok_at 900) (ok_at 901) None.

Definition failed_scan_250 : Interaction.t := Interaction.mk 250 "scan" false "".
Definition good_scan_250 : Interaction.t := Interaction.mk 250 "scan" true "host7:9982".
Definition good_use_240 : Interaction.t := Interaction.mk 240 "use" true "".

Definition host_8_db : DB := mkDB [host_8] [] [sample_checkpoint] [] ∅.

Definition sample_interactions : list Interaction.t := [good_use_240; failed_scan_250].

(** Host 7 alone: last scanned at 100 with success, uptime 500. *)
Definition host_7_db : DB := mkDB [host_7] [] [sample_checkpoint] [] ∅.




Definition hosts_db_scanned : DB :=
  (RecordHostInteractions sample_Unmarshal record_ok hosts_db 7%N sample_interactions).1.

(** The first scan of host 9, a good one, at 250. *)
Definition host_9_scanned : DB :=
  (RecordHostInteractions sample_Unmarshal record_ok hosts_db 9%N [good_scan_250]).1.

(** An autopilot configuration for evaluation: a number of contracts, valid
    when positive. *)
Definition sample_Validate (c : Z) : option error :=
  if bool_decide (0 < c) then None else Some "invalid amount".

Definition sample_Marshal (c : Z) : result RawMessage := Ok (pretty c).

(** Settings with prices, for the conversions. *)
Definition sample_settings : rhpHostSettings.t :=
  rhpHostSettings.mk true 100 4320 200 "host7:9982" 1000 4194304 2000 77%N 144
    5 50 1 2 3 4 6 7 604800 9 12 "1.5.9" "9983".

(** An opening that nothing fails, at clock 5. *)
Definition open_ok : openEnv := mkOpenEnv None None None (ok_at 5) 6.

(** A database without a checkpoint row. *)
Definition empty_db : DB := mkDB [] [] [] [] ∅.

(** A good scan whose result is empty and does not decode. *)
Definition undecodable_scan_260 : Interaction.t := Interaction.mk 260 "scan" true "".

(** A change below the thresholds, then an empty change after the persist
    interval. *)
Definition flushing_calls : list (flushEnv * ConsensusChange.t sampleBlock) :=
  [(env_early, sample_change); (env_late, empty_change)].

Definition sample_Unmarshal_config (raw : RawMessage) : result Z :=
  if bool_decide (raw = "5") then Ok 5
  else if bool_decide (raw = "7") then Ok 7
  else Err "invalid character".

Definition sample_ErrAutopilotNotFound : error := "couldn't find autopilot".

Definition autopilot_5 : Autopilot.t Z := Autopilot.mk "autopilot" 5 3.
Definition autopilot_7 : Autopilot.t Z := Autopilot.mk "autopilot" 7 4.

Definition autopilot_db_5 : DB :=
  (UpdateAutopilot sample_Validate sample_Marshal (ok_at 10) sample_db autopilot_5).1.

Definition autopilot_db_7 : DB :=
  (UpdateAutopilot sample_Validate sample_Marshal (ok_at 20) autopilot_db_5 autopilot_7).1.

(** * Properties *)

(** ** Arithmetic of block heights *)

Lemma wrap64_small z : 0 <= z < 2 ^ 64 -> wrap64 z = z.
Proof. intros Hz. unfold wrap64. by apply Z.mod_small. Qed.

Lemma wrap64_range z : 0 <= wrap64 z < 2 ^ 64.
Proof. unfold wrap64. apply Z.mod_pos_bound. lia. Qed.

Lemma wrap64_succ z k : wrap64 (wrap64 (z + 1) + k) = wrap64 (z + (1 + k)).
Proof. unfold wrap64. rewrite Zplus_mod_idemp_l. f_equal. lia. Qed.

Section SubscriberFacts.

Context {Block : Type}.
Variable ForEachAnnouncement : Block -> Z -> list (PublicKey * Announcement.t).
Variable BlockID_String : BlockID -> string.

Local Abbreviation attributed := (attributed ForEachAnnouncement).

Lemma revert_blocks_height (reverted : list Block) height :
  0 <= height < 2 ^ 64 ->
  revert_blocks reverted height = wrap64 (height - Z.of_nat (length reverted)).
Proof.
  revert height. induction reverted as [|b rest IH]; intros height Hh; simpl.
  - rewrite Z.sub_0_r. by rewrite wrap64_small.
  - rewrite IH by apply wrap64_range.
    unfold wrap64. rewrite Zminus_mod_idemp_l. f_equal. lia.
Qed.

Lemma apply_blocks_attributed applied height acc :
  0 <= height < 2 ^ 64 ->
  apply_blocks ForEachAnnouncement applied height acc
  = acc ++ attributed (fun i => wrap64 (height + Z.of_nat i)) applied.
Proof.
  revert height acc. induction applied as [|b rest IH]; intros height acc Hh.
  - unfold attributed. simpl. by rewrite app_nil_r.
  - simpl. rewrite IH by apply wrap64_range.
    unfold attributed. simpl. rewrite <- app_assoc. f_equal.
    change (Z.of_nat 0) with 0. rewrite Z.add_0_r, (wrap64_small height) by done.
    f_equal. f_equal.
    apply imap_ext. intros i x _. simpl.
    rewrite wrap64_succ. do 3 f_equal. lia.
Qed.

Lemma attributed_ext f g (applied : list Block) :
  (forall i, (i < length applied)%nat -> f i = g i) ->
  attributed f applied = attributed g applied.
Proof.
  intros Hfg. unfold attributed. f_equal. apply imap_ext.
  intros i x Hi. simpl. rewrite Hfg; [done|]. by eapply lookup_lt_Some.
Qed.

Lemma no_flush env st :
  flush_due (clock_since env) st = false ->
  apply_announcements BlockID_String env st = (st, []).
Proof. intros Hdue. unfold apply_announcements. by rewrite Hdue. Qed.

Lemma flushed_buffer env st :
  flush_due (clock_since env) st = true ->
  unappliedAnnouncements (apply_announcements BlockID_String env st).1 = [].
Proof.
  intros Hdue. unfold apply_announcements. rewrite Hdue.
  by destruct (Transaction _ _ _).
Qed.

Lemma attributed_elem_of height_of (applied : list Block) i b hostKey ha :
  applied !! i = Some b ->
  (hostKey, ha) ∈ ForEachAnnouncement b (height_of i) ->
  {| announcement.hostKey := hostKey; announcement.announcement := ha |}
    ∈ attributed height_of applied.
Proof.
  intros Hb Hin. unfold attributed.
  apply list_elem_of_In, in_concat.
  eexists. split.
  - apply list_elem_of_In. by apply (elem_of_lookup_imap_2 _ applied b i).
  - apply list_elem_of_In, list_elem_of_fmap. by exists (hostKey, ha).
Qed.

(** C2.  The working height of [ProcessConsensusChange] starts at the
    initial height [H] of the change, goes down by one per reverted block and
    up by one after each applied block.  The queue after the loop is the
    queue before it followed, for the [i]-th applied block in the order of
    the blocks, by every announcement [ForEachAnnouncement] finds in that
    block at height [H - |R| + i], each as the pair of its host key and
    announcement and in the order found; nothing else is appended.  The
    height is in [uint64] arithmetic, which is the plain difference when
    [|R| <= H] and the sum does not pass [2^64].  In particular every
    announcement found in the [i]-th applied block at that height is in the
    queue.  The queue is what the flush, when due, is given and clears;
    otherwise it is the queue after the call. *)
Theorem ProcessConsensusChange_heights (st : SQLStore) (cc : ConsensusChange.t Block) :
  let H := ConsensusChange.InitialHeight cc in
  let R := ConsensusChange.RevertedBlocks cc in
  let A := ConsensusChange.AppliedBlocks cc in
  0 <= H < 2 ^ 64 ->
  unappliedAnnouncements (enqueue ForEachAnnouncement st cc)
  = unappliedAnnouncements st
      ++ concat
           (imap
              (fun i b =>
                 (fun p => {| announcement.hostKey := p.1;
                              announcement.announcement := p.2 |})
                   <$> ForEachAnnouncement b
                         (wrap64 (H - Z.of_nat (length R) + Z.of_nat i)))
              A)
  /\ (Z.of_nat (length R) <= H ->
      H - Z.of_nat (length R) + Z.of_nat (length A) <= 2 ^ 64 ->
      unappliedAnnouncements (enqueue ForEachAnnouncement st cc)
      = unappliedAnnouncements st
          ++ attributed (fun i => H - Z.of_nat (length R) + Z.of_nat i) A)
  /\ (forall i b hostKey ha,
        A !! i = Some b ->
        (hostKey, ha)
          ∈ ForEachAnnouncement b (wrap64 (H - Z.of_nat (length R) + Z.of_nat i)) ->
        {| announcement.hostKey := hostKey; announcement.announcement := ha |}
          ∈ unappliedAnnouncements (enqueue ForEachAnnouncement st cc))
  /\ forall env,
      unappliedAnnouncements
        (ProcessConsensusChange ForEachAnnouncement BlockID_String env st cc).1
      = if flush_due (clock_since env) (enqueue ForEachAnnouncement st cc) then []
        else unappliedAnnouncements (enqueue ForEachAnnouncement st cc).
Proof.
  intros H R A HH.
  assert (Hq : unappliedAnnouncements (enqueue ForEachAnnouncement st cc)
               = unappliedAnnouncements st
                   ++ attributed
                        (fun i => wrap64 (H - Z.of_nat (length R) + Z.of_nat i)) A).
  { unfold enqueue. simpl. f_equal. fold H R A.
    rewrite revert_blocks_height by done.
    rewrite apply_blocks_attributed by apply wrap64_range.
    simpl. apply attributed_ext. intros i _.
    unfold wrap64. by rewrite Zplus_mod_idemp_l. }
  split; [exact Hq|]. split; [|split].
  - intros HR HA. rewrite Hq. f_equal. apply attributed_ext.
    intros i Hi. apply wrap64_small. lia.
  - intros i b hostKey ha Hb Hin. rewrite Hq. apply elem_of_app. right.
    by apply (attributed_elem_of
                (fun i => wrap64 (H - Z.of_nat (length R) + Z.of_nat i)) A i b).
  - intros env. unfold ProcessConsensusChange.
    destruct (flush_due _ _) eqn:Hdue.
    + by apply flushed_buffer.
    + by rewrite no_flush.
Qed.

End SubscriberFacts.

(** ** Deferred flush *)

Section DeferredFlush.

Context {Block : Type}.
Variable ForEachAnnouncement : Block -> Z -> list (PublicKey * Announcement.t).
Variable BlockID_String : BlockID -> string.

Local Abbreviation process := (ProcessConsensusChange ForEachAnnouncement BlockID_String).
Local Abbreviation run := (run ForEachAnnouncement BlockID_String).
Local Abbreviation stays_below := (stays_below ForEachAnnouncement BlockID_String).

Lemma below_not_due env st cc :
  (length (unappliedAnnouncements (enqueue ForEachAnnouncement st cc))
   < announcementBatchSoftLimit)%nat ->
  time_Since (clock_since env) (lastAnnouncementSave st) < persistInterval st ->
  flush_due (clock_since env) (enqueue ForEachAnnouncement st cc) = false.
Proof.
  intros Hlen Htime. unfold flush_due. apply orb_false_intro.
  - apply bool_decide_eq_false. simpl. lia.
  - apply bool_decide_eq_false. lia.
Qed.

Lemma below_process env st cc :
  (length (unappliedAnnouncements (enqueue ForEachAnnouncement st cc))
   < announcementBatchSoftLimit)%nat ->
  time_Since (clock_since env) (lastAnnouncementSave st) < persistInterval st ->
  process env st cc = (enqueue ForEachAnnouncement st cc, []).
Proof.
  intros Hlen Htime. unfold ProcessConsensusChange.
  apply no_flush. by apply below_not_due.
Qed.

Lemma run_app st calls1 calls2 :
  run st (calls1 ++ calls2)
  = ((run (run st calls1).1 calls2).1, (run st calls1).2 ++ (run (run st calls1).1 calls2).2).
Proof.
  revert st. induction calls1 as [|[env cc] rest IH]; intros st; simpl.
  - by destruct (run st calls2).
  - destruct (process env st cc) as [st1 printed1]. rewrite IH.
    destruct (run st1 rest) as [st2 printed2]. simpl.
    by rewrite app_assoc.
Qed.

Lemma stays_below_app st calls1 calls2 :
  stays_below st (calls1 ++ calls2) ->
  stays_below st calls1 /\ stays_below (run st calls1).1 calls2.
Proof.
  revert st. induction calls1 as [|[env cc] rest IH]; intros st; simpl.
  - done.
  - intros (Hlen & Htime & Hrest). apply IH in Hrest as [Hrest1 Hrest2].
    destruct (process env st cc) as [st1 printed1]. simpl in *.
    destruct (run st1 rest) as [st2 printed2]. simpl in *. done.
Qed.

Lemma stays_below_run st calls :
  stays_below st calls ->
  db (run st calls).1 = db st
  /\ (run st calls).2 = []
  /\ lastAnnouncementSave (run st calls).1 = lastAnnouncementSave st.
Proof.
  revert st. induction calls as [|[env cc] rest IH]; intros st; simpl.
  - done.
  - intros (Hlen & Htime & Hrest).
    rewrite below_process in * by done. simpl in *.
    apply IH in Hrest as (Hdb & Hprinted & Hsave).
    destruct (run _ rest) as [st2 printed2]. simpl in *. by subst.
Qed.

(** C4.  While the queue stays below the soft limit and the time since the
    last save below the persist interval, a sequence of calls of
    [ProcessConsensusChange] commits nothing: the database, and with it the
    stored checkpoint and the announcement table, is as before the sequence
    and nothing is printed; after each call of the sequence the in-memory
    marker is the identifier of the change just processed. *)
Theorem deferred_flush (st : SQLStore) (calls : list (flushEnv * ConsensusChange.t Block)) :
  stays_below st calls ->
  db (run st calls).1 = db st
  /\ consensus_infos (db (run st calls).1) = consensus_infos (db st)
  /\ host_announcements (db (run st calls).1) = host_announcements (db st)
  /\ (run st calls).2 = []
  /\ forall done_ env cc rest,
      calls = done_ ++ (env, cc) :: rest ->
      unappliedCCID (run st (done_ ++ [(env, cc)])).1 = ConsensusChange.ID cc
      /\ db (run st (done_ ++ [(env, cc)])).1 = db st.
Proof.
  intros Hbelow.
  destruct (stays_below_run st calls Hbelow) as (Hdb & Hprinted & _).
  rewrite Hdb. split_and!; try done.
  intros done_ env cc rest Hcalls. split.
  - subst calls.
    apply stays_below_app in Hbelow as [Hdone Hrest].
    rewrite run_app. simpl in *.
    destruct Hrest as (Hlen & Htime & _).
    by rewrite below_process.
  - cut (stays_below st (done_ ++ [(env, cc)])).
    { intros Hb. by apply stays_below_run in Hb as (? & _). }
    subst calls.
    replace (done_ ++ (env, cc) :: rest) with ((done_ ++ [(env, cc)]) ++ rest)
      in Hbelow by (by rewrite <- app_assoc).
    by apply stays_below_app in Hbelow as [? _].
Qed.

End DeferredFlush.

(** ** The host upsert *)

Lemma same_but_announcement_refl h : same_but_announcement h h.
Proof. by repeat split. Qed.

Lemma same_but_announcement_trans h1 h2 h3 :
  same_but_announcement h1 h2 -> same_but_announcement h2 h3 ->
  same_but_announcement h1 h3.
Proof.
  unfold same_but_announcement. intros H12 H23.
  destruct_and!. split_and!; congruence.
Qed.

Lemma same_but_announcement_assign la na h :
  same_but_announcement h (assign_announcement la na h).
Proof. by repeat split. Qed.

Section UpsertHost.

Variable now : time_Time.

Lemma upsert_host_lookup tbl r k h :
  tbl !! k = Some h ->
  exists h', upsert_host now tbl r !! k = Some h'
    /\ same_but_announcement h h'
    /\ (dbHost.PublicKey h <> dbHost.PublicKey r -> h' = h).
Proof.
  intros Hk. unfold upsert_host. case_bool_decide as Hin.
  - rewrite list_lookup_fmap, Hk. simpl. case_bool_decide as Hkey.
    + eexists. split; [done|]. split; [apply same_but_announcement_assign|done].
    + eexists. split; [done|]. split; [apply same_but_announcement_refl|done].
  - exists h. rewrite lookup_app_l by (by eapply lookup_lt_Some).
    split; [done|]. split; [apply same_but_announcement_refl|done].
Qed.

Lemma upsert_host_length tbl r : (length tbl <= length (upsert_host now tbl r))%nat.
Proof.
  unfold upsert_host. case_bool_decide.
  - by rewrite length_fmap.
  - rewrite length_app. lia.
Qed.

Lemma upsert_host_keys tbl r :
  dbHost.PublicKey <$> upsert_host now tbl r
  = if bool_decide (dbHost.PublicKey r ∈ dbHost.PublicKey <$> tbl)
    then dbHost.PublicKey <$> tbl
    else (dbHost.PublicKey <$> tbl) ++ [dbHost.PublicKey r].
Proof.
  unfold upsert_host. case_bool_decide as Hin.
  - rewrite <- list_fmap_compose. apply list_fmap_ext.
    intros i h _. simpl. by case_bool_decide.
  - by rewrite fmap_app.
Qed.

Lemma upsert_host_has_key tbl r :
  dbHost.PublicKey r ∈ dbHost.PublicKey <$> upsert_host now tbl r.
Proof.
  rewrite upsert_host_keys. case_bool_decide; [done|].
  apply elem_of_app. right. by apply list_elem_of_singleton.
Qed.

Lemma upsert_host_keeps_key tbl r key :
  key ∈ dbHost.PublicKey <$> tbl ->
  key ∈ dbHost.PublicKey <$> upsert_host now tbl r.
Proof.
  intros Hin. rewrite upsert_host_keys. case_bool_decide; [done|].
  apply elem_of_app. by left.
Qed.

Lemma upsert_host_NoDup tbl r :
  NoDup (dbHost.PublicKey <$> tbl) ->
  NoDup (dbHost.PublicKey <$> upsert_host now tbl r).
Proof.
  intros Hnd. rewrite upsert_host_keys. case_bool_decide as Hin; [done|].
  apply NoDup_app. split; [done|]. split.
  - intros key Hkey Hr. apply list_elem_of_singleton in Hr. by subst.
  - apply NoDup_singleton.
Qed.

Lemma upsert_host_announced tbl r :
  announced (dbHost.PublicKey r) (dbHost.LastAnnouncement r) (dbHost.NetAddress r)
    (upsert_host now tbl r).
Proof.
  intros h Hh Hkey. unfold upsert_host in Hh. case_bool_decide as Hin.
  - apply list_elem_of_fmap in Hh as (h0 & -> & Hh0).
    case_bool_decide as Hk; [done|].
    by destruct Hk.
  - apply elem_of_app in Hh as [Hh|Hh].
    + destruct Hin. apply list_elem_of_fmap. by exists h.
    + apply list_elem_of_singleton in Hh. by subst.
Qed.

Lemma upsert_host_still_announced tbl r key la na :
  dbHost.PublicKey r <> key ->
  announced key la na tbl -> announced key la na (upsert_host now tbl r).
Proof.
  intros Hne Htbl h Hh Hkey. unfold upsert_host in Hh. case_bool_decide as Hin.
  - apply list_elem_of_fmap in Hh as (h0 & -> & Hh0).
    case_bool_decide as Hk.
    + simpl in Hkey. congruence.
    + by apply Htbl.
  - apply elem_of_app in Hh as [Hh|Hh]; [by apply Htbl|].
    apply list_elem_of_singleton in Hh. subst h. simpl in Hkey. congruence.
Qed.

(** The whole statement: the rows are taken one after the other. *)

Lemma upsert_hosts_lookup rows tbl k h :
  tbl !! k = Some h ->
  exists h', foldl (upsert_host now) tbl rows !! k = Some h'
    /\ same_but_announcement h h'
    /\ (dbHost.PublicKey h ∉ dbHost.PublicKey <$> rows -> h' = h).
Proof.
  revert tbl h. induction rows as [|r rows IH]; intros tbl h Hk; simpl.
  - exists h. split; [done|]. split; [apply same_but_announcement_refl|done].
  - destruct (upsert_host_lookup tbl r k h Hk) as (h1 & Hk1 & Hsame1 & Hother1).
    destruct (IH _ _ Hk1) as (h2 & Hk2 & Hsame2 & Hother2).
    exists h2. split; [done|]. split.
    + by eapply same_but_announcement_trans.
    + intros Hnot. apply not_elem_of_cons in Hnot as [Hne Hnot].
      rewrite Hother1 in * by done. by apply Hother2.
Qed.

Lemma upsert_hosts_keeps_key rows tbl key :
  key ∈ dbHost.PublicKey <$> tbl ->
  key ∈ dbHost.PublicKey <$> foldl (upsert_host now) tbl rows.
Proof.
  revert tbl. induction rows as [|r rows IH]; intros tbl Hin; simpl; [done|].
  apply IH. by apply upsert_host_keeps_key.
Qed.

Lemma upsert_hosts_has_key rows tbl r :
  r ∈ rows ->
  dbHost.PublicKey r ∈ dbHost.PublicKey <$> foldl (upsert_host now) tbl rows.
Proof.
  revert tbl. induction rows as [|r0 rows IH]; intros tbl Hin; simpl.
  - by apply elem_of_nil in Hin.
  - apply elem_of_cons in Hin as [->|Hin].
    + apply upsert_hosts_keeps_key, upsert_host_has_key.
    + by apply IH.
Qed.

Lemma upsert_hosts_NoDup rows tbl :
  NoDup (dbHost.PublicKey <$> tbl) ->
  NoDup (dbHost.PublicKey <$> foldl (upsert_host now) tbl rows).
Proof.
  revert tbl. induction rows as [|r rows IH]; intros tbl Hnd; simpl; [done|].
  by apply IH, upsert_host_NoDup.
Qed.

Lemma upsert_hosts_still_announced rows tbl key la na :
  key ∉ dbHost.PublicKey <$> rows ->
  announced key la na tbl ->
  announced key la na (foldl (upsert_host now) tbl rows).
Proof.
  revert tbl. induction rows as [|r rows IH]; intros tbl Hnot Htbl; simpl; [done|].
  apply not_elem_of_cons in Hnot as [Hne Hnot].
  apply IH; [done|]. by apply upsert_host_still_announced.
Qed.

Lemma upsert_hosts_latest before r after tbl :
  dbHost.PublicKey r ∉ dbHost.PublicKey <$> after ->
  announced (dbHost.PublicKey r) (dbHost.LastAnnouncement r) (dbHost.NetAddress r)
    (foldl (upsert_host now) tbl (before ++ r :: after)).
Proof.
  intros Hnot. rewrite foldl_app. simpl.
  apply upsert_hosts_still_announced; [done|]. apply upsert_host_announced.
Qed.

End UpsertHost.

(** Rows the upsert creates have nothing recorded. *)

Lemma fresh_host_assign now la na h :
  fresh_host now h -> fresh_host now (assign_announcement la na h).
Proof. done. Qed.

Lemma fresh_host_created now id a :
  fresh_host now (host_with_Model (created id now) (host_of_announcement a)).
Proof. by repeat split. Qed.

Lemma upsert_host_fresh now (known : list PublicKey) tbl a :
  (forall h, h ∈ tbl -> dbHost.PublicKey h ∈ known \/ fresh_host now h) ->
  forall h, h ∈ upsert_host now tbl (host_of_announcement a) ->
    dbHost.PublicKey h ∈ known \/ fresh_host now h.
Proof.
  intros Htbl h Hh. unfold upsert_host in Hh. case_bool_decide as Hin.
  - apply list_elem_of_fmap in Hh as (h0 & -> & Hh0).
    destruct (Htbl h0 Hh0) as [Hk|Hf]; case_bool_decide; auto.
  - apply elem_of_app in Hh as [Hh|Hh]; [by apply Htbl|].
    apply list_elem_of_singleton in Hh as ->. right. apply fresh_host_created.
Qed.

Lemma upsert_hosts_fresh now (known : list PublicKey) batch tbl :
  (forall h, h ∈ tbl -> dbHost.PublicKey h ∈ known \/ fresh_host now h) ->
  forall h, h ∈ foldl (upsert_host now) tbl (host_of_announcement <$> batch) ->
    dbHost.PublicKey h ∈ known \/ fresh_host now h.
Proof.
  revert tbl. induction batch as [|a batch IH]; intros tbl Htbl; simpl; [done|].
  apply IH. by apply upsert_host_fresh.
Qed.

Lemma fresh_host_no_history now h : fresh_host now h -> no_history h.
Proof. by intros (_ & Hrest). Qed.

(** ** Statements and transactions *)

Lemma stmt_Ok env effect d d' :
  stmt env effect d = Ok d' -> fault env = None /\ d' = effect (now env) d.
Proof. unfold stmt. destruct (fault env); [done|]. by intros [= <-]. Qed.

Lemma and_then_Ok op1 op2 d d' :
  (op1 >> op2) d = Ok d' -> exists d1, op1 d = Ok d1 /\ op2 d1 = Ok d'.
Proof. unfold and_then. destruct (op1 d) as [d1|e]; [|done]. by exists d1. Qed.

(** A transaction leaves the database as its body made it, or as it was. *)
Lemma Transaction_outcome commit fc d :
  (exists d', Transaction commit fc d = (d', None) /\ fc d = Ok d' /\ commit = None)
  \/ (exists e, Transaction commit fc d = (d, Some e)).
Proof.
  unfold Transaction. destruct (fc d) as [d'|e]; [|right; by exists e].
  destruct commit as [e|]; [right; by exists e|]. left. by exists d'.
Qed.

Lemma create_announcements_rows now rows tbl :
  exists new,
    foldl (create_announcement now) tbl rows = tbl ++ new
    /\ announcement_with_Model Model_zero <$> new
       = announcement_with_Model Model_zero <$> rows.
Proof.
  revert tbl. induction rows as [|r rows IH]; intros tbl; simpl.
  - exists []. by rewrite app_nil_r.
  - destruct (IH (create_announcement now tbl r)) as (new & -> & Hnew).
    eexists (_ :: new). unfold create_announcement. rewrite <- app_assoc.
    split; [done|]. rewrite !fmap_cons. by f_equal.
Qed.

Lemma update_ccid_lookup id newCCID now d k r :
  consensus_infos d !! k = Some r ->
  exists r', consensus_infos (update_ccid id newCCID now d) !! k = Some r'
    /\ Model.ID (dbConsensusInfo.Model r') = Model.ID (dbConsensusInfo.Model r)
    /\ (Model.ID (dbConsensusInfo.Model r) = id -> dbConsensusInfo.CCID r' = newCCID)
    /\ (Model.ID (dbConsensusInfo.Model r) <> id -> r' = r).
Proof.
  intros Hk. unfold update_ccid. simpl. rewrite list_lookup_fmap, Hk. simpl.
  case_bool_decide; eexists; (split; [done|]); by repeat split.
Qed.

Section InsertAnnouncements.

Variable BlockID_String : BlockID -> string.

Lemma insertAnnouncements_Ok env_a env_h batch d d' :
  insertAnnouncements BlockID_String env_a env_h batch d = Ok d' ->
  fault env_a = None /\ fault env_h = None
  /\ hosts d'
     = foldl (upsert_host (now env_h)) (hosts d) (host_of_announcement <$> batch)
  /\ host_announcements d'
     = foldl (create_announcement (now env_a)) (host_announcements d)
         (row_of_announcement BlockID_String <$> batch)
  /\ consensus_infos d' = consensus_infos d
  /\ host_interactions d' = host_interactions d
  /\ autopilots d' = autopilots d.
Proof.
  unfold insertAnnouncements. intros Hok.
  apply and_then_Ok in Hok as (d1 & H1 & H2).
  apply stmt_Ok in H1 as [Ha ->]. apply stmt_Ok in H2 as [Hh ->].
  by repeat split.
Qed.

Lemma host_of_announcement_keys (batch : list announcement.t) :
  dbHost.PublicKey <$> (host_of_announcement <$> batch) = announcement.hostKey <$> batch.
Proof. rewrite <- list_fmap_compose. by apply list_fmap_ext. Qed.

(** C8.  When the announcements of a batch are written, every announcement
    has a host row under its public key afterwards (created when there was
    none, and no second row when there was one), and a host row that was
    there before keeps every column but [last_announcement] and
    [net_address]: model, key, settings, scan counters, uptime, downtime and
    interaction counters are as before.  A host no announcement of the batch
    names is untouched; the two columns of a host the batch names are those
    of its last announcement in the batch. *)
Theorem upsert_keeps_host_statistics (env_a env_h : stmtEnv)
  (batch : list announcement.t) (d d' : DB) :
  insertAnnouncements BlockID_String env_a env_h batch d = Ok d' ->
  (forall a, a ∈ batch -> announcement.hostKey a ∈ dbHost.PublicKey <$> hosts d')
  /\ (NoDup (dbHost.PublicKey <$> hosts d) -> NoDup (dbHost.PublicKey <$> hosts d'))
  /\ (forall k h, hosts d !! k = Some h ->
        exists h', hosts d' !! k = Some h'
          /\ same_but_announcement h h'
          /\ (dbHost.PublicKey h ∉ announcement.hostKey <$> batch -> h' = h))
  /\ (forall before a after, batch = before ++ a :: after ->
        announcement.hostKey a ∉ announcement.hostKey <$> after ->
        forall h', h' ∈ hosts d' -> dbHost.PublicKey h' = announcement.hostKey a ->
          dbHost.LastAnnouncement h'
          = UTC (Announcement.Timestamp (announcement.announcement a))
          /\ dbHost.NetAddress h'
             = Announcement.NetAddress (announcement.announcement a)).
Proof.
  intros Hok.
  apply insertAnnouncements_Ok in Hok as (_ & _ & Hhosts & _).
  rewrite Hhosts. split_and!.
  - intros a Ha.
    apply (upsert_hosts_has_key (now env_h) _ (hosts d) (host_of_announcement a)).
    apply list_elem_of_fmap. by exists a.
  - apply upsert_hosts_NoDup.
  - intros k h Hk.
    destruct (upsert_hosts_lookup (now env_h) (host_of_announcement <$> batch)
                (hosts d) k h Hk) as (h' & Hk' & Hsame & Hother).
    exists h'. split; [done|]. split; [done|].
    intros Hnot. apply Hother. by rewrite host_of_announcement_keys.
  - intros before a after -> Hnot h' Hh' Hkey.
    rewrite fmap_app, fmap_cons in Hh'.
    eapply (upsert_hosts_latest (now env_h) _ (host_of_announcement a)); [|done|done].
    by rewrite host_of_announcement_keys.
Qed.

End InsertAnnouncements.

(** ** The flush *)

Section Flush.

Context {Block : Type}.
Variable ForEachAnnouncement : Block -> Z -> list (PublicKey * Announcement.t).
Variable BlockID_String : BlockID -> string.

Local Abbreviation flushed := (flushed BlockID_String).

Lemma row_of_announcement_Model_zero (batch : list announcement.t) :
  announcement_with_Model Model_zero <$> (row_of_announcement BlockID_String <$> batch)
  = row_of_announcement BlockID_String <$> batch.
Proof. rewrite <- list_fmap_compose. by apply list_fmap_ext. Qed.

(** What the body of the flush makes of each table. *)
Lemma flush_body_tables env st d d' :
  flush_body BlockID_String env st d = Ok d' ->
  hosts d'
  = foldl (upsert_host (now (env_create_hosts env))) (hosts d)
      (host_of_announcement <$> unappliedAnnouncements st)
  /\ host_announcements d'
     = foldl (create_announcement (now (env_create_announcements env)))
         (host_announcements d)
         (row_of_announcement BlockID_String <$> unappliedAnnouncements st)
  /\ consensus_infos d'
     = consensus_infos
         (update_ccid consensusInfoID (unappliedCCID st) (now (env_update_ccid env)) d)
  /\ host_interactions d' = host_interactions d
  /\ autopilots d' = autopilots d.
Proof.
  unfold flush_body. intros Hok.
  apply and_then_Ok in Hok as (d1 & H1 & H2).
  apply stmt_Ok in H2 as [_ ->].
  case_bool_decide as Hlen.
  - apply insertAnnouncements_Ok in H1 as (_ & _ & Hh & Ha & Hc & Hi & Hp).
    simpl. by rewrite Hc.
  - injection H1 as <-.
    assert (Hnil : unappliedAnnouncements st = []).
    { destruct (unappliedAnnouncements st); [done|]. simpl in Hlen. lia. }
    by rewrite Hnil.
Qed.

Lemma announcement_columns (batch : list announcement.t) new :
  announcement_with_Model Model_zero <$> new
  = announcement_with_Model Model_zero <$> (row_of_announcement BlockID_String <$> batch) ->
  (fun r => (dbAnnouncement.HostKey r, dbAnnouncement.BlockHeight r,
             dbAnnouncement.BlockID r, dbAnnouncement.NetAddress r)) <$> new
  = (fun a =>
       (announcement.hostKey a,
        ChainIndex.Height (Announcement.Index (announcement.announcement a)),
        BlockID_String (ChainIndex.ID (Announcement.Index (announcement.announcement a))),
        Announcement.NetAddress (announcement.announcement a))) <$> batch.
Proof.
  intros Hnew.
  apply (f_equal (fmap (fun r => (dbAnnouncement.HostKey r, dbAnnouncement.BlockHeight r,
                                  dbAnnouncement.BlockID r, dbAnnouncement.NetAddress r))))
    in Hnew.
  rewrite <- !list_fmap_compose in Hnew.
  etrans; [|etrans; [exact Hnew|]]; by apply list_fmap_ext.
Qed.

Lemma update_ccid_stored ccid now d :
  checkpoint_stored ccid d (update_ccid consensusInfoID ccid now d).
Proof.
  split_and!.
  - unfold update_ccid. simpl. by rewrite length_fmap.
  - intros k r Hk. apply (update_ccid_lookup consensusInfoID ccid now d k r Hk).
  - intros Hin. apply list_elem_of_fmap in Hin as (r & Hid & Hr).
    apply list_elem_of_lookup_1 in Hr as (k & Hk).
    destruct (update_ccid_lookup consensusInfoID ccid now d k r Hk)
      as (r' & Hk' & Hid' & Hccid & _).
    exists r'. split; [by eapply list_elem_of_lookup_2|].
    simpl in Hid. split; [congruence|]. by apply Hccid.
Qed.

Lemma flush_body_Ok env st d d' :
  flush_body BlockID_String env st d = Ok d' ->
  flushed (unappliedAnnouncements st) (unappliedCCID st) d d'.
Proof.
  intros Hok.
  apply flush_body_tables in Hok as (Hhosts & Hann & Hccid & Hint & Hap).
  set (batch := unappliedAnnouncements st) in *.
  split_and!; try done.
  - destruct (create_announcements_rows (now (env_create_announcements env))
                (row_of_announcement BlockID_String <$> batch)
                (host_announcements d)) as (new & Hrows & Hnew).
    exists new. split; [by rewrite Hann|]. by apply announcement_columns.
  - unfold hosts_upserted. rewrite Hhosts. split_and!.
    + intros a Ha.
      apply (upsert_hosts_has_key _ _ (hosts d) (host_of_announcement a)).
      apply list_elem_of_fmap. by exists a.
    + intros before a after Hbatch Hlast h' Hh' Hkey.
      rewrite Hbatch, fmap_app, fmap_cons in Hh'.
      eapply (upsert_hosts_latest _ _ (host_of_announcement a)); [|done|done].
      by rewrite host_of_announcement_keys.
    + intros k h Hk.
      destruct (upsert_hosts_lookup (now (env_create_hosts env))
                  (host_of_announcement <$> batch) (hosts d) k h Hk)
        as (h' & Hk' & Hsame & Hother).
      exists h'. split; [done|]. split; [done|].
      intros Hnot. apply Hother. by rewrite host_of_announcement_keys.
    + intros h' Hh' Hnew.
      destruct (upsert_hosts_fresh (now (env_create_hosts env))
                  (dbHost.PublicKey <$> hosts d) batch (hosts d)) with (h := h')
        as [Hold|Hfresh]; [|done|done|by eapply fresh_host_no_history].
      intros h0 Hh0. left. apply list_elem_of_fmap. by exists h0.
  - unfold checkpoint_stored. rewrite Hccid. apply update_ccid_stored.
Qed.

Lemma flush_body_no_fault env st d :
  fault (env_create_announcements env) = None ->
  fault (env_create_hosts env) = None ->
  fault (env_update_ccid env) = None ->
  exists d', flush_body BlockID_String env st d = Ok d'.
Proof.
  intros Ha Hh Hc.
  unfold flush_body, insertAnnouncements, updateCCID, and_then, stmt, skip.
  rewrite Ha, Hh, Hc. case_bool_decide; by eexists.
Qed.

Lemma flush_fails_Transaction env st :
  flush_fails env (unappliedAnnouncements st) ->
  exists e,
    Transaction (commit_fault env) (flush_body BlockID_String env st) (db st)
    = (db st, Some e).
Proof.
  unfold flush_fails, Transaction, flush_body, insertAnnouncements, updateCCID.
  unfold and_then, stmt, skip.
  intros Hfails.
  destruct (unappliedAnnouncements st) as [|a batch] eqn:Hbatch; simpl.
  - destruct (fault (env_update_ccid env)) as [e|]; [by eexists|].
    destruct (commit_fault env) as [e|]; [by eexists|].
    by destruct Hfails as [?|[?|[? _]]].
  - destruct (fault (env_create_announcements env)) as [e|]; [by eexists|].
    destruct (fault (env_create_hosts env)) as [e|]; [by eexists|].
    destruct (fault (env_update_ccid env)) as [e|]; [by eexists|].
    destruct (commit_fault env) as [e|]; [by eexists|].
    by destruct Hfails as [?|[?|[_ [?|?]]]].
Qed.

(** C1.  A flush of [ProcessConsensusChange] is one transaction.  Whatever
    statement of it fails, or the commit, the database after the call is the
    database before it (no announcement row, no host row, no checkpoint
    written) and the failure is printed.  When nothing fails, nothing is
    printed and all of it is stored: a row per queued announcement at the
    end of [host_announcements], in the order of the queue, with the key,
    height, block identifier and address of the announcement; a host row
    for every announced key, with the timestamp and address of the key's
    last announcement, the rows that were stored keeping their place and
    other columns and the new ones with nothing recorded; and the identifier
    of the change in the row of [consensusInfoID], which is there when it
    was there before, the other rows and tables as they were.  There is no
    third outcome: the checkpoint is never stored without the announcements,
    nor the announcements without the checkpoint. *)
Theorem flush_is_atomic (env : flushEnv) (st : SQLStore) (cc : ConsensusChange.t Block) :
  let st1 := enqueue ForEachAnnouncement st cc in
  let out := ProcessConsensusChange ForEachAnnouncement BlockID_String env st cc in
  flush_due (clock_since env) st1 = true ->
  ((out.2 = [failed_to_apply (length (unappliedAnnouncements st1))]
    /\ db out.1 = db st)
   \/ (out.2 = []
       /\ flushed (unappliedAnnouncements st1) (ConsensusChange.ID cc)
            (db st) (db out.1)))
  /\ (fault (env_create_announcements env) = None ->
      fault (env_create_hosts env) = None ->
      fault (env_update_ccid env) = None ->
      commit_fault env = None ->
      out.2 = [])
  /\ (flush_fails env (unappliedAnnouncements st1) ->
      out.2 = [failed_to_apply (length (unappliedAnnouncements st1))]
      /\ db out.1 = db st).
Proof.
  intros st1 out Hdue. subst out.
  unfold ProcessConsensusChange, apply_announcements. fold st1. rewrite Hdue.
  split_and!.
  - unfold Transaction.
    destruct (flush_body BlockID_String env st1 (db st1)) as [d'|e] eqn:Hbody;
      [|by left].
    destruct (commit_fault env) as [e|]; [by left|].
    right. split; [done|]. by apply flush_body_Ok in Hbody.
  - intros Ha Hh Hc Hcommit.
    destruct (flush_body_no_fault env st1 (db st1) Ha Hh Hc) as (d' & Hd').
    unfold Transaction. by rewrite Hd', Hcommit.
  - intros Hfails.
    by destruct (flush_fails_Transaction env st1 Hfails) as (e & ->).
Qed.

End Flush.

(** ** Recording interactions *)

Lemma exec_scans_rows us (tbl : list dbHost.t) :
  foldl (fun tbl u => exec_scanUpdate u <$> tbl) tbl us = exec_scans us <$> tbl.
Proof.
  revert tbl. induction us as [|u us IH]; intros tbl; simpl.
  - unfold exec_scans. simpl. by rewrite list_fmap_id.
  - rewrite IH. rewrite <- list_fmap_compose. by apply list_fmap_ext.
Qed.

Lemma exec_scans_snoc us u h :
  exec_scans (us ++ [u]) h = exec_scanUpdate u (exec_scans us h).
Proof. unfold exec_scans. by rewrite foldl_app. Qed.

Lemma exec_scans_frame us h :
  dbHost.Model (exec_scans us h) = dbHost.Model h
  /\ dbHost.PublicKey (exec_scans us h) = dbHost.PublicKey h
  /\ dbHost.TotalScans (exec_scans us h) = dbHost.TotalScans h + Z.of_nat (length us)
  /\ dbHost.SuccessfulInteractions (exec_scans us h) = dbHost.SuccessfulInteractions h
  /\ dbHost.FailedInteractions (exec_scans us h) = dbHost.FailedInteractions h
  /\ dbHost.LastAnnouncement (exec_scans us h) = dbHost.LastAnnouncement h
  /\ dbHost.NetAddress (exec_scans us h) = dbHost.NetAddress h.
Proof.
  induction us as [|u us IH] using rev_ind.
  - unfold exec_scans. simpl. split_and!; try done. lia.
  - rewrite exec_scans_snoc. destruct IH as (? & ? & Hn & ? & ? & ? & ?).
    simpl. rewrite length_app. simpl. split_and!; try done. rewrite Hn. lia.
Qed.

Lemma exec_counters_frame s f key h :
  dbHost.Model (exec_counters s f key h) = dbHost.Model h
  /\ dbHost.PublicKey (exec_counters s f key h) = dbHost.PublicKey h
  /\ dbHost.Settings (exec_counters s f key h) = dbHost.Settings h
  /\ dbHost.TotalScans (exec_counters s f key h) = dbHost.TotalScans h
  /\ dbHost.LastScan (exec_counters s f key h) = dbHost.LastScan h
  /\ dbHost.LastScanSuccess (exec_counters s f key h) = dbHost.LastScanSuccess h
  /\ dbHost.SecondToLastScanSuccess (exec_counters s f key h)
     = dbHost.SecondToLastScanSuccess h
  /\ dbHost.Uptime (exec_counters s f key h) = dbHost.Uptime h
  /\ dbHost.Downtime (exec_counters s f key h) = dbHost.Downtime h.
Proof. unfold exec_counters. case_bool_decide; by repeat split. Qed.

Section RecorderFacts.

Variable json_Unmarshal : RawMessage -> result ScanResult.t.

Local Abbreviation scan_for := (scan_for json_Unmarshal).

Lemma prepare_Ok interactions acc p :
  prepare json_Unmarshal interactions acc = Ok p ->
  (exists us, scanQuery p = scanQuery acc ++ us
              /\ Forall2 scan_for (scans_of interactions) us)
  /\ successful p = foldl count_successful (successful acc) interactions
  /\ failed p = foldl count_failed (failed acc) interactions
  /\ dbInteractions p = dbInteractions acc ++ (row_of_interaction <$> interactions).
Proof.
  revert acc. induction interactions as [|i rest IH]; intros acc; simpl.
  - intros [= <-]. split_and!; try done.
    + exists []. by rewrite app_nil_r.
    + by rewrite app_nil_r.
  - unfold scans_of. case_bool_decide as Hscan.
    + rewrite filter_cons_True by done.
      destruct (if Interaction.Success i then _ else _) as [sr|e] eqn:Hdec; [|done].
      intros Hp. apply IH in Hp as ((us & Hus & Hall) & Hs & Hf & Hrows).
      simpl in *. split_and!.
      * exists (scan_of_interaction i sr :: us). rewrite Hus, <- app_assoc.
        split; [done|]. constructor; [|done].
        exists sr. split; [|done].
        destruct (Interaction.Success i); [done|]. by injection Hdec as <-.
      * done.
      * done.
      * by rewrite Hrows, <- app_assoc.
    + rewrite filter_cons_False by done.
      intros Hp. apply IH in Hp as ((us & Hus & Hall) & Hs & Hf & Hrows).
      simpl in *. split_and!; try done.
      * by exists us.
      * by rewrite Hrows, <- app_assoc.
Qed.

(** A successful call: what became of each row of [hosts]. *)
Lemma RecordHostInteractions_rows env d hostKey interactions d' :
  RecordHostInteractions json_Unmarshal env d hostKey interactions = (d', None) ->
  exists us,
    Forall2 scan_for (scans_of interactions) us
    /\ hosts d'
       = (fun h =>
            exec_scans us
              (exec_counters (foldl count_successful 0%float interactions)
                 (foldl count_failed 0%float interactions) hostKey h)) <$> hosts d.
Proof.
  unfold RecordHostInteractions.
  destruct (prepare _ _ _) as [p|e] eqn:Hp; [|done].
  apply prepare_Ok in Hp as ((us & Hus & Hall) & Hs & Hf & _). simpl in *.
  unfold Transaction.
  destruct ((_ >> _) d) as [d1|e] eqn:Hbody; [|done].
  destruct (record_commit_fault env); [done|]. intros [= <-].
  apply and_then_Ok in Hbody as (d0 & H0 & H1).
  apply stmt_Ok in H0 as [_ ->]. apply stmt_Ok in H1 as [_ ->].
  exists us. split; [done|]. simpl.
  rewrite exec_scans_rows, <- list_fmap_compose, Hus, Hs, Hf. done.
Qed.

Lemma RecordHostInteractions_failed env d hostKey interactions d' e :
  RecordHostInteractions json_Unmarshal env d hostKey interactions = (d', Some e) ->
  d' = d.
Proof.
  unfold RecordHostInteractions, Transaction.
  destruct (prepare _ _ _) as [p|e0]; [|by intros [= <-]].
  destruct ((_ >> _) d) as [d1|e1]; [|by intros [= <-]].
  destruct (record_commit_fault env); [by intros [= <-]|done].
Qed.

End RecorderFacts.

Section ScanFacts.

Variable json_Unmarshal : RawMessage -> result ScanResult.t.

Local Abbreviation record := (RecordHostInteractions json_Unmarshal).
Local Abbreviation scan_for := (scan_for json_Unmarshal).

Lemma scans_single i us :
  Forall2 scan_for [i] us -> exists u, us = [u] /\ scan_for i u.
Proof.
  intros Hall. apply Forall2_cons_inv_l in Hall as (u & us' & Hu & Hnil & ->).
  apply Forall2_nil_inv_l in Hnil as ->. by exists u.
Qed.

Lemma scans_last before i after us :
  Interaction.Type_ i = InteractionTypeScan ->
  scans_of after = [] ->
  Forall2 scan_for (scans_of (before ++ i :: after)) us ->
  exists us0 u, us = us0 ++ [u] /\ scan_for i u.
Proof.
  intros Hscan Hafter. unfold scans_of in *.
  rewrite filter_app, filter_cons_True, Hafter by done.
  intros Hall. apply Forall2_app_inv_l in Hall as (us0 & us1 & _ & H1 & ->).
  apply scans_single in H1 as (u & -> & Hu). by exists us0, u.
Qed.

(** The row of a call that recorded the single scan [i]. *)
Lemma single_scan_row env d hostKey interactions i d' k h :
  record env d hostKey interactions = (d', None) ->
  scans_of interactions = [i] ->
  hosts d !! k = Some h ->
  exists h' sr,
    hosts d' !! k = Some h'
    /\ (if Interaction.Success i
        then json_Unmarshal (Interaction.Result i) = Ok sr
        else sr = ScanResult.zero)
    /\ dbHost.PublicKey h' = dbHost.PublicKey h
    /\ dbHost.TotalScans h' = dbHost.TotalScans h + 1
    /\ dbHost.LastScan h' = UnixNano (Interaction.Timestamp i)
    /\ dbHost.LastScanSuccess h' = Interaction.Success i
    /\ dbHost.SecondToLastScanSuccess h' = dbHost.LastScanSuccess h
    /\ dbHost.Settings h' = convertHostSettings (ScanResult.Settings sr)
    /\ dbHost.Uptime h'
       = (if Interaction.Success i
          then elapsed_since (dbHost.LastScan h) (Interaction.Timestamp i)
          else dbHost.Uptime h)
    /\ dbHost.Downtime h'
       = (if Interaction.Success i
          then dbHost.Downtime h
          else elapsed_since (dbHost.LastScan h) (Interaction.Timestamp i)).
Proof.
  intros Hcall Hone Hk.
  apply RecordHostInteractions_rows in Hcall as (us & Hall & ->).
  rewrite Hone in Hall. apply scans_single in Hall as (u & -> & sr & Hsr & ->).
  rewrite list_lookup_fmap, Hk. simpl.
  eexists _, sr. split; [done|]. split; [done|].
  unfold exec_scans. simpl.
  destruct (exec_counters_frame
              (foldl count_successful 0%float interactions)
              (foldl count_failed 0%float interactions) hostKey h)
    as (_ & Hkey & _ & Hn & Hlast & Hsucc & _ & Hup & Hdown).
  rewrite Hkey, Hn, Hlast, Hsucc, Hup, Hdown. unfold elapsed_since.
  split_and!; try done.
  - destruct (Interaction.Success i); simpl; [|done].
    case_bool_decide as H0; [by rewrite H0|done].
  - destruct (Interaction.Success i); simpl; [done|].
    case_bool_decide as H0; [by rewrite H0|done].
Qed.

(** C7.  The scan statement of [RecordHostInteractions] has no [WHERE]:
    after a call for [hostKey], every row of [hosts], whatever its key, has
    one more scan per scan interaction of the batch, and the time, outcome
    and settings of the batch's last scan as [last_scan],
    [last_scan_success] and [settings]; with a single scan in the batch,
    [second_to_last_scan_success] is the row's previous outcome and the time
    column the scan names holds the time since the row's last scan.  Only
    the interaction counters are those of the row of [hostKey] alone. *)
Theorem scan_update_reaches_every_host (env : recordEnv) (d : DB)
  (hostKey : PublicKey) (interactions : list Interaction.t) (d' : DB) :
  record env d hostKey interactions = (d', None) ->
  length (hosts d') = length (hosts d)
  /\ forall k h, hosts d !! k = Some h ->
      exists h', hosts d' !! k = Some h'
        /\ dbHost.PublicKey h' = dbHost.PublicKey h
        /\ dbHost.TotalScans h'
           = dbHost.TotalScans h + Z.of_nat (length (scans_of interactions))
        /\ (forall before i after,
              interactions = before ++ i :: after ->
              Interaction.Type_ i = InteractionTypeScan ->
              scans_of after = [] ->
              dbHost.LastScan h' = UnixNano (Interaction.Timestamp i)
              /\ dbHost.LastScanSuccess h' = Interaction.Success i
              /\ exists sr,
                  (if Interaction.Success i
                   then json_Unmarshal (Interaction.Result i) = Ok sr
                   else sr = ScanResult.zero)
                  /\ dbHost.Settings h' = convertHostSettings (ScanResult.Settings sr))
        /\ (forall i, scans_of interactions = [i] ->
              dbHost.SecondToLastScanSuccess h' = dbHost.LastScanSuccess h
              /\ (if Interaction.Success i then dbHost.Uptime h' else dbHost.Downtime h')
                 = elapsed_since (dbHost.LastScan h) (Interaction.Timestamp i))
        /\ (dbHost.PublicKey h <> hostKey ->
              dbHost.SuccessfulInteractions h' = dbHost.SuccessfulInteractions h
              /\ dbHost.FailedInteractions h' = dbHost.FailedInteractions h)
        /\ (dbHost.PublicKey h = hostKey ->
              dbHost.SuccessfulInteractions h'
              = PrimFloat.add (dbHost.SuccessfulInteractions h)
                  (foldl count_successful 0%float interactions)
              /\ dbHost.FailedInteractions h'
                 = PrimFloat.add (dbHost.FailedInteractions h)
                     (foldl count_failed 0%float interactions)).
Proof.
  intros Hcall. pose proof Hcall as Hrows.
  apply RecordHostInteractions_rows in Hrows as (us & Hall & Hhosts).
  split; [by rewrite Hhosts, length_fmap|].
  intros k h Hk. rewrite Hhosts, list_lookup_fmap, Hk. simpl.
  eexists. split; [done|].
  set (s := foldl count_successful 0%float interactions).
  set (f := foldl count_failed 0%float interactions).
  destruct (exec_scans_frame us (exec_counters s f hostKey h))
    as (_ & Hkey & Hn & Hs & Hf & _).
  destruct (exec_counters_frame s f hostKey h)
    as (_ & Hkey0 & _ & Hn0 & _).
  split_and!.
  - by rewrite Hkey.
  - rewrite Hn, Hn0. by rewrite (Forall2_length _ _ _ Hall).
  - intros before i after -> Hscan Hafter.
    destruct (scans_last before i after us Hscan Hafter Hall)
      as (us0 & u & -> & sr & Hsr & ->).
    rewrite exec_scans_snoc. simpl. split; [done|]. split; [done|]. by exists sr.
  - intros i Hone.
    destruct (single_scan_row env d hostKey interactions i d' k h Hcall Hone Hk)
      as (h1 & sr & Hk1 & _ & _ & _ & _ & _ & Hsecond & _ & Hup & Hdown).
    rewrite Hhosts, list_lookup_fmap, Hk in Hk1. simpl in Hk1.
    injection Hk1 as <-. split; [done|].
    by destruct (Interaction.Success i).
  - intros Hne. rewrite Hs, Hf. unfold exec_counters.
    by rewrite bool_decide_eq_false_2.
  - intros Heq. rewrite Hs, Hf. unfold exec_counters.
    by rewrite bool_decide_eq_true_2.
Qed.




(** C6.  The first scan of a host: for a row without a last scan
    ([last_scan = 0]), a call that records one scan leaves [uptime] and
    [downtime] at zero when they were zero, makes a scan count of zero one,
    sets [last_scan_success] to the outcome of the scan and moves the
    previous [last_scan_success] to [second_to_last_scan_success]. *)
Theorem first_scan_adds_no_time (env : recordEnv) (d : DB) (hostKey : PublicKey)
  (interactions : list Interaction.t) (i : Interaction.t) (d' : DB) :
  record env d hostKey interactions = (d', None) ->
  scans_of interactions = [i] ->
  forall k h, hosts d !! k = Some h ->
    dbHost.LastScan h = 0 ->
    exists h', hosts d' !! k = Some h'
      /\ (dbHost.Uptime h = 0 -> dbHost.Downtime h = 0 ->
          dbHost.Uptime h' = 0 /\ dbHost.Downtime h' = 0)
      /\ dbHost.TotalScans h' = dbHost.TotalScans h + 1
      /\ (dbHost.TotalScans h = 0 -> dbHost.TotalScans h' = 1)
      /\ dbHost.LastScanSuccess h' = Interaction.Success i
      /\ dbHost.SecondToLastScanSuccess h' = dbHost.LastScanSuccess h.
Proof.
  intros Hcall Hone k h Hk Hlast.
  destruct (single_scan_row env d hostKey interactions i d' k h Hcall Hone Hk)
    as (h' & sr & Hk' & _ & _ & Hn & _ & Hsucc & Hsecond & _ & Hup & Hdown).
  exists h'. split; [done|]. unfold elapsed_since in *.
  rewrite Hlast in *. rewrite bool_decide_eq_true_2 in * by done.
  split_and!; try done.
  - intros Hu Hd. rewrite Hup, Hdown, Hu, Hd. by destruct (Interaction.Success i).
  - intros H0. by rewrite Hn, H0.
Qed.

End ScanFacts.

(** ** Host listing *)

Lemma limit_length {A} (max : Z) (rows : list A) :
  0 < max -> (Z.of_nat (length (limit max rows)) <= max).
Proof.
  intros Hmax. unfold limit. rewrite bool_decide_eq_true_2 by done.
  rewrite length_take. lia.
Qed.

Lemma Hosts_notSince_unused types_NewCurrency query_fault d t1 t2 max :
  Hosts types_NewCurrency query_fault d t1 max
  = Hosts types_NewCurrency query_fault d t2 max.
Proof. done. Qed.

Lemma Hosts_at_most_max types_NewCurrency query_fault d notSince max found :
  0 < max ->
  Hosts types_NewCurrency query_fault d notSince max = Ok found ->
  Z.of_nat (length found) <= max.
Proof.
  intros Hmax. unfold Hosts. destruct query_fault; [done|]. intros [= <-].
  rewrite length_fmap. by apply limit_length.
Qed.

(** ** The autopilot store *)

Section AutopilotFacts.

Context {AutopilotConfig : Type}.
Variable Validate : AutopilotConfig -> option error.
Variable json_Marshal : AutopilotConfig -> result RawMessage.

(** C10.  [UpdateAutopilot] with an empty identifier, or with a
    configuration [Validate] rejects, returns an error and leaves the
    database as it was; any call that returns an error does.  With an
    identifier that is not empty and a valid configuration, once the
    configuration is marshalled and the statement runs, the table has a row
    under the identifier with the marshalled configuration and the period of
    the autopilot (the primary key and creation time of a row that was there
    are kept), and the rows under other identifiers are as before. *)
Theorem UpdateAutopilot_validates_then_upserts (env : stmtEnv) (d : DB)
  (ap : Autopilot.t AutopilotConfig) :
  let out := UpdateAutopilot Validate json_Marshal env d ap in
  (Autopilot.ID ap = "" -> out.2 <> None /\ out.1 = d)
  /\ (Validate (Autopilot.Config ap) <> None -> out.2 <> None /\ out.1 = d)
  /\ (out.2 <> None -> out.1 = d)
  /\ (Autopilot.ID ap <> "" ->
      Validate (Autopilot.Config ap) = None ->
      forall cfg, json_Marshal (Autopilot.Config ap) = Ok cfg ->
      fault env = None ->
      out.2 = None
      /\ (exists r,
            autopilots out.1 !! Autopilot.ID ap = Some r
            /\ dbAutopilot.Identifier r = Autopilot.ID ap
            /\ dbAutopilot.Config r = cfg
            /\ dbAutopilot.CurrentPeriod r = Autopilot.CurrentPeriod ap
            /\ forall old, autopilots d !! Autopilot.ID ap = Some old ->
                 Model.ID (dbAutopilot.Model r) = Model.ID (dbAutopilot.Model old)
                 /\ Model.CreatedAt (dbAutopilot.Model r)
                    = Model.CreatedAt (dbAutopilot.Model old))
      /\ (forall id, id <> Autopilot.ID ap ->
            autopilots out.1 !! id = autopilots d !! id)
      /\ hosts out.1 = hosts d
      /\ host_announcements out.1 = host_announcements d
      /\ consensus_infos out.1 = consensus_infos d
      /\ host_interactions out.1 = host_interactions d).
Proof.
  intros out. subst out. unfold UpdateAutopilot. split_and!.
  - intros Hid. by rewrite bool_decide_eq_true_2.
  - intros Hval. case_bool_decide; [done|].
    destruct (Validate _); [done|]. by destruct Hval.
  - case_bool_decide; [done|].
    destruct (Validate _); [done|].
    destruct (json_Marshal _); [|done].
    unfold stmt. destruct (fault env); [done|]. simpl. by intros [].
  - intros Hid Hval cfg Hcfg Hfault.
    rewrite bool_decide_eq_false_2 by done. rewrite Hval, Hcfg.
    unfold stmt. rewrite Hfault. simpl. split_and!; try done.
    + eexists. split; [apply lookup_insert_eq|]. simpl.
      split_and!; try done.
      intros old Hold. by rewrite Hold.
    + intros id Hne. by rewrite lookup_insert_ne.
Qed.

End AutopilotFacts.

(** * Evaluation on a small chain and store *)

Local Abbreviation sample_process :=
  (ProcessConsensusChange sample_ForEachAnnouncement sample_BlockID_String).

Example sample_heights :
  (fun a => ChainIndex.Height (Announcement.Index (announcement.announcement a)))
    <$> unappliedAnnouncements (enqueue sample_ForEachAnnouncement sample_store sample_change)
  = [4; 5; 5].
Proof. reflexivity. Qed.

Example sample_flush_commits :
  let d := db (sample_process env_late sample_store sample_change).1 in
  dbAnnouncement.BlockHeight <$> host_announcements d = [4; 5; 5]
  /\ (fun h => (dbHost.PublicKey h, dbHost.NetAddress h)) <$> hosts d
     = [(7%N, "host7:9992"); (8%N, "host8:9982")]
  /\ dbConsensusInfo.CCID <$> consensus_infos d = [42%N].
Proof. by vm_compute. Qed.

Example sample_flush_fails :
  sample_process env_late_failing sample_store sample_change
  = (mkSQLStore sample_db 2004 60 [] 42%N,
     ["failed to apply 3 announcements - should never happen"]).
Proof. by vm_compute. Qed.

Lemma flush_is_atomic_witness :
  flush_due (clock_since env_late)
    (enqueue sample_ForEachAnnouncement hosts_store sample_change) = true
  /\ (let d' := db (sample_process env_late hosts_store sample_change).1 in
      (fun r => (dbAnnouncement.HostKey r, dbAnnouncement.BlockHeight r,
                 dbAnnouncement.BlockID r, dbAnnouncement.NetAddress r))
        <$> host_announcements d'
      = [(7%N, 4, "11", "host7:9982"); (8%N, 5, "12", "host8:9982");
         (7%N, 5, "12", "host7:9992")]
      /\ (exists h', hosts d' !! 0%nat = Some h'
            /\ dbHost.PublicKey h' = 7%N
            /\ dbHost.Uptime h' = 500
            /\ dbHost.LastAnnouncement h' = 600
            /\ dbHost.NetAddress h' = "host7:9992")
      /\ (exists r', r' ∈ consensus_infos d'
            /\ Model.ID (dbConsensusInfo.Model r') = 1
            /\ dbConsensusInfo.CCID r' = 42%N)
      /\ (fun h => (dbHost.PublicKey h, dbHost.LastAnnouncement h,
                    dbHost.NetAddress h, dbHost.Uptime h)) <$> hosts d'
         = [(7%N, 600, "host7:9992", 500); (8%N, 600, "host8:9982", 0);
            (9%N, 400, "host9:9982", 0)]
      /\ (fun r => (dbAnnouncement.HostKey r, dbAnnouncement.BlockID r))
           <$> host_announcements d'
         = [(7%N, "11"); (8%N, "12"); (7%N, "12")]
      /\ dbConsensusInfo.CCID <$> consensus_infos d' = [42%N])
  /\ db (sample_process env_late_failing hosts_store sample_change).1 = db hosts_store.
Proof.
  split; [reflexivity|]. split.
  - destruct (flush_is_atomic sample_ForEachAnnouncement sample_BlockID_String
                env_late hosts_store sample_change eq_refl)
      as ([[Hprinted _]|[_ Hflushed]] & _); [discriminate Hprinted|].
    destruct Hflushed as ((new & Hrows & Hcolumns) & (_ & Hlast & Hkept & _)
                          & (_ & _ & Hcheckpoint) & _).
    split_and!.
    + rewrite Hrows. exact Hcolumns.
    + destruct (Hkept 0%nat host_7 eq_refl) as (h' & Hk & Hsame & _).
      destruct Hsame as (_ & Hkey & _ & _ & _ & _ & _ & Hup & _).
      destruct (Hlast
                  [announcement.mk 7%N
                     (Announcement.mk (ChainIndex.mk 4 11%N) 500 "host7:9982");
                   announcement.mk 8%N
                     (Announcement.mk (ChainIndex.mk 5 12%N) 600 "host8:9982")]
                  (announcement.mk 7%N
                     (Announcement.mk (ChainIndex.mk 5 12%N) 600 "host7:9992"))
                  [] eq_refl (not_elem_of_nil _) h'
                  (list_elem_of_lookup_2 _ _ _ Hk) Hkey)
        as [Hla Hna].
      exists h'. split; [exact Hk|]. split; [exact Hkey|]. split; [exact Hup|].
      split; [exact Hla|exact Hna].
    + apply Hcheckpoint. apply list_elem_of_here.
    + reflexivity.
    + reflexivity.
    + reflexivity.
  - apply (flush_is_atomic sample_ForEachAnnouncement sample_BlockID_String
             env_late_failing hosts_store sample_change); [reflexivity|].
    right. right. split; [|right]; discriminate.
Defined.

Lemma ProcessConsensusChange_heights_witness :
  0 <= ConsensusChange.InitialHeight sample_change < 2 ^ 64
  /\ unappliedAnnouncements
       (enqueue sample_ForEachAnnouncement sample_store sample_change)
     = [announcement.mk 7%N (Announcement.mk (ChainIndex.mk 4 11%N) 500 "host7:9982");
        announcement.mk 8%N (Announcement.mk (ChainIndex.mk 5 12%N) 600 "host8:9982");
        announcement.mk 7%N (Announcement.mk (ChainIndex.mk 5 12%N) 600 "host7:9992")]
  /\ (fun a => (announcement.hostKey a,
                ChainIndex.Height (Announcement.Index (announcement.announcement a))))
       <$> unappliedAnnouncements (sample_process env_early sample_store sample_change).1
     = [(7%N, 4); (8%N, 5); (7%N, 5)].
Proof.
  assert (Hrange : 0 <= ConsensusChange.InitialHeight sample_change < 2 ^ 64)
    by (simpl; lia).
  split; [exact Hrange|].
  destruct (ProcessConsensusChange_heights sample_ForEachAnnouncement
              sample_BlockID_String sample_store sample_change Hrange)
    as (Hqueue & _).
  split; [|reflexivity].
  rewrite Hqueue. reflexivity.
Defined.

Example sample_deferred :
  run sample_ForEachAnnouncement sample_BlockID_String sample_store sample_calls
  = (mkSQLStore sample_db 1000 60
       (unappliedAnnouncements
          (enqueue sample_ForEachAnnouncement sample_store sample_change)) 43%N,
     []).
Proof. reflexivity. Qed.

Lemma deferred_flush_witness :
  stays_below sample_ForEachAnnouncement sample_BlockID_String sample_store sample_calls
  /\ db (run sample_ForEachAnnouncement sample_BlockID_String sample_store
           sample_calls).1 = sample_db
  /\ unappliedCCID
       (run sample_ForEachAnnouncement sample_BlockID_String sample_store
          ([] ++ [(env_early, sample_change)])).1 = 42%N.
Proof.
  assert (Hbelow : stays_below sample_ForEachAnnouncement sample_BlockID_String
                     sample_store sample_calls).
  { simpl. unfold announcementBatchSoftLimit.
    repeat split; try lia; reflexivity. }
  split; [exact Hbelow|].
  destruct (deferred_flush sample_ForEachAnnouncement sample_BlockID_String
              sample_store sample_calls Hbelow) as (Hdb & _ & _ & _ & Hmarker).
  split; [exact Hdb|].
  by apply (Hmarker [] env_early sample_change [(env_early2, empty_change)]).
Defined.

(** C3, on the code.  A change arrives 1000 after the last save with three
    announcements and the host statement of the flush fails: the failure is
    printed and nothing is stored, and the queue is empty after the call.
    The flush of the next change succeeds and stores the checkpoint of that
    change; the three announcements are in no table and in no queue. *)
Theorem failed_flush_drops_queue :
  let out := sample_process env_late_failing sample_store sample_change in
  let next := sample_process env_later out.1 empty_change in
  length (unappliedAnnouncements
            (enqueue sample_ForEachAnnouncement sample_store sample_change)) = 3%nat
  /\ out.2 = ["failed to apply 3 announcements - should never happen"]
  /\ db out.1 = db sample_store
  /\ unappliedAnnouncements out.1 = []
  /\ next.2 = []
  /\ dbConsensusInfo.CCID <$> consensus_infos (db next.1) = [43%N]
  /\ host_announcements (db next.1) = []
  /\ hosts (db next.1) = []
  /\ unappliedAnnouncements next.1 = [].
Proof. by vm_compute. Qed.

Example sample_upsert :
  hosts hosts_db_announced
  = [host_7;
     assign_announcement 700 "host8:9992" host_8;
     host_9;
     dbHost.mk (created 4 801) 5%N hostSettings.zero 0 0 false false 0 0
       0%float 0%float 700 "host5:9982"].
Proof. reflexivity. Qed.

Lemma upsert_keeps_host_statistics_witness :
  insertAnnouncements sample_BlockID_String (ok_at 800) (ok_at 801) sample_batch hosts_db
  = Ok hosts_db_announced
  /\ forall k h, hosts hosts_db !! k = Some h ->
       exists h', hosts hosts_db_announced !! k = Some h'
         /\ same_but_announcement h h'
         /\ (dbHost.PublicKey h ∉ announcement.hostKey <$> sample_batch -> h' = h).
Proof.
  assert (Hok : insertAnnouncements sample_BlockID_String (ok_at 800) (ok_at 801)
                  sample_batch hosts_db = Ok hosts_db_announced) by reflexivity.
  split; [exact Hok|].
  exact (proj1 (proj2 (proj2
           (upsert_keeps_host_statistics sample_BlockID_String _ _ _ _ _ Hok)))).
Defined.

(** Host 8 was last scanned at 100, with success, and has no uptime or
    downtime yet; a failed scan at 250 puts the 150 in [downtime]. *)
Example failed_scan_after_good_scan :
  let out := RecordHostInteractions sample_Unmarshal record_ok host_8_db 8%N
               [failed_scan_250] in
  out.2 = None
  /\ (fun h => (dbHost.Uptime h, dbHost.Downtime h)) <$> hosts out.1 = [(0, 150)].
Proof. by vm_compute. Qed.

(** Host 7 was last scanned at 100, with success, and has an uptime of 500;
    a good scan at 250 leaves an uptime of 150, not of 650. *)
Example good_scan_after_good_scan :
  let out := RecordHostInteractions sample_Unmarshal record_ok host_7_db 7%N
               [good_scan_250] in
  out.2 = None
  /\ (fun h => (dbHost.Uptime h, dbHost.Downtime h)) <$> hosts out.1 = [(150, 0)].
Proof. by vm_compute. Qed.


(** The time column is assigned, not added to: host 7 had an uptime of 500
    and has one of 150 after a good scan at 250. *)
Example scan_time_is_assigned :
  let out := RecordHostInteractions sample_Unmarshal record_ok hosts_db 7%N
               [good_scan_250] in
  dbHost.Uptime host_7 = 500
  /\ dbHost.Uptime <$> hosts out.1 = [150; 150; 0].
Proof. by vm_compute. Qed.

Lemma sample_record :
  RecordHostInteractions sample_Unmarshal record_ok hosts_db 7%N sample_interactions
  = (hosts_db_scanned, None).
Proof. reflexivity. Qed.

(** Recorded for host 7: the rows of hosts 8 and 9 have the scan too. *)
Example sample_scan_rows :
  (fun h => (dbHost.PublicKey h, dbHost.TotalScans h, dbHost.LastScan h,
             dbHost.LastScanSuccess h, dbHost.SecondToLastScanSuccess h,
             dbHost.Uptime h, dbHost.Downtime h,
             dbHost.SuccessfulInteractions h, dbHost.FailedInteractions h))
    <$> hosts hosts_db_scanned
  = [(7%N, 4, 250, false, true, 500, 150, 3%float, 2%float);
     (8%N, 2, 250, false, true, 0, 150, 0%float, 0%float);
     (9%N, 1, 250, false, false, 0, 0, 0%float, 0%float)].
Proof. by vm_compute. Qed.

Lemma scan_update_reaches_every_host_witness :
  RecordHostInteractions sample_Unmarshal record_ok hosts_db 7%N sample_interactions
  = (hosts_db_scanned, None)
  /\ exists h', hosts hosts_db_scanned !! 1%nat = Some h'
       /\ dbHost.PublicKey h' = 8%N
       /\ dbHost.TotalScans h' = dbHost.TotalScans host_8 + 1
       /\ dbHost.LastScan h' = 250.
Proof.
  split; [exact sample_record|].
  destruct (scan_update_reaches_every_host sample_Unmarshal record_ok hosts_db 7%N
              sample_interactions hosts_db_scanned sample_record)
    as (_ & Hrows).
  destruct (Hrows 1%nat host_8 eq_refl) as (h' & Hk & Hkey & Hn & Hlast & _).
  exists h'. split; [exact Hk|]. split; [exact Hkey|]. split; [exact Hn|].
  by destruct (Hlast [good_use_240] failed_scan_250 [] eq_refl eq_refl eq_refl).
Defined.



Lemma sample_first_scan :
  RecordHostInteractions sample_Unmarshal record_ok hosts_db 9%N [good_scan_250]
  = (host_9_scanned, None).
Proof. reflexivity. Qed.

Lemma first_scan_adds_no_time_witness :
  dbHost.LastScan host_9 = 0
  /\ exists h', hosts host_9_scanned !! 2%nat = Some h'
       /\ dbHost.Uptime h' = 0 /\ dbHost.Downtime h' = 0
       /\ dbHost.TotalScans h' = 1
       /\ dbHost.LastScanSuccess h' = true
       /\ dbHost.SecondToLastScanSuccess h' = false.
Proof.
  split; [reflexivity|].
  destruct (first_scan_adds_no_time sample_Unmarshal record_ok hosts_db 9%N
              [good_scan_250] good_scan_250 host_9_scanned sample_first_scan
              eq_refl 2%nat host_9 eq_refl eq_refl)
    as (h' & Hk & Htime & _ & Hone & Hsucc & Hsecond).
  exists h'. split; [exact Hk|].
  destruct (Htime eq_refl eq_refl) as [Hup Hdown].
  split; [exact Hup|]. split; [exact Hdown|]. split; [by apply Hone|].
  split; [exact Hsucc|exact Hsecond].
Defined.

(** C9, on the code.  [Hosts] does not read [notSince]; asked for the hosts
    not scanned since 150, it lists hosts 7 and 8, scanned at 250. *)
Theorem Hosts_lists_recently_scanned_hosts :
  (forall types_NewCurrency query_fault d t1 t2 max,
      Hosts types_NewCurrency query_fault d t1 max
      = Hosts types_NewCurrency query_fault d t2 max)
  /\ exists found,
      Hosts sample_NewCurrency None hosts_db_scanned 150 10 = Ok found
      /\ (fun h => (Host.PublicKey h, Interactions.LastScan (Host.Interactions h)))
           <$> found
         = [(7%N, 250); (8%N, 250); (9%N, 250)].
Proof.
  split; [done|]. eexists. split; [reflexivity|]. by vm_compute.
Qed.

Example sample_autopilot_rejected :
  UpdateAutopilot sample_Validate sample_Marshal (ok_at 10) sample_db
    (Autopilot.mk "" 5 0)
  = (sample_db, Some "autopilot ID cannot be empty")
  /\ UpdateAutopilot sample_Validate sample_Marshal (ok_at 10) sample_db
       (Autopilot.mk "autopilot" 0 0)
     = (sample_db, Some "invalid amount").
Proof. split; reflexivity. Qed.

Lemma UpdateAutopilot_validates_then_upserts_witness :
  let out := UpdateAutopilot sample_Validate sample_Marshal (ok_at 10) sample_db
               (Autopilot.mk "autopilot" 5 3) in
  out.2 = None
  /\ exists r, autopilots out.1 !! "autopilot" = Some r
       /\ dbAutopilot.Config r = "5" /\ dbAutopilot.CurrentPeriod r = 3.
Proof.
  destruct (UpdateAutopilot_validates_then_upserts sample_Validate sample_Marshal
              (ok_at 10) sample_db (Autopilot.mk "autopilot" 5 3))
    as (_ & _ & _ & Hvalid).
  destruct (Hvalid ltac:(discriminate) eq_refl "5" eq_refl eq_refl)
    as (Herr & (r & Hr & _ & Hcfg & Hperiod & _) & _).
  split; [exact Herr|]. exists r. by repeat split.
Defined.

(** * Further properties *)

(** ** Settings conversions *)

(** X1.  Settings written by [convertHostSettings] are read back unchanged
    by [hostSettings.convert]: the two conversions are inverse on settings
    whose currencies are not negative, [types.NewCurrency] being the
    identity on the integers that are not negative. *)
Theorem hostSettings_round_trip (types_NewCurrency : option Z -> Z)
  (s : rhpHostSettings.t) :
  (forall z, 0 <= z -> types_NewCurrency (Some z) = z) ->
  currencies_not_negative s ->
  hostSettings_convert types_NewCurrency (convertHostSettings s) = s.
Proof.
  intros Hnew Hs. unfold currencies_not_negative in Hs.
  destruct Hs as (H1 & H2 & H3 & H4 & H5 & H6 & H7 & H8 & H9).
  destruct s. unfold hostSettings_convert, convertHostSettings. simpl in *.
  rewrite !Hnew by assumption. reflexivity.
Qed.

Lemma convertHostSettings_not_zero s : convertHostSettings s <> hostSettings.zero.
Proof.
  intros Hzero. apply (f_equal hostSettings.Collateral) in Hzero. discriminate Hzero.
Qed.

(** ** Point lookup *)

Lemma where_public_key_nonzero hostKey rows :
  hostKey <> 0%N ->
  where_dbHost_PublicKey hostKey rows = where_public_key hostKey rows.
Proof.
  intros Hne. unfold where_dbHost_PublicKey, where_public_key.
  apply list_filter_iff. intros h. split; [|by right].
  by intros [?|?].
Qed.

Lemma where_public_key_nil hostKey (rows : list dbHost.t) :
  hostKey ∉ dbHost.PublicKey <$> rows -> where_public_key hostKey rows = [].
Proof.
  intros Hnot. unfold where_public_key.
  induction rows as [|h rows IH]; [done|].
  rewrite fmap_cons in Hnot. apply not_elem_of_cons in Hnot as [Hne Hnot].
  rewrite filter_cons_False by done. by apply IH.
Qed.

Lemma where_public_key_cons hostKey (rows : list dbHost.t) :
  hostKey ∈ dbHost.PublicKey <$> rows ->
  exists h rest, where_public_key hostKey rows = h :: rest
    /\ h ∈ rows /\ dbHost.PublicKey h = hostKey.
Proof.
  intros Hin. apply list_elem_of_fmap in Hin as (h & -> & Hh).
  assert (Hf : h ∈ where_public_key (dbHost.PublicKey h) rows).
  { unfold where_public_key. by apply list_elem_of_filter. }
  destruct (where_public_key (dbHost.PublicKey h) rows) as [|h0 rest] eqn:Hrows.
  - by apply elem_of_nil in Hf.
  - exists h0, rest. split; [done|].
    assert (H0 : h0 ∈ where_public_key (dbHost.PublicKey h) rows)
      by (rewrite Hrows; apply list_elem_of_here).
    unfold where_public_key in H0. apply list_elem_of_filter in H0 as [? ?]. done.
Qed.

Lemma where_public_key_unique (rows : list dbHost.t) h :
  NoDup (dbHost.PublicKey <$> rows) -> h ∈ rows ->
  where_public_key (dbHost.PublicKey h) rows = [h].
Proof.
  unfold where_public_key.
  induction rows as [|h0 rows IH]; intros Hnd Hh; [by apply elem_of_nil in Hh|].
  rewrite fmap_cons in Hnd. apply NoDup_cons in Hnd as [Hnot Hnd].
  apply elem_of_cons in Hh as [->|Hh].
  - rewrite filter_cons_True by done. f_equal.
    by apply (where_public_key_nil (dbHost.PublicKey h0) rows).
  - rewrite filter_cons_False; [by apply IH|].
    intros Heq. apply Hnot. rewrite Heq. apply list_elem_of_fmap. by exists h.
Qed.

Section LookupFacts.

Variable types_NewCurrency : option Z -> Z.

Local Abbreviation lookup_host := (Host types_NewCurrency).
Local Abbreviation convert := (dbHost_convert types_NewCurrency).

(** X2.  [Host] for a key that is not the zero key: when no row of [hosts]
    has the key it returns [ErrHostNotFound] with the zero host, otherwise
    the conversion of a stored row that has the key. *)
Theorem Host_finds_stored_key (d : DB) (hostKey : PublicKey) :
  hostKey <> 0%N ->
  (hostKey ∉ dbHost.PublicKey <$> hosts d ->
   lookup_host None d hostKey = (Host_zero, Some ErrHostNotFound))
  /\ (hostKey ∈ dbHost.PublicKey <$> hosts d ->
      exists h, h ∈ hosts d /\ dbHost.PublicKey h = hostKey
        /\ lookup_host None d hostKey = (convert h, None)).
Proof.
  intros Hne. unfold Host. rewrite where_public_key_nonzero by done. split.
  - intros Hnot. by rewrite where_public_key_nil.
  - intros Hin.
    destruct (where_public_key_cons hostKey (hosts d) Hin) as (h & rest & -> & Hh & Hkey).
    by exists h.
Qed.

(** X3.  [Host] for the zero key does not select by key: the struct
    condition has no field that is not zero, and the call returns the first
    row of the table, whatever its key. *)
Theorem Host_zero_key_takes_first_row (d : DB) (h : dbHost.t) (rest : list dbHost.t) :
  hosts d = h :: rest ->
  lookup_host None d 0%N = (convert h, None).
Proof.
  intros Hrows. unfold Host, where_dbHost_PublicKey. rewrite Hrows.
  rewrite filter_cons_True by (by left). done.
Qed.

(** X4.  [Host] and [hostByPubKey] agree for a key that is not zero: the
    host [Host] returns is the conversion of the row [hostByPubKey] returns,
    and [Host] turns the [ErrRecordNotFound] of [hostByPubKey] into
    [ErrHostNotFound] and passes any other error on. *)
Theorem Host_agrees_with_hostByPubKey (query_fault : option error) (d : DB)
  (hostKey : PublicKey) :
  hostKey <> 0%N ->
  match hostByPubKey query_fault d hostKey with
  | (h, None) => lookup_host query_fault d hostKey = (convert h, None)
  | (_, Some e) =>
      (lookup_host query_fault d hostKey).2
      = Some (if bool_decide (e = ErrRecordNotFound) then ErrHostNotFound else e)
  end.
Proof.
  intros Hne. unfold Host, hostByPubKey.
  rewrite where_public_key_nonzero by done.
  destruct (Take query_fault _) as [h|e]; [done|]. by case_bool_decide.
Qed.

(** X19.  With a positive [max], [Hosts] returns at most [max] hosts, each
    the conversion of a row of the first [max] of the table; when the keys
    of the table are unique, [Host] for the key of a row [Hosts] listed
    returns the same host. *)
Theorem Hosts_lists_stored_hosts (d : DB) (notSince : time_Time) (max : Z)
  (listed : list Host.t) :
  0 < max ->
  Hosts types_NewCurrency None d notSince max = Ok listed ->
  Z.of_nat (length listed) <= max
  /\ listed = convert <$> take (Z.to_nat max) (hosts d)
  /\ (NoDup (dbHost.PublicKey <$> hosts d) ->
      forall h, h ∈ take (Z.to_nat max) (hosts d) -> dbHost.PublicKey h <> 0%N ->
        lookup_host None d (dbHost.PublicKey h) = (convert h, None)).
Proof.
  intros Hmax Hlisted. split; [by eapply Hosts_at_most_max|].
  unfold Hosts, limit in Hlisted. rewrite bool_decide_eq_true_2 in Hlisted by done.
  injection Hlisted as <-. split; [done|].
  intros Hnd h Hh Hne. unfold Host.
  rewrite where_public_key_nonzero by done.
  rewrite where_public_key_unique; [done|done|].
  apply elem_of_take in Hh as (i & Hi & _). by eapply list_elem_of_lookup_2.
Qed.

End LookupFacts.

(** ** Announcement, then lookup *)

Section AnnouncedLookup.

Variable types_NewCurrency : option Z -> Z.
Variable BlockID_String : BlockID -> string.

(** X5.  A host that was announced is found: after the announcements of a
    batch are written, [Host] for the key of an announcement (not the zero
    key) returns a host with that key and the address of the key's last
    announcement in the batch; when the key was not in the table before,
    the host is known since the clock of the host statement, has no scan,
    no uptime or downtime, no interaction and no settings. *)
Theorem announced_host_is_found (env_a env_h : stmtEnv)
  (before : list announcement.t) (a : announcement.t) (after : list announcement.t)
  (d d' : DB) :
  insertAnnouncements BlockID_String env_a env_h (before ++ a :: after) d = Ok d' ->
  announcement.hostKey a ∉ announcement.hostKey <$> after ->
  announcement.hostKey a <> 0%N ->
  exists host,
    Host types_NewCurrency None d' (announcement.hostKey a) = (host, None)
    /\ Host.PublicKey host = announcement.hostKey a
    /\ Host.NetAddress host = Announcement.NetAddress (announcement.announcement a)
    /\ (announcement.hostKey a ∉ dbHost.PublicKey <$> hosts d ->
        Host.KnownSince host = now env_h
        /\ Host.Interactions host
           = Interactions.mk 0 time_zero false false 0 0 0%float 0%float
        /\ Host.Settings host = None).
Proof.
  intros Hok Hlast Hne.
  pose proof (insertAnnouncements_Ok BlockID_String _ _ _ _ _ Hok)
    as (_ & _ & Hhosts & _).
  assert (Hin : announcement.hostKey a ∈ dbHost.PublicKey <$> hosts d').
  { rewrite Hhosts.
    apply (upsert_hosts_has_key (now env_h) _ (hosts d) (host_of_announcement a)).
    apply list_elem_of_fmap. exists a. split; [done|].
    apply elem_of_app. right. apply list_elem_of_here. }
  destruct (where_public_key_cons _ _ Hin)
    as (h & rest & Hrows & Hh & Hkey).
  exists (dbHost_convert types_NewCurrency h). split_and!.
  - unfold Host. rewrite where_public_key_nonzero by done. by rewrite Hrows.
  - done.
  - simpl.
    assert (Hann : announced (announcement.hostKey a)
                     (UTC (Announcement.Timestamp (announcement.announcement a)))
                     (Announcement.NetAddress (announcement.announcement a))
                     (hosts d')).
    { rewrite Hhosts, fmap_app, fmap_cons.
      apply (upsert_hosts_latest (now env_h) _ (host_of_announcement a)).
      by rewrite host_of_announcement_keys. }
    by destruct (Hann h Hh Hkey).
  - intros Hnew.
    assert (Hfresh : dbHost.PublicKey h ∈ dbHost.PublicKey <$> hosts d
                     \/ fresh_host (now env_h) h).
    { rewrite Hhosts in Hh.
      apply (upsert_hosts_fresh (now env_h) _ (before ++ a :: after) (hosts d));
        [|done].
      intros h0 Hh0. left. apply list_elem_of_fmap. by exists h0. }
    destruct Hfresh as [Hold|Hfresh]; [by rewrite Hkey in Hold|].
    destruct Hfresh as (Hc & Hs & Hn & Hl & Hls & Hsl & Hu & Hd & Hsi & Hfi).
    unfold dbHost_convert. simpl.
    rewrite Hc, Hs, Hn, Hl, Hls, Hsl, Hu, Hd, Hsi, Hfi.
    split; [done|]. split; [done|].
    by rewrite bool_decide_eq_true_2.
Qed.

End AnnouncedLookup.

(** ** More on recording interactions *)

Lemma create_interactions_rows now rows tbl :
  exists new,
    foldl (create_interaction now) tbl rows = tbl ++ new
    /\ interaction_with_Model Model_zero <$> new
       = interaction_with_Model Model_zero <$> rows.
Proof.
  revert tbl. induction rows as [|r rows IH]; intros tbl; simpl.
  - exists []. by rewrite app_nil_r.
  - destruct (IH (create_interaction now tbl r)) as (new & -> & Hnew).
    eexists (_ :: new). unfold create_interaction. rewrite <- app_assoc.
    split; [done|]. rewrite !fmap_cons. by f_equal.
Qed.

Section RecorderMore.

Variable json_Unmarshal : RawMessage -> result ScanResult.t.

Local Abbreviation record := (RecordHostInteractions json_Unmarshal).

Lemma RecordHostInteractions_Ok env d hostKey interactions d' :
  record env d hostKey interactions = (d', None) ->
  exists p,
    prepare json_Unmarshal interactions prepared_zero = Ok p
    /\ d' = exec_query (successful p) (failed p) hostKey (scanQuery p)
              (now (env_exec env))
              (create_interactions (dbInteractions p)
                 (now (env_create_interactions env)) d).
Proof.
  unfold RecordHostInteractions.
  destruct (prepare _ _ _) as [p|e]; [|done].
  unfold Transaction.
  destruct ((_ >> _) d) as [d1|e] eqn:Hbody; [|done].
  destruct (record_commit_fault env); [done|]. intros [= <-].
  apply and_then_Ok in Hbody as (d0 & H0 & H1).
  apply stmt_Ok in H0 as [_ ->]. apply stmt_Ok in H1 as [_ ->].
  by exists p.
Qed.

Lemma prepare_decode_failure before i after acc e :
  Interaction.Type_ i = InteractionTypeScan ->
  Interaction.Success i = true ->
  json_Unmarshal (Interaction.Result i) = Err e ->
  exists e', prepare json_Unmarshal (before ++ i :: after) acc = Err e'.
Proof.
  intros Hscan Hsucc Hdec. revert acc.
  induction before as [|b before IH]; intros acc; simpl.
  - rewrite bool_decide_eq_true_2 by done. rewrite Hsucc, Hdec. by exists e.
  - case_bool_decide; [|by apply IH].
    destruct (if Interaction.Success b then _ else _) as [sr|e0]; [by apply IH|].
    by exists e0.
Qed.

(** X6.  [RecordHostInteractions] neither creates nor removes a host row,
    whatever it returns: the rows of [hosts] have the keys, primary keys,
    creation times, announcement times and addresses they had, in the same
    order.  For a key that no row has, a batch without a scan leaves
    [hosts] as it was; no row is created for the key. *)
Theorem RecordHostInteractions_keeps_host_rows (env : recordEnv) (d : DB)
  (hostKey : PublicKey) (interactions : list Interaction.t) :
  let out := record env d hostKey interactions in
  dbHost.PublicKey <$> hosts out.1 = dbHost.PublicKey <$> hosts d
  /\ dbHost.Model <$> hosts out.1 = dbHost.Model <$> hosts d
  /\ dbHost.LastAnnouncement <$> hosts out.1 = dbHost.LastAnnouncement <$> hosts d
  /\ dbHost.NetAddress <$> hosts out.1 = dbHost.NetAddress <$> hosts d
  /\ (hostKey ∉ dbHost.PublicKey <$> hosts d -> scans_of interactions = [] ->
      hosts out.1 = hosts d).
Proof.
  intros out. subst out.
  destruct (record env d hostKey interactions) as [d' [e|]] eqn:Hcall; simpl.
  { apply RecordHostInteractions_failed in Hcall as ->. by repeat split. }
  apply RecordHostInteractions_rows in Hcall as (us & Hall & ->).
  set (s := foldl count_successful 0%float interactions).
  set (f := foldl count_failed 0%float interactions).
  assert (Hframe : forall h,
             dbHost.Model (exec_scans us (exec_counters s f hostKey h)) = dbHost.Model h
             /\ dbHost.PublicKey (exec_scans us (exec_counters s f hostKey h))
                = dbHost.PublicKey h
             /\ dbHost.LastAnnouncement (exec_scans us (exec_counters s f hostKey h))
                = dbHost.LastAnnouncement h
             /\ dbHost.NetAddress (exec_scans us (exec_counters s f hostKey h))
                = dbHost.NetAddress h).
  { intros h.
    destruct (exec_scans_frame us (exec_counters s f hostKey h))
      as (Hm & Hk & _ & _ & _ & Hla & Hna).
    rewrite Hm, Hk, Hla, Hna. unfold exec_counters. by case_bool_decide. }
  split_and!.
  - rewrite <- list_fmap_compose. apply list_fmap_ext. intros i h _. apply Hframe.
  - rewrite <- list_fmap_compose. apply list_fmap_ext. intros i h _. apply Hframe.
  - rewrite <- list_fmap_compose. apply list_fmap_ext. intros i h _. apply Hframe.
  - rewrite <- list_fmap_compose. apply list_fmap_ext. intros i h _. apply Hframe.
  - intros Hnot Hnone. rewrite Hnone in Hall. apply Forall2_nil_inv_l in Hall as ->.
    rewrite <- (list_fmap_id (hosts d)) at 2. apply list_fmap_ext.
    intros i h Hi. unfold exec_scans. simpl. unfold exec_counters.
    rewrite bool_decide_eq_false_2; [done|].
    intros Heq. apply Hnot. rewrite <- Heq. apply list_elem_of_fmap.
    exists h. split; [done|]. by eapply list_elem_of_lookup_2.
Qed.

(** X7.  A call that returns no error has appended one row per interaction
    to [host_interactions], in the order of the batch, each with the result,
    outcome, time and type of its interaction; the rows that were there are
    kept, and the announcement, checkpoint and autopilot tables are as
    before. *)
Theorem interactions_are_logged (env : recordEnv) (d : DB) (hostKey : PublicKey)
  (interactions : list Interaction.t) (d' : DB) :
  record env d hostKey interactions = (d', None) ->
  (exists new,
      host_interactions d' = host_interactions d ++ new
      /\ interaction_with_Model Model_zero <$> new
         = row_of_interaction <$> interactions)
  /\ host_announcements d' = host_announcements d
  /\ consensus_infos d' = consensus_infos d
  /\ autopilots d' = autopilots d.
Proof.
  intros Hcall. apply RecordHostInteractions_Ok in Hcall as (p & Hp & ->).
  apply prepare_Ok in Hp as (_ & _ & _ & Hrows). simpl in *.
  split; [|done].
  destruct (create_interactions_rows (now (env_create_interactions env))
              (dbInteractions p) (host_interactions d)) as (new & -> & Hnew).
  exists new. split; [done|]. rewrite Hnew, Hrows.
  rewrite <- list_fmap_compose. by apply list_fmap_ext.
Qed.

(** X8.  When the result of a successful scan of the batch does not decode,
    [RecordHostInteractions] returns an error and the database is as it was:
    nothing of the batch is written, not even the interactions before the
    scan.  Every call that returns an error leaves the database as it was. *)
Theorem undecodable_scan_records_nothing (env : recordEnv) (d : DB)
  (hostKey : PublicKey) (before : list Interaction.t) (i : Interaction.t)
  (after : list Interaction.t) (e : error) :
  Interaction.Type_ i = InteractionTypeScan ->
  Interaction.Success i = true ->
  json_Unmarshal (Interaction.Result i) = Err e ->
  (exists e', record env d hostKey (before ++ i :: after) = (d, Some e'))
  /\ forall interactions d' e',
      record env d hostKey interactions = (d', Some e') -> d' = d.
Proof.
  intros Hscan Hsucc Hdec. split.
  - destruct (prepare_decode_failure before i after prepared_zero e Hscan Hsucc Hdec)
      as (e' & He').
    exists e'. unfold RecordHostInteractions. by rewrite He'.
  - intros interactions d' e'. apply RecordHostInteractions_failed.
Qed.

(** X9.  A failed scan erases the settings: when the last scan of a batch
    failed, every row of [hosts] holds the conversion of the zero settings
    afterwards, which is not the zero [hostSettings], so that a host
    converted from such a row has settings, those of the zero value, and
    not none. *)
Theorem failed_scan_erases_settings (types_NewCurrency : option Z -> Z)
  (env : recordEnv) (d : DB) (hostKey : PublicKey)
  (before : list Interaction.t) (i : Interaction.t) (after : list Interaction.t)
  (d' : DB) :
  record env d hostKey (before ++ i :: after) = (d', None) ->
  Interaction.Type_ i = InteractionTypeScan ->
  scans_of after = [] ->
  Interaction.Success i = false ->
  forall k h, hosts d !! k = Some h ->
    exists h', hosts d' !! k = Some h'
      /\ dbHost.Settings h' = convertHostSettings rhpHostSettings.zero
      /\ Host.Settings (dbHost_convert types_NewCurrency h')
         = Some (hostSettings_convert types_NewCurrency
                   (convertHostSettings rhpHostSettings.zero)).
Proof.
  intros Hcall Hscan Hafter Hfail k h Hk.
  apply RecordHostInteractions_rows in Hcall as (us & Hall & ->).
  destruct (scans_last json_Unmarshal before i after us Hscan Hafter Hall)
    as (us0 & u & -> & sr & Hsr & ->).
  rewrite Hfail in Hsr. subst sr.
  rewrite list_lookup_fmap, Hk. simpl. eexists. split; [done|].
  rewrite exec_scans_snoc. simpl. by split.
Qed.

End RecorderMore.

(** ** Opening the store *)

Lemma stored_checkpoints_update newCCID now d :
  stored_checkpoints (update_ccid consensusInfoID newCCID now d)
  = (fun _ => newCCID) <$> stored_checkpoints d.
Proof.
  unfold stored_checkpoints, update_ccid. simpl.
  induction (consensus_infos d) as [|r rows IH]; [done|].
  rewrite fmap_cons. case_bool_decide as Hid.
  - rewrite !filter_cons_True by done. rewrite !fmap_cons. simpl. by rewrite IH.
  - rewrite !filter_cons_False by done. apply IH.
Qed.

Lemma consensus_info_IDs_update id newCCID now d :
  (Model.ID ∘ dbConsensusInfo.Model) <$> consensus_infos (update_ccid id newCCID now d)
  = (Model.ID ∘ dbConsensusInfo.Model) <$> consensus_infos d.
Proof.
  unfold update_ccid. simpl. rewrite <- list_fmap_compose.
  apply list_fmap_ext. intros i r _. simpl. by case_bool_decide.
Qed.

Lemma stored_checkpoints_same d d' :
  consensus_infos d' = consensus_infos d -> stored_checkpoints d' = stored_checkpoints d.
Proof. unfold stored_checkpoints. by intros ->. Qed.

Lemma NewSQLStore_Ok env d migrate interval d' st ccid :
  NewSQLStore env d migrate interval = (d', Ok (st, ccid)) ->
  st = mkSQLStore d' (clock_open env) interval [] 0%N
  /\ hosts d' = hosts d
  /\ host_announcements d' = host_announcements d
  /\ host_interactions d' = host_interactions d
  /\ autopilots d' = autopilots d
  /\ match stored_checkpoints d with
     | c :: _ => ccid = c /\ d' = d
     | [] =>
         ccid = ConsensusChangeBeginning
         /\ consensus_infos d'
            = consensus_infos d
                ++ [dbConsensusInfo.mk
                      (created consensusInfoID (now (env_first_or_create env)))
                      ConsensusChangeBeginning]
     end.
Proof.
  unfold NewSQLStore, first_or_create_consensus_info, stored_checkpoints.
  destruct (open_fault env); [done|].
  destruct (if migrate then _ else _); [done|].
  destruct (index_fault env); [done|].
  destruct (fault (env_first_or_create env)); [done|].
  destruct (filter _ (consensus_infos d)) as [|ci rest]; intros [= <- <- <-];
    by repeat split.
Qed.

Lemma NewSQLStore_opens env d migrate interval :
  opens env ->
  exists d' st ccid, NewSQLStore env d migrate interval = (d', Ok (st, ccid)).
Proof.
  intros (Ho & Hm & Hi & Hf).
  unfold NewSQLStore, first_or_create_consensus_info.
  rewrite Ho, Hm, Hi, Hf. destruct migrate; destruct (filter _ _); by eexists _, _, _.
Qed.

Lemma NewSQLStore_Err env d migrate interval d' e :
  NewSQLStore env d migrate interval = (d', Err e) -> d' = d.
Proof.
  unfold NewSQLStore.
  destruct (open_fault env); [by intros [= <-]|].
  destruct (if migrate then _ else _); [by intros [= <-]|].
  destruct (index_fault env); [by intros [= <-]|].
  destruct (first_or_create_consensus_info _ _) as [[ci d1]|e1]; [done|].
  by intros [= <-].
Qed.

Lemma stored_checkpoints_snoc_first d ci :
  stored_checkpoints d = [] ->
  Model.ID (dbConsensusInfo.Model ci) = consensusInfoID ->
  stored_checkpoints (set_consensus_infos (consensus_infos d ++ [ci]) d)
  = [dbConsensusInfo.CCID ci].
Proof.
  unfold stored_checkpoints. simpl. intros Hnone Hid.
  apply fmap_nil_inv in Hnone.
  rewrite filter_app, Hnone. simpl. by rewrite filter_cons_True.
Qed.

(** X10.  Opening is idempotent.  When [NewSQLStore] succeeds, the
    identifier it returns is the first checkpoint stored under
    [consensusInfoID] afterwards: the one that was stored, the database then
    being untouched, or [ConsensusChangeBeginning] in a row it created when
    there was none.  Host, announcement, interaction and autopilot tables
    are as before, the store starts with an empty queue, and opening the
    resulting database again returns the same identifier and changes
    nothing.  A call that fails leaves the database as it was. *)
Theorem NewSQLStore_is_idempotent (env : openEnv) (d : DB) (migrate : bool)
  (interval : time_Duration) (d' : DB) (st : SQLStore) (ccid : ConsensusChangeID) :
  NewSQLStore env d migrate interval = (d', Ok (st, ccid)) ->
  db st = d'
  /\ unappliedAnnouncements st = []
  /\ persistInterval st = interval
  /\ head (stored_checkpoints d') = Some ccid
  /\ (stored_checkpoints d = [] -> ccid = ConsensusChangeBeginning)
  /\ (stored_checkpoints d <> [] -> d' = d)
  /\ hosts d' = hosts d
  /\ host_announcements d' = host_announcements d
  /\ host_interactions d' = host_interactions d
  /\ autopilots d' = autopilots d
  /\ (forall env2 migrate2 interval2, opens env2 ->
        exists st2, NewSQLStore env2 d' migrate2 interval2 = (d', Ok (st2, ccid)))
  /\ (forall env2 d2 migrate2 interval2 d3 e,
        NewSQLStore env2 d2 migrate2 interval2 = (d3, Err e) -> d3 = d2).
Proof.
  intros Hopen.
  pose proof (NewSQLStore_Ok _ _ _ _ _ _ _ Hopen)
    as (-> & Hh & Ha & Hi & Hp & Hcase).
  assert (Hhead : head (stored_checkpoints d') = Some ccid).
  { destruct (stored_checkpoints d) as [|c rest] eqn:Hstored.
    - destruct Hcase as [-> Hrows].
      assert (Hd' : d' = set_consensus_infos
                (consensus_infos d
                   ++ [dbConsensusInfo.mk
                         (created consensusInfoID (now (env_first_or_create env)))
                         ConsensusChangeBeginning]) d).
      { destruct d', d. simpl in *. by subst. }
      rewrite Hd'. by rewrite stored_checkpoints_snoc_first.
    - destruct Hcase as [-> ->]. by rewrite Hstored. }
  split_and!; try done.
  - intros Hnone. rewrite Hnone in Hcase. by destruct Hcase.
  - intros Hsome. destruct (stored_checkpoints d); [done|]. by destruct Hcase.
  - intros env2 migrate2 interval2 Hopens.
    destruct (NewSQLStore_opens env2 d' migrate2 interval2 Hopens)
      as (d2 & st2 & ccid2 & Hopen2).
    pose proof (NewSQLStore_Ok _ _ _ _ _ _ _ Hopen2) as (_ & _ & _ & _ & _ & Hcase2).
    destruct (stored_checkpoints d') as [|c rest]; [done|].
    destruct Hcase2 as [-> ->]. injection Hhead as ->. by exists st2.
  - intros env2 d2 migrate2 interval2 d3 e. apply NewSQLStore_Err.
Qed.

(** ** More on the subscriber *)

Lemma upsert_host_keys_prefix now tbl r :
  (dbHost.PublicKey <$> tbl) `prefix_of` (dbHost.PublicKey <$> upsert_host now tbl r).
Proof.
  rewrite upsert_host_keys. case_bool_decide; [done|]. by apply prefix_app_r.
Qed.

Lemma upsert_hosts_keys_prefix now rows tbl :
  (dbHost.PublicKey <$> tbl)
    `prefix_of` (dbHost.PublicKey <$> foldl (upsert_host now) tbl rows).
Proof.
  revert tbl. induction rows as [|r rows IH]; intros tbl; simpl; [done|].
  etrans; [apply upsert_host_keys_prefix|apply IH].
Qed.

Section SubscriberMore.

Context {Block : Type}.
Variable ForEachAnnouncement : Block -> Z -> list (PublicKey * Announcement.t).
Variable BlockID_String : BlockID -> string.

Local Abbreviation process := (ProcessConsensusChange ForEachAnnouncement BlockID_String).
Local Abbreviation run := (run ForEachAnnouncement BlockID_String).
Local Abbreviation enqueue := (enqueue ForEachAnnouncement).
Local Abbreviation row_of := (row_of_announcement BlockID_String).
Local Abbreviation collected := (change_announcements ForEachAnnouncement).

Lemma enqueue_queue st cc :
  unappliedAnnouncements (enqueue st cc) = unappliedAnnouncements st ++ collected cc.
Proof. done. Qed.

(** A call leaves the database as it was or as the body of its flush made
    it. *)
Lemma process_db env st cc :
  db (process env st cc).1 = db st
  \/ flush_body BlockID_String env (enqueue st cc) (db st) = Ok (db (process env st cc).1).
Proof.
  unfold ProcessConsensusChange, apply_announcements.
  destruct (flush_due _ _); [|by left].
  unfold Transaction.
  destruct (flush_body _ _ _ _) as [d'|e] eqn:Hbody; [|by left].
  destruct (commit_fault env); [by left|by right].
Qed.

(** A flush that nothing fails commits the body. *)
Lemma process_flushes env st cc :
  no_faults env ->
  flush_due (clock_since env) (enqueue st cc) = true ->
  (process env st cc).2 = []
  /\ unappliedAnnouncements (process env st cc).1 = []
  /\ flush_body BlockID_String env (enqueue st cc) (db st) = Ok (db (process env st cc).1).
Proof.
  intros (Ha & Hh & Hc & Hcommit) Hdue.
  unfold ProcessConsensusChange, apply_announcements. rewrite Hdue.
  destruct (flush_body_no_fault BlockID_String env (enqueue st cc) (db st) Ha Hh Hc)
    as (d' & Hbody).
  unfold Transaction. change (db (enqueue st cc)) with (db st).
  by rewrite Hbody, Hcommit.
Qed.

(** X11.  A reopened store resumes from the last flush: after a call whose
    flush was due and met no failure, on a database that holds a checkpoint
    row, [NewSQLStore] returns the identifier of the change of that call and
    leaves the database as the flush made it. *)
Theorem reopened_store_resumes_from_flush (env : flushEnv) (st : SQLStore)
  (cc : ConsensusChange.t Block) (open_env : openEnv) (migrate : bool)
  (interval : time_Duration) :
  no_faults env ->
  flush_due (clock_since env) (enqueue st cc) = true ->
  stored_checkpoints (db st) <> [] ->
  opens open_env ->
  exists st2,
    NewSQLStore open_env (db (process env st cc).1) migrate interval
    = (db (process env st cc).1, Ok (st2, ConsensusChange.ID cc)).
Proof.
  intros Hno Hdue Hstored Hopens.
  destruct (process_flushes env st cc Hno Hdue) as (_ & _ & Hbody).
  apply flush_body_tables in Hbody as (_ & _ & Hc & _).
  apply stored_checkpoints_same in Hc. rewrite stored_checkpoints_update in Hc.
  destruct (NewSQLStore_opens open_env (db (process env st cc).1) migrate interval
              Hopens) as (d2 & st2 & ccid & Hopen).
  pose proof (NewSQLStore_Ok _ _ _ _ _ _ _ Hopen) as (_ & _ & _ & _ & _ & Hcase).
  rewrite Hc in Hcase. destruct (stored_checkpoints (db st)) as [|c rest]; [done|].
  simpl in Hcase. destruct Hcase as [-> ->]. by exists st2.
Qed.

(** The announcement rows a store accounts for: those in the table, then
    those of the queue. *)
Lemma process_accounts env st cc :
  no_faults env ->
  (announcement_with_Model Model_zero <$> host_announcements (db (process env st cc).1))
    ++ (row_of <$> unappliedAnnouncements (process env st cc).1)
  = (announcement_with_Model Model_zero <$> host_announcements (db st))
      ++ (row_of <$> unappliedAnnouncements st) ++ (row_of <$> collected cc)
  /\ (process env st cc).2 = [].
Proof.
  intros Hno.
  destruct (flush_due (clock_since env) (enqueue st cc)) eqn:Hdue.
  - destruct (process_flushes env st cc Hno Hdue) as (-> & -> & Hbody).
    split; [|done].
    apply flush_body_tables in Hbody as (_ & -> & _).
    destruct (create_announcements_rows (now (env_create_announcements env))
                (row_of <$> unappliedAnnouncements (enqueue st cc))
                (host_announcements (db st))) as (new & -> & Hnew).
    rewrite fmap_app, Hnew, row_of_announcement_Model_zero, enqueue_queue.
    by rewrite fmap_app, app_nil_r.
  - unfold ProcessConsensusChange. rewrite no_flush by done. simpl.
    by rewrite fmap_app.
Qed.

(** X12.  Nothing is lost and nothing is written twice while no statement
    fails: after any sequence of calls, the rows of the announcement table
    followed by the rows of the queue are the rows that were in the table,
    the rows that were queued and a row for every announcement of every
    change, in the order the changes came; nothing is printed. *)
Theorem fault_free_run_loses_nothing (st : SQLStore)
  (calls : list (flushEnv * ConsensusChange.t Block)) :
  Forall (fun call => no_faults call.1) calls ->
  (announcement_with_Model Model_zero <$> host_announcements (db (run st calls).1))
    ++ (row_of <$> unappliedAnnouncements (run st calls).1)
  = (announcement_with_Model Model_zero <$> host_announcements (db st))
      ++ (row_of <$> unappliedAnnouncements st)
      ++ (row_of <$> concat (collected <$> calls.*2))
  /\ (run st calls).2 = [].
Proof.
  revert st. induction calls as [|[env cc] rest IH]; intros st Hno; simpl.
  - by rewrite !app_nil_r.
  - apply Forall_cons in Hno as [Hno Hrest].
    destruct (process_accounts env st cc Hno) as [Hstep Hprinted].
    destruct (process env st cc) as [st1 printed1]. simpl in *.
    destruct (IH st1 Hrest) as [Hall Hnone].
    destruct (run st1 rest) as [st2 printed2]. simpl in *.
    split; [|by rewrite Hprinted, Hnone].
    rewrite Hall, fmap_app, !app_assoc. f_equal.
    by rewrite <- !app_assoc, <- Hstep.
Qed.

(** X13.  [ProcessConsensusChange] only appends, whatever fails: the
    announcement table after a call starts with the table before it, the
    host keys after it start with the host keys before it, the checkpoint
    table has the same rows by primary key, and the interaction and
    autopilot tables and the persist interval are as they were. *)
Theorem ProcessConsensusChange_only_appends (env : flushEnv) (st : SQLStore)
  (cc : ConsensusChange.t Block) :
  let out := process env st cc in
  host_announcements (db st) `prefix_of` host_announcements (db out.1)
  /\ (dbHost.PublicKey <$> hosts (db st)) `prefix_of` (dbHost.PublicKey <$> hosts (db out.1))
  /\ (Model.ID ∘ dbConsensusInfo.Model) <$> consensus_infos (db out.1)
     = (Model.ID ∘ dbConsensusInfo.Model) <$> consensus_infos (db st)
  /\ host_interactions (db out.1) = host_interactions (db st)
  /\ autopilots (db out.1) = autopilots (db st)
  /\ persistInterval out.1 = persistInterval st.
Proof.
  intros out. subst out.
  assert (Hinterval : persistInterval (process env st cc).1 = persistInterval st).
  { unfold ProcessConsensusChange, apply_announcements.
    destruct (flush_due _ _); [|done]. by destruct (Transaction _ _ _). }
  destruct (process_db env st cc) as [->|Hbody]; [by repeat split|].
  apply flush_body_tables in Hbody as (-> & -> & -> & -> & ->).
  split_and!; try done.
  - destruct (create_announcements_rows (now (env_create_announcements env))
                (row_of <$> unappliedAnnouncements (enqueue st cc))
                (host_announcements (db st))) as (new & -> & _).
    by apply prefix_app_r.
  - apply upsert_hosts_keys_prefix.
  - apply consensus_info_IDs_update.
Qed.

(** X14.  A flush with nothing to write: when the queue is empty and the
    change holds no announcement, a flush that is due runs the checkpoint
    statement alone.  The statements on announcements and hosts are not
    run, so their failure is of no account; the host and announcement
    tables are as they were and every checkpoint stored under
    [consensusInfoID] is the identifier of the change. *)
Theorem flush_of_empty_queue (env : flushEnv) (st : SQLStore)
  (cc : ConsensusChange.t Block) :
  unappliedAnnouncements st = [] ->
  collected cc = [] ->
  flush_due (clock_since env) (enqueue st cc) = true ->
  fault (env_update_ccid env) = None ->
  commit_fault env = None ->
  let out := process env st cc in
  out.2 = []
  /\ hosts (db out.1) = hosts (db st)
  /\ host_announcements (db out.1) = host_announcements (db st)
  /\ stored_checkpoints (db out.1)
     = (fun _ => ConsensusChange.ID cc) <$> stored_checkpoints (db st).
Proof.
  intros Hqueue Hnone Hdue Hc Hcommit out. subst out.
  unfold ProcessConsensusChange, apply_announcements. rewrite Hdue.
  unfold Transaction, flush_body.
  rewrite enqueue_queue, Hqueue, Hnone. simpl.
  unfold and_then, skip, updateCCID, stmt. rewrite Hc, Hcommit. simpl.
  split_and!; try done.
  apply (stored_checkpoints_update (ConsensusChange.ID cc)
           (now (env_update_ccid env)) (db st)).
Qed.

End SubscriberMore.

(** ** Reading autopilots *)

Section AutopilotMore.

Context {AutopilotConfig : Type}.
Variable Validate : AutopilotConfig -> option error.
Variable json_Marshal : AutopilotConfig -> result RawMessage.
Variable json_Unmarshal_config : RawMessage -> result AutopilotConfig.
Variable ErrAutopilotNotFound : error.

Local Abbreviation update := (UpdateAutopilot Validate json_Marshal).
Local Abbreviation read := (Autopilot json_Unmarshal_config ErrAutopilotNotFound).
Local Abbreviation read_all := (Autopilots json_Unmarshal_config).
Local Abbreviation convert := (dbAutopilot_convert json_Unmarshal_config).

Lemma UpdateAutopilot_Ok env d ap d' :
  update env d ap = (d', None) ->
  Autopilot.ID ap <> ""
  /\ Validate (Autopilot.Config ap) = None
  /\ exists cfg,
      json_Marshal (Autopilot.Config ap) = Ok cfg
      /\ d' = upsert_autopilot
                (dbAutopilot.mk Model_zero (Autopilot.ID ap) cfg
                   (Autopilot.CurrentPeriod ap)) (now env) d.
Proof.
  unfold UpdateAutopilot. case_bool_decide as Hid; [done|].
  destruct (Validate _); [done|].
  destruct (json_Marshal _) as [cfg|e]; [|done].
  unfold stmt. destruct (fault env); [done|]. intros [= <-].
  split; [done|]. split; [done|]. by exists cfg.
Qed.

Lemma UpdateAutopilot_tables env d ap :
  hosts (update env d ap).1 = hosts d
  /\ host_announcements (update env d ap).1 = host_announcements d
  /\ consensus_infos (update env d ap).1 = consensus_infos d
  /\ host_interactions (update env d ap).1 = host_interactions d
  /\ forall id, id <> Autopilot.ID ap ->
       autopilots (update env d ap).1 !! id = autopilots d !! id.
Proof.
  unfold UpdateAutopilot. case_bool_decide; [done|].
  destruct (Validate _); [done|].
  destruct (json_Marshal _); [|done].
  unfold stmt. destruct (fault env); [done|]. simpl.
  split_and!; try done. intros id Hne. by rewrite lookup_insert_ne.
Qed.

(** X15.  An autopilot that was stored is read back: after
    [UpdateAutopilot] returned no error, [Autopilot] for the identifier
    returns the autopilot as it was passed, identifier, configuration and
    period, provided its marshalled configuration unmarshals to it. *)
Theorem updated_autopilot_is_read_back (env : stmtEnv) (d : DB)
  (ap : Autopilot.t AutopilotConfig) (d' : DB) (cfg : RawMessage) :
  update env d ap = (d', None) ->
  json_Marshal (Autopilot.Config ap) = Ok cfg ->
  json_Unmarshal_config cfg = Ok (Autopilot.Config ap) ->
  read None d' (Autopilot.ID ap) = Returns (Ok ap).
Proof.
  intros Hupdate Hcfg Hback.
  apply UpdateAutopilot_Ok in Hupdate as (_ & _ & cfg' & Hcfg' & ->).
  rewrite Hcfg in Hcfg'. injection Hcfg' as <-.
  unfold Autopilot, upsert_autopilot. simpl. rewrite lookup_insert_eq.
  unfold dbAutopilot_convert. simpl. rewrite Hback. by destruct ap.
Qed.

(** X16.  [Autopilot] for an identifier without a row returns
    [ErrAutopilotNotFound] and does not panic; and [UpdateAutopilot] for one
    identifier, whatever it returns, does not change what [Autopilot]
    returns for another. *)
Theorem Autopilot_of_other_identifier (d : DB) (id : string) :
  (autopilots d !! id = None -> read None d id = Returns (Err ErrAutopilotNotFound))
  /\ forall query_fault env ap,
      id <> Autopilot.ID ap ->
      read query_fault (update env d ap).1 id = read query_fault d id.
Proof.
  split.
  - intros Hnone. unfold Autopilot. by rewrite Hnone.
  - intros query_fault env ap Hne. unfold Autopilot.
    destruct (UpdateAutopilot_tables env d ap) as (_ & _ & _ & _ & Hother).
    by rewrite Hother.
Qed.

Lemma upsert_autopilot_size r now d :
  size (autopilots (upsert_autopilot r now d))
  = match autopilots d !! dbAutopilot.Identifier r with
    | Some _ => size (autopilots d)
    | None => S (size (autopilots d))
    end.
Proof.
  unfold upsert_autopilot. simpl.
  destruct (autopilots d !! dbAutopilot.Identifier r) as [old|] eqn:Hold.
  - by erewrite map_size_insert_Some.
  - by rewrite map_size_insert_None.
Qed.

(** X17.  The last write wins and makes no second row: when two calls of
    [UpdateAutopilot] for the same identifier return no error, the table has
    as many rows after the second as after the first, and the row of the
    identifier keeps its primary key and creation time, is updated at the
    clock of the second call and holds the period and the marshalled
    configuration of the second autopilot. *)
Theorem second_update_overwrites (env1 env2 : stmtEnv) (d d1 d2 : DB)
  (ap1 ap2 : Autopilot.t AutopilotConfig) :
  update env1 d ap1 = (d1, None) ->
  update env2 d1 ap2 = (d2, None) ->
  Autopilot.ID ap2 = Autopilot.ID ap1 ->
  size (autopilots d2) = size (autopilots d1)
  /\ exists r1 r2,
      autopilots d1 !! Autopilot.ID ap1 = Some r1
      /\ autopilots d2 !! Autopilot.ID ap1 = Some r2
      /\ Model.ID (dbAutopilot.Model r2) = Model.ID (dbAutopilot.Model r1)
      /\ Model.CreatedAt (dbAutopilot.Model r2) = Model.CreatedAt (dbAutopilot.Model r1)
      /\ Model.UpdatedAt (dbAutopilot.Model r2) = now env2
      /\ dbAutopilot.CurrentPeriod r2 = Autopilot.CurrentPeriod ap2
      /\ json_Marshal (Autopilot.Config ap2) = Ok (dbAutopilot.Config r2).
Proof.
  intros H1 H2 Hid.
  assert (Hrow1 : is_Some (autopilots d1 !! Autopilot.ID ap1)).
  { apply UpdateAutopilot_Ok in H1 as (_ & _ & cfg1 & _ & ->).
    unfold upsert_autopilot. simpl. rewrite lookup_insert_eq. by eexists. }
  destruct Hrow1 as [r1 Hr1].
  apply UpdateAutopilot_Ok in H2 as (_ & _ & cfg2 & Hcfg2 & ->).
  rewrite Hid in *. split.
  - rewrite upsert_autopilot_size. simpl. by rewrite Hr1.
  - exists r1. eexists. split; [done|].
    unfold upsert_autopilot. simpl. rewrite lookup_insert_eq.
    split; [done|]. simpl. by rewrite Hr1.
Qed.

Lemma convert_all_Returns (entities : list dbAutopilot.t) :
  (forall r, r ∈ entities -> exists ap, convert r = Returns ap) ->
  exists found,
    convert_all json_Unmarshal_config entities = Returns found
    /\ Forall2 (fun r ap => convert r = Returns ap) entities found.
Proof.
  induction entities as [|r rest IH]; intros Hall; simpl.
  - by exists [].
  - destruct (Hall r) as (ap & Hap); [apply list_elem_of_here|].
    destruct IH as (found & Hfound & Hall2).
    { intros r0 Hr0. apply Hall. by apply list_elem_of_further. }
    exists (ap :: found). rewrite Hap, Hfound. split; [done|]. by constructor.
Qed.

Lemma convert_all_Panics (entities : list dbAutopilot.t) r e :
  r ∈ entities ->
  json_Unmarshal_config (dbAutopilot.Config r) = Err e ->
  convert_all json_Unmarshal_config entities
  = Panics "failed to unmarshal autopilot config".
Proof.
  intros Hr He. induction entities as [|r0 rest IH]; [by apply elem_of_nil in Hr|].
  simpl. apply elem_of_cons in Hr as [<-|Hr].
  - unfold dbAutopilot_convert. by rewrite He.
  - unfold dbAutopilot_convert at 1.
    destruct (json_Unmarshal_config (dbAutopilot.Config r0)); [|done].
    by rewrite IH.
Qed.

(** X18.  [Autopilots] lists every row or panics.  When the configuration
    of every row unmarshals, it returns as many autopilots as the table has
    rows, the conversion of each row among them.  When the configuration of
    one row does not unmarshal, [Autopilots] panics, and so does [Autopilot]
    for the identifier of that row; neither returns an error. *)
Theorem Autopilots_lists_every_row_or_panics (d : DB) :
  ((forall id r, autopilots d !! id = Some r ->
      exists cfg, json_Unmarshal_config (dbAutopilot.Config r) = Ok cfg) ->
   exists found,
     read_all None d = Returns (Ok found)
     /\ length found = size (autopilots d)
     /\ forall id r, autopilots d !! id = Some r ->
          exists ap, ap ∈ found /\ convert r = Returns ap)
  /\ (forall id r e, autopilots d !! id = Some r ->
        json_Unmarshal_config (dbAutopilot.Config r) = Err e ->
        read_all None d = Panics "failed to unmarshal autopilot config"
        /\ read None d id = Panics "failed to unmarshal autopilot config").
Proof.
  split.
  - intros Hall.
    destruct (convert_all_Returns ((map_to_list (autopilots d)).*2))
      as (found & Hfound & Hall2).
    { intros r Hr. apply list_elem_of_fmap in Hr as ([id r'] & -> & Hr).
      apply elem_of_map_to_list in Hr. destruct (Hall id r' Hr) as (cfg & Hcfg).
      unfold dbAutopilot_convert. simpl. rewrite Hcfg. by eexists. }
    exists found. unfold Autopilots. rewrite Hfound. split; [done|]. split.
    + rewrite <- (Forall2_length _ _ _ Hall2), length_fmap.
      by rewrite length_map_to_list.
    + intros id r Hr.
      assert (Hin : r ∈ (map_to_list (autopilots d)).*2).
      { apply list_elem_of_fmap. exists (id, r). split; [done|].
        by apply elem_of_map_to_list. }
      apply list_elem_of_lookup in Hin as (k & Hk).
      destruct (Forall2_lookup_l _ _ _ _ _ Hall2 Hk) as (ap & Hap & Hconv).
      exists ap. split; [by eapply list_elem_of_lookup_2|done].
  - intros id r e Hr He. split.
    + unfold Autopilots. erewrite convert_all_Panics; [done| |done].
      apply list_elem_of_fmap. exists (id, r). split; [done|].
      by apply elem_of_map_to_list.
    + unfold Autopilot. rewrite Hr. unfold dbAutopilot_convert. by rewrite He.
Qed.

End AutopilotMore.

(** ** Invariants of the store *)

Section Invariants.

Context {Block AutopilotConfig : Type}.
Variable ForEachAnnouncement : Block -> Z -> list (PublicKey * Announcement.t).
Variable BlockID_String : BlockID -> string.
Variable json_Unmarshal : RawMessage -> result ScanResult.t.
Variable Validate : AutopilotConfig -> option error.
Variable json_Marshal : AutopilotConfig -> result RawMessage.

Local Abbreviation process := (ProcessConsensusChange ForEachAnnouncement BlockID_String).
Local Abbreviation record := (RecordHostInteractions json_Unmarshal).
Local Abbreviation update := (UpdateAutopilot Validate json_Marshal).

Lemma RecordHostInteractions_tables env d hostKey interactions :
  dbHost.PublicKey <$> hosts (record env d hostKey interactions).1
  = dbHost.PublicKey <$> hosts d
  /\ consensus_infos (record env d hostKey interactions).1 = consensus_infos d.
Proof.
  destruct (record env d hostKey interactions) as [d' [e|]] eqn:Hcall; simpl.
  { by apply RecordHostInteractions_failed in Hcall as ->. }
  split.
  - apply RecordHostInteractions_rows in Hcall as (us & _ & ->).
    rewrite <- list_fmap_compose. apply list_fmap_ext. intros i h _. simpl.
    destruct (exec_scans_frame us
                (exec_counters (foldl count_successful 0%float interactions)
                   (foldl count_failed 0%float interactions) hostKey h))
      as (_ & -> & _).
    unfold exec_counters. by case_bool_decide.
  - by apply RecordHostInteractions_Ok in Hcall as (p & _ & ->).
Qed.

Lemma NewSQLStore_hosts env d migrate interval :
  hosts (NewSQLStore env d migrate interval).1 = hosts d.
Proof.
  destruct (NewSQLStore env d migrate interval) as [d' [[st ccid]|e]] eqn:Hopen; simpl.
  - by apply NewSQLStore_Ok in Hopen as (_ & -> & _).
  - by apply NewSQLStore_Err in Hopen as ->.
Qed.

(** X20.  Host keys stay unique.  When no two rows of [hosts] have the same
    public key, none do after [ProcessConsensusChange],
    [RecordHostInteractions], [UpdateAutopilot] or [NewSQLStore], whatever
    the call met and returned. *)
Theorem host_keys_stay_unique (d : DB) :
  NoDup (dbHost.PublicKey <$> hosts d) ->
  (forall env st cc, db st = d ->
      NoDup (dbHost.PublicKey <$> hosts (db (process env st cc).1)))
  /\ (forall env hostKey interactions,
        NoDup (dbHost.PublicKey <$> hosts (record env d hostKey interactions).1))
  /\ (forall env ap, NoDup (dbHost.PublicKey <$> hosts (update env d ap).1))
  /\ (forall env migrate interval,
        NoDup (dbHost.PublicKey <$> hosts (NewSQLStore env d migrate interval).1)).
Proof.
  intros Hnd. split_and!.
  - intros env st cc <-.
    destruct (process_db ForEachAnnouncement BlockID_String env st cc) as [->|Hbody];
      [done|].
    apply flush_body_tables in Hbody as (-> & _). by apply upsert_hosts_NoDup.
  - intros env hostKey interactions.
    by destruct (RecordHostInteractions_tables env d hostKey interactions) as [-> _].
  - intros env ap.
    by destruct (UpdateAutopilot_tables Validate json_Marshal env d ap) as (-> & _).
  - intros env migrate interval. by rewrite NewSQLStore_hosts.
Qed.

(** X21.  One checkpoint row.  [NewSQLStore], when it succeeds on a
    database without a row under [consensusInfoID], leaves exactly one; and
    [ProcessConsensusChange], [RecordHostInteractions], [UpdateAutopilot]
    and a further [NewSQLStore] on a database that has one neither add to
    the rows under that identifier nor remove any, whatever they meet. *)
Theorem checkpoint_row_is_kept (d : DB) :
  (forall env migrate interval d' st ccid,
      stored_checkpoints d = [] ->
      NewSQLStore env d migrate interval = (d', Ok (st, ccid)) ->
      length (stored_checkpoints d') = 1%nat)
  /\ (forall env st cc, db st = d ->
        length (stored_checkpoints (db (process env st cc).1))
        = length (stored_checkpoints d))
  /\ (forall env hostKey interactions,
        stored_checkpoints (record env d hostKey interactions).1 = stored_checkpoints d)
  /\ (forall env ap, stored_checkpoints (update env d ap).1 = stored_checkpoints d)
  /\ (forall env migrate interval,
        stored_checkpoints d <> [] ->
        stored_checkpoints (NewSQLStore env d migrate interval).1 = stored_checkpoints d).
Proof.
  split_and!.
  - intros env migrate interval d' st ccid Hnone Hopen.
    apply NewSQLStore_Ok in Hopen as (_ & _ & _ & _ & _ & Hcase).
    rewrite Hnone in Hcase. destruct Hcase as [_ Hrows].
    unfold stored_checkpoints in *. rewrite Hrows, filter_app.
    apply fmap_nil_inv in Hnone. by rewrite Hnone.
  - intros env st cc <-.
    destruct (process_db ForEachAnnouncement BlockID_String env st cc) as [->|Hbody];
      [done|].
    apply flush_body_tables in Hbody as (_ & _ & Hc & _).
    apply stored_checkpoints_same in Hc. rewrite Hc, stored_checkpoints_update.
    by rewrite length_fmap.
  - intros env hostKey interactions. apply stored_checkpoints_same.
    by destruct (RecordHostInteractions_tables env d hostKey interactions).
  - intros env ap. apply stored_checkpoints_same.
    by destruct (UpdateAutopilot_tables Validate json_Marshal env d ap) as (_ & _ & -> & _).
  - intros env migrate interval Hsome.
    destruct (NewSQLStore env d migrate interval) as [d' [[st ccid]|e]] eqn:Hopen; simpl.
    + apply NewSQLStore_Ok in Hopen as (_ & _ & _ & _ & _ & Hcase).
      destruct (stored_checkpoints d) eqn:Hstored; [done|].
      destruct Hcase as [_ ->]. by rewrite Hstored.
    + by apply NewSQLStore_Err in Hopen as ->.
Qed.

End Invariants.

(** * Further evaluation *)

Lemma hostSettings_round_trip_witness :
  currencies_not_negative sample_settings
  /\ hostSettings_convert sample_NewCurrency (convertHostSettings sample_settings)
     = sample_settings.
Proof.
  assert (Hs : currencies_not_negative sample_settings)
    by (unfold currencies_not_negative; simpl; lia).
  split; [exact Hs|].
  apply (hostSettings_round_trip sample_NewCurrency sample_settings); [|exact Hs].
  intros z _. reflexivity.
Defined.

Lemma hosts_db_keys_unique : NoDup (dbHost.PublicKey <$> hosts hosts_db).
Proof. apply (bool_decide_unpack _). by vm_compute. Qed.

Example sample_Host_lookups :
  Host sample_NewCurrency None hosts_db 8%N
  = (dbHost_convert sample_NewCurrency host_8, None)
  /\ Host sample_NewCurrency None hosts_db 6%N = (Host_zero, Some ErrHostNotFound)
  /\ Host sample_NewCurrency None hosts_db 0%N
     = (dbHost_convert sample_NewCurrency host_7, None)
  /\ Host sample_NewCurrency (Some "database is locked") hosts_db 8%N
     = (Host_zero, Some "database is locked").
Proof. by vm_compute. Qed.

Lemma Host_finds_stored_key_witness :
  Host sample_NewCurrency None hosts_db 6%N = (Host_zero, Some ErrHostNotFound)
  /\ exists h, h ∈ hosts hosts_db /\ dbHost.PublicKey h = 8%N
       /\ Host sample_NewCurrency None hosts_db 8%N
          = (dbHost_convert sample_NewCurrency h, None).
Proof.
  split.
  - apply (Host_finds_stored_key sample_NewCurrency hosts_db 6%N); [done|].
    apply (bool_decide_unpack _). by vm_compute.
  - apply (Host_finds_stored_key sample_NewCurrency hosts_db 8%N); [done|].
    apply (bool_decide_unpack _). by vm_compute.
Defined.

Lemma Host_zero_key_takes_first_row_witness :
  dbHost.PublicKey host_7 = 7%N
  /\ Host sample_NewCurrency None hosts_db 0%N
     = (dbHost_convert sample_NewCurrency host_7, None).
Proof.
  split; [reflexivity|].
  by apply (Host_zero_key_takes_first_row sample_NewCurrency hosts_db host_7
              [host_8; host_9]).
Defined.

Lemma Host_agrees_with_hostByPubKey_witness :
  hostByPubKey None hosts_db 8%N = (host_8, None)
  /\ Host sample_NewCurrency None hosts_db 8%N
     = (dbHost_convert sample_NewCurrency host_8, None).
Proof.
  split; [reflexivity|].
  exact (Host_agrees_with_hostByPubKey sample_NewCurrency None hosts_db 8%N
           ltac:(done)).
Defined.

Lemma Hosts_lists_stored_hosts_witness :
  Hosts sample_NewCurrency None hosts_db 0 2
  = Ok (dbHost_convert sample_NewCurrency <$> [host_7; host_8])
  /\ Host sample_NewCurrency None hosts_db (dbHost.PublicKey host_8)
     = (dbHost_convert sample_NewCurrency host_8, None).
Proof.
  assert (Hlisted : Hosts sample_NewCurrency None hosts_db 0 2
                    = Ok (dbHost_convert sample_NewCurrency <$> [host_7; host_8]))
    by reflexivity.
  split; [exact Hlisted|].
  destruct (Hosts_lists_stored_hosts sample_NewCurrency hosts_db 0 2 _
              ltac:(lia) Hlisted) as (_ & _ & Hagree).
  apply (Hagree hosts_db_keys_unique host_8); [|done].
  apply list_elem_of_further, list_elem_of_here.
Defined.

Lemma sample_insert :
  insertAnnouncements sample_BlockID_String (ok_at 800) (ok_at 801) sample_batch hosts_db
  = Ok hosts_db_announced.
Proof. reflexivity. Qed.

Lemma announced_host_is_found_witness :
  exists host,
    Host sample_NewCurrency None hosts_db_announced 5%N = (host, None)
    /\ Host.NetAddress host = "host5:9982"
    /\ Host.KnownSince host = 801
    /\ Host.Settings host = None.
Proof.
  destruct (announced_host_is_found sample_NewCurrency sample_BlockID_String
              (ok_at 800) (ok_at 801)
              [announcement.mk 8%N
                 (Announcement.mk (ChainIndex.mk 6 13%N) 700 "host8:9992")]
              (announcement.mk 5%N
                 (Announcement.mk (ChainIndex.mk 6 13%N) 700 "host5:9982"))
              [] hosts_db hosts_db_announced sample_insert)
    as (host & Hfound & _ & Haddress & Hfresh).
  { apply not_elem_of_nil. }
  { done. }
  destruct Hfresh as (Hsince & _ & Hsettings).
  { apply (bool_decide_unpack _). by vm_compute. }
  exists host. by repeat split.
Defined.

Example sample_unknown_host_is_not_created :
  let out := RecordHostInteractions sample_Unmarshal record_ok hosts_db 6%N
               [good_use_240] in
  out.2 = None
  /\ hosts out.1 = hosts hosts_db
  /\ length (host_interactions out.1) = 1%nat.
Proof. by vm_compute. Qed.

Lemma interactions_are_logged_witness :
  exists new,
    host_interactions hosts_db_scanned = host_interactions hosts_db ++ new
    /\ interaction_with_Model Model_zero <$> new
       = row_of_interaction <$> sample_interactions.
Proof.
  exact (proj1 (interactions_are_logged sample_Unmarshal record_ok hosts_db 7%N
                  sample_interactions hosts_db_scanned sample_record)).
Defined.

Lemma undecodable_scan_records_nothing_witness :
  sample_Unmarshal (Interaction.Result undecodable_scan_260)
  = Err "unexpected end of JSON input"
  /\ exists e,
      RecordHostInteractions sample_Unmarshal record_ok hosts_db 7%N
        ([good_use_240] ++ undecodable_scan_260 :: [failed_scan_250])
      = (hosts_db, Some e).
Proof.
  split; [reflexivity|].
  exact (proj1 (undecodable_scan_records_nothing sample_Unmarshal record_ok hosts_db
                  7%N [good_use_240] undecodable_scan_260 [failed_scan_250]
                  "unexpected end of JSON input" eq_refl eq_refl eq_refl)).
Defined.

Lemma failed_scan_erases_settings_witness :
  exists h', hosts hosts_db_scanned !! 0%nat = Some h'
    /\ dbHost.Settings h' = convertHostSettings rhpHostSettings.zero
    /\ Host.Settings (dbHost_convert sample_NewCurrency h')
       = Some (hostSettings_convert sample_NewCurrency
                 (convertHostSettings rhpHostSettings.zero)).
Proof.
  exact (failed_scan_erases_settings sample_Unmarshal sample_NewCurrency record_ok
           hosts_db 7%N [good_use_240] failed_scan_250 [] hosts_db_scanned
           sample_record eq_refl eq_refl eq_refl 0%nat host_7 eq_refl).
Defined.

Example sample_open :
  (NewSQLStore open_ok empty_db true 60).2
  = Ok (mkSQLStore (mkDB [] [] [dbConsensusInfo.mk (created 1 5) 0%N] [] ∅) 6 60 [] 0%N,
        ConsensusChangeBeginning)
  /\ (NewSQLStore open_ok sample_db false 60).1 = sample_db.
Proof. by vm_compute. Qed.

Lemma NewSQLStore_is_idempotent_witness :
  exists d' st,
    NewSQLStore open_ok empty_db true 60 = (d', Ok (st, ConsensusChangeBeginning))
    /\ head (stored_checkpoints d') = Some ConsensusChangeBeginning
    /\ exists st2,
        NewSQLStore open_ok d' false 30 = (d', Ok (st2, ConsensusChangeBeginning)).
Proof.
  eexists _, _. split; [reflexivity|].
  destruct (NewSQLStore_is_idempotent open_ok empty_db true 60 _ _ _ eq_refl)
    as (_ & _ & _ & Hhead & _ & _ & _ & _ & _ & _ & Hagain & _).
  split; [exact Hhead|]. apply (Hagain open_ok false 30). by repeat split.
Defined.

Lemma reopened_store_resumes_from_flush_witness :
  exists st2,
    NewSQLStore open_ok (db (sample_process env_late sample_store sample_change).1)
      false 60
    = (db (sample_process env_late sample_store sample_change).1, Ok (st2, 42%N)).
Proof.
  apply (reopened_store_resumes_from_flush sample_ForEachAnnouncement
           sample_BlockID_String env_late sample_store sample_change open_ok false 60).
  - by repeat split.
  - reflexivity.
  - discriminate.
  - by repeat split.
Defined.

Example sample_flushing_calls :
  let out := run sample_ForEachAnnouncement sample_BlockID_String sample_store
               flushing_calls in
  dbAnnouncement.BlockHeight <$> host_announcements (db out.1) = [4; 5; 5]
  /\ unappliedAnnouncements out.1 = []
  /\ stored_checkpoints (db out.1) = [43%N].
Proof. by vm_compute. Qed.

Lemma fault_free_run_loses_nothing_witness :
  Forall (fun call : flushEnv * ConsensusChange.t sampleBlock => no_faults call.1)
    flushing_calls
  /\ (run sample_ForEachAnnouncement sample_BlockID_String sample_store
        flushing_calls).2 = [].
Proof.
  assert (Hno : Forall (fun call : flushEnv * ConsensusChange.t sampleBlock =>
                          no_faults call.1) flushing_calls)
    by (repeat constructor).
  split; [exact Hno|].
  exact (proj2 (fault_free_run_loses_nothing sample_ForEachAnnouncement
                  sample_BlockID_String sample_store flushing_calls Hno)).
Defined.

Lemma flush_of_empty_queue_witness :
  let out := sample_process env_late sample_store empty_change in
  out.2 = []
  /\ hosts (db out.1) = hosts (db sample_store)
  /\ host_announcements (db out.1) = host_announcements (db sample_store)
  /\ stored_checkpoints (db out.1) = [43%N].
Proof.
  exact (flush_of_empty_queue sample_ForEachAnnouncement sample_BlockID_String
           env_late sample_store empty_change eq_refl eq_refl eq_refl eq_refl eq_refl).
Defined.

Lemma sample_update_5 :
  UpdateAutopilot sample_Validate sample_Marshal (ok_at 10) sample_db autopilot_5
  = (autopilot_db_5, None).
Proof. reflexivity. Qed.

Lemma sample_update_7 :
  UpdateAutopilot sample_Validate sample_Marshal (ok_at 20) autopilot_db_5 autopilot_7
  = (autopilot_db_7, None).
Proof. reflexivity. Qed.

Lemma updated_autopilot_is_read_back_witness :
  Autopilot sample_Unmarshal_config sample_ErrAutopilotNotFound None autopilot_db_5
    "autopilot"
  = Returns (Ok autopilot_5).
Proof.
  exact (updated_autopilot_is_read_back sample_Validate sample_Marshal
           sample_Unmarshal_config sample_ErrAutopilotNotFound (ok_at 10) sample_db
           autopilot_5 autopilot_db_5 "5" sample_update_5 eq_refl eq_refl).
Defined.

Lemma second_update_overwrites_witness :
  size (autopilots autopilot_db_7) = size (autopilots autopilot_db_5)
  /\ Autopilot sample_Unmarshal_config sample_ErrAutopilotNotFound None autopilot_db_7
       "autopilot"
     = Returns (Ok autopilot_7).
Proof.
  split.
  - exact (proj1 (second_update_overwrites sample_Validate sample_Marshal
                    (ok_at 10) (ok_at 20) sample_db autopilot_db_5 autopilot_db_7
                    autopilot_5 autopilot_7 sample_update_5 sample_update_7 eq_refl)).
  - reflexivity.
Defined.

Example sample_autopilots :
  Autopilots sample_Unmarshal_config None autopilot_db_7 = Returns (Ok [autopilot_7])
  /\ Autopilot sample_Unmarshal_config sample_ErrAutopilotNotFound None autopilot_db_7
       "other"
     = Returns (Err sample_ErrAutopilotNotFound)
  /\ Autopilots (fun _ => Err "invalid character") None autopilot_db_7
     = (Panics "failed to unmarshal autopilot config" : outcome (result (list (Autopilot.t Z)))).
Proof. by vm_compute. Qed.

Lemma host_keys_stay_unique_witness :
  NoDup (dbHost.PublicKey <$> hosts hosts_db)
  /\ NoDup (dbHost.PublicKey
              <$> hosts (RecordHostInteractions sample_Unmarshal record_ok hosts_db 7%N
                           sample_interactions).1).
Proof.
  split; [exact hosts_db_keys_unique|].
  apply (host_keys_stay_unique (Block := sampleBlock) sample_ForEachAnnouncement
           sample_BlockID_String sample_Unmarshal sample_Validate sample_Marshal
           hosts_db hosts_db_keys_unique).
Defined.
